(** * Transaction handling on GTM: a shallow embedding of [gtm_txn.c]

    The transaction array [GTMTransactions], the list of open
    transactions, the GXID generator and the begin / prepare / commit /
    rollback entry points of [src/gtm/main/gtm_txn.c], written as Rocq
    functions over an explicit state, followed by the properties of the
    transaction manager that are checked against them.

    Conventions.
    - A [uint32] or [int] of the C code is a [Z]; where the C arithmetic
      wraps, the wrap is written out with [u32] and [int32].
    - A pointer into [gt_transactions_array] is the index ([nat]) of the
      slot it addresses; [NULL] is [None]. The list
      [gt_open_transactions] is a list of such pointers.
    - Locks ([GTM_RWLockAcquire] / [GTM_RWLockRelease]), memory contexts
      and [elog] output are not part of the state: every function is
      read as executing alone.
    - [ereport(ERROR, ...)] leaves the function through the error
      handler; the state that has been built up to that point stays
      behind. *)

From Stdlib Require Import ZArith Lia Bool.
From stdpp Require Import base list strings.

#[local] Open Scope Z_scope.

(** ** Constants declared in the headers *)

(** The numeric constants of [gtm_txn.h] and [gtm.h] are tunables of a
    build; the development is parametric in them. The three lengths
    are the sizes in bytes of the buffers for a session id, a GID and a
    node string. *)
Class GTM_Config := {
  GTM_MAX_GLOBAL_TRANSACTIONS : Z;
  CONTROL_INTERVAL : Z;
  GTM_MAX_SESSION_ID_LEN : nat;
  GTM_MAX_GID_LEN : nat;
  GTM_MAX_NODESTRING_LEN : nat;
}.

Definition GlobalTransactionId := Z.
Definition GTM_TransactionHandle := Z.

(** Value of a C expression of type [uint32]. *)
Definition u32 (z : Z) : Z := z mod 2 ^ 32.

(** A [uint32] read as [int32] (two's complement). *)
Definition int32 (z : Z) : Z :=
  let w := u32 z in if w <? 2 ^ 31 then w else w - 2 ^ 32.

(** Modelled from the spec: the identifier constants of [gtm_gxid.h]
    (not among the sources). The invalid GXID is [0]; [FirstNormalGxid]
    is "a small constant, e.g. 3", values below it are reserved. *)
Definition InvalidGlobalTransactionId : GlobalTransactionId := 0.
Definition FirstNormalGlobalTransactionId : GlobalTransactionId := 3.

(** Declared in [gtm_txn.h]: the handle that stands for "no transaction". *)
Definition InvalidTransactionHandle : GTM_TransactionHandle := -1.

(** Modelled from the spec: status values, "STATUS_OK = 0,
    STATUS_ERROR = 1, STATUS_DELAYED = 2". *)
Definition STATUS_OK : Z := 0.
Definition STATUS_ERROR : Z := 1.
Definition STATUS_DELAYED : Z := 2.

Definition GlobalTransactionIdIsValid (gxid : GlobalTransactionId) : bool :=
  negb (gxid =? InvalidGlobalTransactionId).

Definition GlobalTransactionIdIsNormal (gxid : GlobalTransactionId) : bool :=
  FirstNormalGlobalTransactionId <=? gxid.

Definition GlobalTransactionIdEquals (id1 id2 : GlobalTransactionId) : bool :=
  id1 =? id2.

(** Modelled from the spec: the comparison functions of the GXID module
    (not among the sources). "Comparison uses modular follows/precedes
    semantics (the 32-bit signed-difference convention)". *)
Definition GlobalTransactionIdPrecedes (id1 id2 : GlobalTransactionId) : bool :=
  int32 (id1 - id2) <? 0.

Definition GlobalTransactionIdPrecedesOrEquals (id1 id2 : GlobalTransactionId) : bool :=
  int32 (id1 - id2) <=? 0.


Definition GlobalTransactionIdFollowsOrEquals (id1 id2 : GlobalTransactionId) : bool :=
  0 <=? int32 (id1 - id2).

(** Modelled from the spec: the macro [GlobalTransactionIdAdvance] of
    [gtm_gxid.h]. "Advance next_gxid by one, skipping the reserved low
    range on wrap." *)
Definition GlobalTransactionIdAdvance (dest : GlobalTransactionId) : GlobalTransactionId :=
  let d := u32 (dest + 1) in
  if d <? FirstNormalGlobalTransactionId then FirstNormalGlobalTransactionId else d.

(** Modelled from the spec: the macro [GTM_CLIENT_ID_EQ] of [gtm.h];
    the reaper removes the slots "whose (client_id, proxy_client_id)
    matches". *)
Definition GTM_CLIENT_ID_EQ (a b : Z) : bool := a =? b.

(** [strncpy (dst, src, n)] into a buffer of [n] characters: the
    characters of the buffer afterwards. At most [n] characters of
    [src] arrive. When [src] has fewer than [n] characters the
    terminator is written and the buffer holds the C string [src]; when
    it has [n] characters or more the buffer is full and has no
    terminator. A buffer content of [n] characters therefore stands for
    a buffer that does not hold a C string ([buffer_terminated]). *)
Definition strncpy (n : nat) (src : string) : string := String.substring 0 n src.

(** Whether a buffer of [n] characters with content [buf] holds a
    terminated C string. *)
Definition buffer_terminated (n : nat) (buf : string) : bool :=
  (String.length buf <? n)%nat.

(** ** Data *)

(** Modelled from the spec: the enumeration [GTM_TransactionStates] of
    [gtm_txn.h], with the names this file uses; [GTM_TXN_IN_PROGRESS]
    is the state the spec calls Running. *)
Inductive GTM_TransactionStates :=
| GTM_TXN_STARTING
| GTM_TXN_IN_PROGRESS
| GTM_TXN_PREPARE_IN_PROGRESS
| GTM_TXN_PREPARED
| GTM_TXN_COMMIT_IN_PROGRESS
| GTM_TXN_ABORT_IN_PROGRESS
| GTM_TXN_ABORTED.

#[global] Instance GTM_TransactionStates_eq_dec : EqDecision GTM_TransactionStates.
Proof. solve_decision. Defined.

Inductive GTM_States := GTM_STARTING | GTM_RUNNING | GTM_SHUTTING_DOWN.

#[global] Instance GTM_States_eq_dec : EqDecision GTM_States.
Proof. solve_decision. Defined.

(** One slot of the transaction array. Sequences are opaque handles. *)
Record GTM_TransactionInfo := {
  gti_handle : GTM_TransactionHandle;
  gti_client_id : Z;
  gti_proxy_client_id : Z;
  gti_in_use : bool;
  gti_gxid : GlobalTransactionId;
  gti_state : GTM_TransactionStates;
  gti_xmin : GlobalTransactionId;
  gti_isolevel : Z;
  gti_readonly : bool;
  gti_global_session_id : string;
  nodestring : option string;
  gti_gid : option string;
  gti_snapshot_set : bool;
  gti_vacuum : bool;
  gti_created_seqs : list Z;
  gti_dropped_seqs : list Z;
  gti_altered_seqs : list Z;
}.

(** The global [GTMTransactions]. *)
Record GTM_Transactions := {
  gt_nextXid : GlobalTransactionId;
  gt_backedUpXid : GlobalTransactionId;
  gt_oldestXid : GlobalTransactionId;
  gt_xidVacLimit : GlobalTransactionId;
  gt_xidWarnLimit : GlobalTransactionId;
  gt_xidStopLimit : GlobalTransactionId;
  gt_xidWrapLimit : GlobalTransactionId;
  gt_latestCompletedXid : GlobalTransactionId;
  gt_recent_global_xmin : GlobalTransactionId;
  gt_lastslot : Z;
  gt_transactions_array : list GTM_TransactionInfo;
  gt_open_transactions : list nat;
  gt_gtm_state : GTM_States;
}.

(** Calls into the sequence module made while a slot is cleaned. *)
Inductive seq_call :=
| GTM_SeqRemoveCreated (seq : Z)
| GTM_SeqRestoreDropped (seq : Z)
| GTM_SeqRestoreAltered (seq : Z)
| GTM_SeqRemoveDropped (seq : Z)
| GTM_SeqRemoveAltered (seq : Z).

(** The globals of the file, with what it leaves in its collaborators:
    [control_file] lists the values written by [SaveControlInfo ()]
    (oldest first), [need_backup] is the flag raised by
    [GTM_SetNeedBackup ()], [seq_calls] the calls made into the sequence
    module (oldest first). *)
Record GTM_Globals := {
  GTMTransactions : GTM_Transactions;
  ControlXid : GlobalTransactionId;
  control_file : list GlobalTransactionId;
  need_backup : bool;
  seq_calls : list seq_call;
}.

(** How a call ends. *)
Inductive outcome (A : Type) :=
| Returned (a : A) (g : GTM_Globals)
    (* the function returns [a] *)
| Raised (g : GTM_Globals)
    (* [ereport (ERROR, ...)]: the request is abandoned, [g] stays behind *)
| AssertFailed (g : GTM_Globals)
    (* an [Assert] fails in a build with assertion checking *)
| Undefined.
    (* a NULL pointer is dereferenced or the array is read out of bounds *)

Arguments Returned {A} a g.
Arguments Raised {A} g.
Arguments AssertFailed {A} g.
Arguments Undefined {A}.

(** ** Field updates *)

Definition set_gt_array (arr : list GTM_TransactionInfo) (t : GTM_Transactions) : GTM_Transactions :=
  {| gt_nextXid := gt_nextXid t; gt_backedUpXid := gt_backedUpXid t;
     gt_oldestXid := gt_oldestXid t; gt_xidVacLimit := gt_xidVacLimit t;
     gt_xidWarnLimit := gt_xidWarnLimit t; gt_xidStopLimit := gt_xidStopLimit t;
     gt_xidWrapLimit := gt_xidWrapLimit t;
     gt_latestCompletedXid := gt_latestCompletedXid t;
     gt_recent_global_xmin := gt_recent_global_xmin t;
     gt_lastslot := gt_lastslot t;
     gt_transactions_array := arr;
     gt_open_transactions := gt_open_transactions t;
     gt_gtm_state := gt_gtm_state t |}.

Definition set_gt_open (l : list nat) (t : GTM_Transactions) : GTM_Transactions :=
  {| gt_nextXid := gt_nextXid t; gt_backedUpXid := gt_backedUpXid t;
     gt_oldestXid := gt_oldestXid t; gt_xidVacLimit := gt_xidVacLimit t;
     gt_xidWarnLimit := gt_xidWarnLimit t; gt_xidStopLimit := gt_xidStopLimit t;
     gt_xidWrapLimit := gt_xidWrapLimit t;
     gt_latestCompletedXid := gt_latestCompletedXid t;
     gt_recent_global_xmin := gt_recent_global_xmin t;
     gt_lastslot := gt_lastslot t;
     gt_transactions_array := gt_transactions_array t;
     gt_open_transactions := l;
     gt_gtm_state := gt_gtm_state t |}.

Definition set_gt_lastslot (i : Z) (t : GTM_Transactions) : GTM_Transactions :=
  {| gt_nextXid := gt_nextXid t; gt_backedUpXid := gt_backedUpXid t;
     gt_oldestXid := gt_oldestXid t; gt_xidVacLimit := gt_xidVacLimit t;
     gt_xidWarnLimit := gt_xidWarnLimit t; gt_xidStopLimit := gt_xidStopLimit t;
     gt_xidWrapLimit := gt_xidWrapLimit t;
     gt_latestCompletedXid := gt_latestCompletedXid t;
     gt_recent_global_xmin := gt_recent_global_xmin t;
     gt_lastslot := i;
     gt_transactions_array := gt_transactions_array t;
     gt_open_transactions := gt_open_transactions t;
     gt_gtm_state := gt_gtm_state t |}.

Definition set_gt_nextXid (x : GlobalTransactionId) (t : GTM_Transactions) : GTM_Transactions :=
  {| gt_nextXid := x; gt_backedUpXid := gt_backedUpXid t;
     gt_oldestXid := gt_oldestXid t; gt_xidVacLimit := gt_xidVacLimit t;
     gt_xidWarnLimit := gt_xidWarnLimit t; gt_xidStopLimit := gt_xidStopLimit t;
     gt_xidWrapLimit := gt_xidWrapLimit t;
     gt_latestCompletedXid := gt_latestCompletedXid t;
     gt_recent_global_xmin := gt_recent_global_xmin t;
     gt_lastslot := gt_lastslot t;
     gt_transactions_array := gt_transactions_array t;
     gt_open_transactions := gt_open_transactions t;
     gt_gtm_state := gt_gtm_state t |}.

Definition set_gt_latestCompletedXid (x : GlobalTransactionId) (t : GTM_Transactions) : GTM_Transactions :=
  {| gt_nextXid := gt_nextXid t; gt_backedUpXid := gt_backedUpXid t;
     gt_oldestXid := gt_oldestXid t; gt_xidVacLimit := gt_xidVacLimit t;
     gt_xidWarnLimit := gt_xidWarnLimit t; gt_xidStopLimit := gt_xidStopLimit t;
     gt_xidWrapLimit := gt_xidWrapLimit t;
     gt_latestCompletedXid := x;
     gt_recent_global_xmin := gt_recent_global_xmin t;
     gt_lastslot := gt_lastslot t;
     gt_transactions_array := gt_transactions_array t;
     gt_open_transactions := gt_open_transactions t;
     gt_gtm_state := gt_gtm_state t |}.

Definition set_gt_gtm_state (s : GTM_States) (t : GTM_Transactions) : GTM_Transactions :=
  {| gt_nextXid := gt_nextXid t; gt_backedUpXid := gt_backedUpXid t;
     gt_oldestXid := gt_oldestXid t; gt_xidVacLimit := gt_xidVacLimit t;
     gt_xidWarnLimit := gt_xidWarnLimit t; gt_xidStopLimit := gt_xidStopLimit t;
     gt_xidWrapLimit := gt_xidWrapLimit t;
     gt_latestCompletedXid := gt_latestCompletedXid t;
     gt_recent_global_xmin := gt_recent_global_xmin t;
     gt_lastslot := gt_lastslot t;
     gt_transactions_array := gt_transactions_array t;
     gt_open_transactions := gt_open_transactions t;
     gt_gtm_state := s |}.

Definition set_GTMTransactions (t : GTM_Transactions) (g : GTM_Globals) : GTM_Globals :=
  {| GTMTransactions := t; ControlXid := ControlXid g;
     control_file := control_file g; need_backup := need_backup g;
     seq_calls := seq_calls g |}.

Definition set_ControlXid (x : GlobalTransactionId) (g : GTM_Globals) : GTM_Globals :=
  {| GTMTransactions := GTMTransactions g; ControlXid := x;
     control_file := control_file g; need_backup := need_backup g;
     seq_calls := seq_calls g |}.

Definition set_control_file (l : list GlobalTransactionId) (g : GTM_Globals) : GTM_Globals :=
  {| GTMTransactions := GTMTransactions g; ControlXid := ControlXid g;
     control_file := l; need_backup := need_backup g;
     seq_calls := seq_calls g |}.

Definition set_need_backup (b : bool) (g : GTM_Globals) : GTM_Globals :=
  {| GTMTransactions := GTMTransactions g; ControlXid := ControlXid g;
     control_file := control_file g; need_backup := b;
     seq_calls := seq_calls g |}.

Definition set_seq_calls (l : list seq_call) (g : GTM_Globals) : GTM_Globals :=
  {| GTMTransactions := GTMTransactions g; ControlXid := ControlXid g;
     control_file := control_file g; need_backup := need_backup g;
     seq_calls := l |}.

(** [p->field = v] for a pointer [p] into the array. *)
Definition store_txninfo (p : nat) (f : GTM_TransactionInfo → GTM_TransactionInfo)
    (g : GTM_Globals) : GTM_Globals :=
  set_GTMTransactions
    (set_gt_array (alter f p (gt_transactions_array (GTMTransactions g)))
       (GTMTransactions g)) g.

Definition set_gti_state (s : GTM_TransactionStates) (i : GTM_TransactionInfo) : GTM_TransactionInfo :=
  {| gti_handle := gti_handle i; gti_client_id := gti_client_id i;
     gti_proxy_client_id := gti_proxy_client_id i; gti_in_use := gti_in_use i;
     gti_gxid := gti_gxid i; gti_state := s; gti_xmin := gti_xmin i;
     gti_isolevel := gti_isolevel i; gti_readonly := gti_readonly i;
     gti_global_session_id := gti_global_session_id i;
     nodestring := nodestring i; gti_gid := gti_gid i;
     gti_snapshot_set := gti_snapshot_set i; gti_vacuum := gti_vacuum i;
     gti_created_seqs := gti_created_seqs i;
     gti_dropped_seqs := gti_dropped_seqs i;
     gti_altered_seqs := gti_altered_seqs i |}.

Definition set_gti_gxid (x : GlobalTransactionId) (i : GTM_TransactionInfo) : GTM_TransactionInfo :=
  {| gti_handle := gti_handle i; gti_client_id := gti_client_id i;
     gti_proxy_client_id := gti_proxy_client_id i; gti_in_use := gti_in_use i;
     gti_gxid := x; gti_state := gti_state i; gti_xmin := gti_xmin i;
     gti_isolevel := gti_isolevel i; gti_readonly := gti_readonly i;
     gti_global_session_id := gti_global_session_id i;
     nodestring := nodestring i; gti_gid := gti_gid i;
     gti_snapshot_set := gti_snapshot_set i; gti_vacuum := gti_vacuum i;
     gti_created_seqs := gti_created_seqs i;
     gti_dropped_seqs := gti_dropped_seqs i;
     gti_altered_seqs := gti_altered_seqs i |}.

Definition set_gti_global_session_id (s : string) (i : GTM_TransactionInfo) : GTM_TransactionInfo :=
  {| gti_handle := gti_handle i; gti_client_id := gti_client_id i;
     gti_proxy_client_id := gti_proxy_client_id i; gti_in_use := gti_in_use i;
     gti_gxid := gti_gxid i; gti_state := gti_state i; gti_xmin := gti_xmin i;
     gti_isolevel := gti_isolevel i; gti_readonly := gti_readonly i;
     gti_global_session_id := s;
     nodestring := nodestring i; gti_gid := gti_gid i;
     gti_snapshot_set := gti_snapshot_set i; gti_vacuum := gti_vacuum i;
     gti_created_seqs := gti_created_seqs i;
     gti_dropped_seqs := gti_dropped_seqs i;
     gti_altered_seqs := gti_altered_seqs i |}.

Definition set_gti_vacuum (b : bool) (i : GTM_TransactionInfo) : GTM_TransactionInfo :=
  {| gti_handle := gti_handle i; gti_client_id := gti_client_id i;
     gti_proxy_client_id := gti_proxy_client_id i; gti_in_use := gti_in_use i;
     gti_gxid := gti_gxid i; gti_state := gti_state i; gti_xmin := gti_xmin i;
     gti_isolevel := gti_isolevel i; gti_readonly := gti_readonly i;
     gti_global_session_id := gti_global_session_id i;
     nodestring := nodestring i; gti_gid := gti_gid i;
     gti_snapshot_set := gti_snapshot_set i; gti_vacuum := b;
     gti_created_seqs := gti_created_seqs i;
     gti_dropped_seqs := gti_dropped_seqs i;
     gti_altered_seqs := gti_altered_seqs i |}.

(** The writes of [GTM_StartPreparedTransaction] to the slot: the state
    and the two buffers, for strings that fit them (the function does
    not get here with a string that does not, see
    [GTM_StartPreparedTransaction]). *)
Definition set_prepare_data (gid ns : string) (i : GTM_TransactionInfo) : GTM_TransactionInfo :=
  {| gti_handle := gti_handle i; gti_client_id := gti_client_id i;
     gti_proxy_client_id := gti_proxy_client_id i; gti_in_use := gti_in_use i;
     gti_gxid := gti_gxid i; gti_state := GTM_TXN_PREPARE_IN_PROGRESS;
     gti_xmin := gti_xmin i;
     gti_isolevel := gti_isolevel i; gti_readonly := gti_readonly i;
     gti_global_session_id := gti_global_session_id i;
     nodestring := Some ns; gti_gid := Some gid;
     gti_snapshot_set := gti_snapshot_set i; gti_vacuum := gti_vacuum i;
     gti_created_seqs := gti_created_seqs i;
     gti_dropped_seqs := gti_dropped_seqs i;
     gti_altered_seqs := gti_altered_seqs i |}.

(** ** The functions of [gtm_txn.c] *)

Section Txn.
Context `{cfg : GTM_Config}.

(** *** Lookups *)

(** [gtm_foreach (elem, gt_open_transactions)] with a [break] at the
    first slot that satisfies [P]. *)
Fixpoint gtm_foreach_find (P : GTM_TransactionInfo → bool)
    (arr : list GTM_TransactionInfo) (cells : list nat) : option GTM_TransactionInfo :=
  match cells with
  | [] => None
  | p :: rest =>
      match arr !! p with
      | Some i => if P i then Some i else gtm_foreach_find P arr rest
      | None => gtm_foreach_find P arr rest
      end
  end.

Definition open_find (P : GTM_TransactionInfo → bool) (t : GTM_Transactions) :
    option GTM_TransactionInfo :=
  gtm_foreach_find P (gt_transactions_array t) (gt_open_transactions t).

Definition GTM_GXIDToHandle_Internal (t : GTM_Transactions)
    (gxid : GlobalTransactionId) : GTM_TransactionHandle :=
  if negb (GlobalTransactionIdIsValid gxid) then InvalidTransactionHandle
  else match open_find (λ i, GlobalTransactionIdEquals (gti_gxid i) gxid) t with
       | Some i => gti_handle i
       | None => InvalidTransactionHandle
       end.

Definition GTM_GXIDToHandle := GTM_GXIDToHandle_Internal.

(** [strcmp (gtm_txninfo->gti_global_session_id, global_sessionid) == 0].
    On a buffer that [strncpy] left without terminator the comparison
    does not stop at the end of the buffer: it goes on into the members
    of the slot that follow and finds no match. *)
Definition session_matches (sid : string) (i : GTM_TransactionInfo) : bool :=
  buffer_terminated GTM_MAX_SESSION_ID_LEN (gti_global_session_id i)
  && String.eqb (gti_global_session_id i) sid.

Definition GTM_GlobalSessionIDToHandle (t : GTM_Transactions)
    (global_sessionid : option string) : GTM_TransactionHandle :=
  match global_sessionid with
  | None => InvalidTransactionHandle
  | Some sid =>
      if String.eqb sid "" then InvalidTransactionHandle
      else match open_find (session_matches sid) t with
           | Some i => gti_handle i
           | None => InvalidTransactionHandle
           end
  end.

Definition GTM_IsGXIDInProgress (t : GTM_Transactions) (gxid : GlobalTransactionId) : bool :=
  negb (GTM_GXIDToHandle_Internal t gxid =? InvalidTransactionHandle).

Definition gid_matches (gid : string) (i : GTM_TransactionInfo) : bool :=
  match gti_gid i with
  | Some g => String.eqb gid g
  | None => false
  end.

Definition GTM_GIDToHandle (t : GTM_Transactions) (gid : string) : GTM_TransactionHandle :=
  match open_find (gid_matches gid) t with
  | Some i => gti_handle i
  | None => InvalidTransactionHandle
  end.

(** What [GTM_HandleToTransactionInfo] hands back: [NULL], a pointer
    into the array, or nothing defined because the array was read
    outside its bounds. *)
Inductive txninfo_ref :=
| TxnNull
| TxnPtr (p : nat)
| TxnOutOfBounds.

Definition GTM_HandleToTransactionInfo (t : GTM_Transactions)
    (handle : GTM_TransactionHandle) : txninfo_ref :=
  if (handle <? 0) || (handle >? GTM_MAX_GLOBAL_TRANSACTIONS) then TxnNull
  else match gt_transactions_array t !! Z.to_nat handle with
       | None => TxnOutOfBounds
       | Some i => if negb (gti_in_use i) then TxnNull else TxnPtr (Z.to_nat handle)
       end.

(** *** Slot initialisation and cleanup *)

Definition GTM_TransactionInfo_Init (old : GTM_TransactionInfo)
    (txn : GTM_TransactionHandle) (isolevel client_id connid : Z)
    (global_sessionid : option string) (readonly : bool) : GTM_TransactionInfo :=
  {| gti_handle := txn; gti_client_id := client_id;
     gti_proxy_client_id := connid; gti_in_use := true;
     gti_gxid := InvalidGlobalTransactionId; gti_state := GTM_TXN_STARTING;
     gti_xmin := InvalidGlobalTransactionId;
     gti_isolevel := isolevel; gti_readonly := readonly;
     gti_global_session_id :=
       match global_sessionid with
       | Some sid => strncpy GTM_MAX_SESSION_ID_LEN sid
       | None => ""
       end;
     nodestring := None; gti_gid := None;
     gti_snapshot_set := gti_snapshot_set old; gti_vacuum := false;
     gti_created_seqs := gti_created_seqs old;
     gti_dropped_seqs := gti_dropped_seqs old;
     gti_altered_seqs := gti_altered_seqs old |}.

(** The sequence calls [GTM_TransactionInfo_Clean] makes for a slot. *)
Definition clean_seq_calls (i : GTM_TransactionInfo) : list seq_call :=
  if decide (gti_state i = GTM_TXN_ABORT_IN_PROGRESS) then
    map GTM_SeqRemoveCreated (gti_created_seqs i)
    ++ map GTM_SeqRestoreDropped (gti_dropped_seqs i)
    ++ map GTM_SeqRestoreAltered (gti_altered_seqs i)
  else if decide (gti_state i = GTM_TXN_COMMIT_IN_PROGRESS) then
    map GTM_SeqRemoveDropped (gti_dropped_seqs i)
    ++ map GTM_SeqRemoveAltered (gti_altered_seqs i)
  else [].

(** The slot as [GTM_TransactionInfo_Clean] leaves it. *)
Definition cleaned (i : GTM_TransactionInfo) : GTM_TransactionInfo :=
  {| gti_handle := gti_handle i; gti_client_id := gti_client_id i;
     gti_proxy_client_id := gti_proxy_client_id i; gti_in_use := false;
     gti_gxid := gti_gxid i; gti_state := GTM_TXN_ABORTED;
     gti_xmin := gti_xmin i;
     gti_isolevel := gti_isolevel i; gti_readonly := gti_readonly i;
     gti_global_session_id := gti_global_session_id i;
     nodestring := None; gti_gid := None;
     gti_snapshot_set := false; gti_vacuum := gti_vacuum i;
     gti_created_seqs := []; gti_dropped_seqs := []; gti_altered_seqs := [] |}.

Definition GTM_TransactionInfo_Clean (p : nat) (g : GTM_Globals) : GTM_Globals :=
  match gt_transactions_array (GTMTransactions g) !! p with
  | Some i =>
      store_txninfo p cleaned (set_seq_calls (seq_calls g ++ clean_seq_calls i) g)
  | None => g
  end.

(** *** Removal from the list of open transactions *)

(** [gtm_list_delete (list, datum)]: the first cell holding [datum] is
    unlinked. *)
Fixpoint gtm_list_delete (l : list nat) (p : nat) : list nat :=
  match l with
  | [] => []
  | c :: rest => if decide (c = p) then rest else c :: gtm_list_delete rest p
  end.

(** The update of [gt_latestCompletedXid] for a removed slot. *)
Definition update_latestCompletedXid (i : GTM_TransactionInfo) (g : GTM_Globals) : GTM_Globals :=
  if GlobalTransactionIdIsNormal (gti_gxid i)
     && GlobalTransactionIdFollowsOrEquals (gti_gxid i)
          (gt_latestCompletedXid (GTMTransactions g))
  then set_GTMTransactions
         (set_gt_latestCompletedXid (gti_gxid i) (GTMTransactions g)) g
  else g.

(** Body of the loop of [GTM_RemoveTransInfoMulti] for a non-NULL entry. *)
Definition remove_one (p : nat) (g : GTM_Globals) : GTM_Globals :=
  let g1 := set_GTMTransactions
              (set_gt_open (gtm_list_delete (gt_open_transactions (GTMTransactions g)) p)
                 (GTMTransactions g)) g in
  match gt_transactions_array (GTMTransactions g1) !! p with
  | Some i => GTM_TransactionInfo_Clean p (update_latestCompletedXid i g1)
  | None => g1
  end.

Fixpoint GTM_RemoveTransInfoMulti (gtm_txninfo : list (option nat))
    (g : GTM_Globals) : GTM_Globals :=
  match gtm_txninfo with
  | [] => g
  | None :: rest => GTM_RemoveTransInfoMulti rest g
  | Some p :: rest => GTM_RemoveTransInfoMulti rest (remove_one p g)
  end.

(** The test [GTM_RemoveAllTransInfos] makes on a cell of the list. *)
Definition reap_matches (client_id backend_id : Z) (i : GTM_TransactionInfo) : bool :=
  gti_in_use i
  && negb (bool_decide (gti_state i = GTM_TXN_PREPARED))
  && negb (bool_decide (gti_state i = GTM_TXN_PREPARE_IN_PROGRESS))
  && GTM_CLIENT_ID_EQ (gti_client_id i) client_id
  && ((gti_proxy_client_id i =? backend_id) || (backend_id =? -1)).

(** The [while (cell != NULL)] loop of [GTM_RemoveAllTransInfos] over
    the cells that are still to be visited; the result lists the cells
    the loop leaves in the list. *)
Fixpoint reap_cells (client_id backend_id : Z) (cells : list nat)
    (g : GTM_Globals) : list nat * GTM_Globals :=
  match cells with
  | [] => ([], g)
  | p :: rest =>
      match gt_transactions_array (GTMTransactions g) !! p with
      | Some i =>
          if reap_matches client_id backend_id i then
            reap_cells client_id backend_id rest
              (GTM_TransactionInfo_Clean p (update_latestCompletedXid i g))
          else
            let '(kept, g') := reap_cells client_id backend_id rest g in
            (p :: kept, g')
      | None =>
          let '(kept, g') := reap_cells client_id backend_id rest g in
          (p :: kept, g')
      end
  end.

Definition GTM_RemoveAllTransInfos (client_id backend_id : Z) (g : GTM_Globals) : GTM_Globals :=
  let '(kept, g') :=
    reap_cells client_id backend_id (gt_open_transactions (GTMTransactions g)) g in
  set_GTMTransactions (set_gt_open kept (GTMTransactions g')) g'.

(** *** GXID generation *)

Definition SaveControlInfo (g : GTM_Globals) : GTM_Globals :=
  set_control_file (control_file g ++ [ControlXid g]) g.

Definition GTM_NeedXidRestoreUpdate (g : GTM_Globals) : bool :=
  GlobalTransactionIdPrecedesOrEquals (gt_backedUpXid (GTMTransactions g))
    (gt_nextXid (GTMTransactions g)).

(** The test that decides whether the control file is written:
    [GlobalTransactionIdIsValid (xid) &&
     (xid - ControlXid > CONTROL_INTERVAL || xid < ControlXid)],
    in [uint32] arithmetic. *)
Definition save_control_due (xid control : GlobalTransactionId) : bool :=
  GlobalTransactionIdIsValid xid
  && ((u32 (xid - control) >? CONTROL_INTERVAL) || (xid <? control)).

(** The tail shared by the two generators: set [ControlXid], raise the
    backup flag where the caller does, write the control file. *)
Definition checkpoint_control (xid : GlobalTransactionId) (with_backup_flag : bool)
    (g : GTM_Globals) : GTM_Globals :=
  let save_control := save_control_due xid (ControlXid g) in
  let g1 := if save_control then set_ControlXid xid g else g in
  let g2 := if with_backup_flag && GTM_NeedXidRestoreUpdate g1
            then set_need_backup true g1 else g1 in
  if save_control then SaveControlInfo g2 else g2.

(** The wrap-around test made before a GXID is handed out: [true] when
    the stop limit is reached. *)
Definition xid_stop (t : GTM_Transactions) (xid : GlobalTransactionId) : bool :=
  GlobalTransactionIdFollowsOrEquals xid (gt_xidVacLimit t)
  && GlobalTransactionIdIsValid (gt_xidVacLimit t)
  && GlobalTransactionIdFollowsOrEquals xid (gt_xidStopLimit t).

(** The [for] loop of [GTM_GetGlobalTransactionIdMulti]; it returns the
    local [xid], the array [gxids] and the array [new_handles]. *)
Fixpoint assign_gxids (handles : list GTM_TransactionHandle) (g : GTM_Globals)
    (xid : GlobalTransactionId) (gxids : list GlobalTransactionId)
    (new_handles : list GTM_TransactionHandle) :
    outcome (GlobalTransactionId * list GlobalTransactionId * list GTM_TransactionHandle) :=
  match handles with
  | [] => Returned (xid, gxids, new_handles) g
  | h :: rest =>
      match GTM_HandleToTransactionInfo (GTMTransactions g) h with
      | TxnPtr p =>
          match gt_transactions_array (GTMTransactions g) !! p with
          | Some i =>
              if GlobalTransactionIdIsValid (gti_gxid i) then
                assign_gxids rest g xid (gxids ++ [gti_gxid i]) new_handles
              else
                let x := gt_nextXid (GTMTransactions g) in
                if xid_stop (GTMTransactions g) x then Raised g
                else
                  let g1 := set_GTMTransactions
                              (set_gt_nextXid (GlobalTransactionIdAdvance x)
                                 (GTMTransactions g)) g in
                  let g2 := store_txninfo p (set_gti_gxid x) g1 in
                  assign_gxids rest g2 x (gxids ++ [x]) (new_handles ++ [gti_handle i])
          | None => Undefined
          end
      | TxnNull | TxnOutOfBounds => Undefined
      end
  end.

Definition GTM_GetGlobalTransactionIdMulti (Recovery_IsStandby : bool)
    (handles : list GTM_TransactionHandle) (g : GTM_Globals) :
    outcome (list GlobalTransactionId * list GTM_TransactionHandle) :=
  if Recovery_IsStandby then Raised g
  else if decide (gt_gtm_state (GTMTransactions g) = GTM_SHUTTING_DOWN) then Raised g
  else
    match assign_gxids handles g InvalidGlobalTransactionId [] [] with
    | Returned (xid, gxids, new_handles) g1 =>
        Returned (gxids, new_handles) (checkpoint_control xid true g1)
    | Raised g1 => Raised g1
    | AssertFailed g1 => AssertFailed g1
    | Undefined => Undefined
    end.

Definition GTM_GetGlobalTransactionId (Recovery_IsStandby : bool)
    (handle : GTM_TransactionHandle) (g : GTM_Globals) : outcome GlobalTransactionId :=
  match GTM_GetGlobalTransactionIdMulti Recovery_IsStandby [handle] g with
  | Returned (gxids, _) g1 => Returned (default InvalidGlobalTransactionId (head gxids)) g1
  | Raised g1 => Raised g1
  | AssertFailed g1 => AssertFailed g1
  | Undefined => Undefined
  end.

Definition GTM_SetNextGlobalTransactionId (gxid : GlobalTransactionId)
    (g : GTM_Globals) : GTM_Globals :=
  set_GTMTransactions
    (set_gt_gtm_state GTM_RUNNING (set_gt_nextXid gxid (GTMTransactions g))) g.

Definition GTM_SetControlXid (gxid : GlobalTransactionId) (g : GTM_Globals) : GTM_Globals :=
  set_ControlXid gxid g.

Definition GTM_SetShuttingDown (g : GTM_Globals) : GTM_Globals :=
  set_GTMTransactions (set_gt_gtm_state GTM_SHUTTING_DOWN (GTMTransactions g)) g.

End Txn.

(** ** Begin, rollback, commit, prepare *)

(** One element of the parallel arrays handed to
    [GTM_BeginTransactionMulti]; [br_global_sessionid = None] is a NULL
    session id. *)
Record begin_request := {
  br_isolevel : Z;
  br_readonly : bool;
  br_global_sessionid : option string;
  br_connid : Z;
}.

(** How the search for a free slot ends. *)
Inductive scan_result :=
| ScanFound (ii : Z)        (* [break] at a slot that is not in use *)
| ScanFull                  (* [ereport (ERROR)]: back at [gt_lastslot] *)
| ScanNoSlot (ii : Z)       (* [jj] reached the bound, no slot chosen *)
| ScanOutOfBounds.          (* the array is read outside its bounds *)

Section Lifecycle.
Context `{cfg : GTM_Config}.

(** The [for (ii = startslot, jj = 0; jj < GTM_MAX_GLOBAL_TRANSACTIONS;
    ii = (ii + 1) % GTM_MAX_GLOBAL_TRANSACTIONS, jj++)] loop of
    [GTM_BeginTransactionMulti], with [steps] iterations left. *)
Fixpoint scan_slots (arr : list GTM_TransactionInfo) (lastslot : Z)
    (steps : nat) (ii : Z) : scan_result :=
  match steps with
  | O => ScanNoSlot ii
  | S n =>
      match arr !! Z.to_nat ii with
      | Some i =>
          if negb (gti_in_use i) then ScanFound ii
          else if ii =? lastslot then ScanFull
          else scan_slots arr lastslot n ((ii + 1) mod GTM_MAX_GLOBAL_TRANSACTIONS)
      | None => ScanOutOfBounds
      end
  end.

Definition startslot (t : GTM_Transactions) : Z :=
  if gt_lastslot t + 1 >=? GTM_MAX_GLOBAL_TRANSACTIONS then 0 else gt_lastslot t + 1.

Definition find_free_slot (t : GTM_Transactions) : scan_result :=
  scan_slots (gt_transactions_array t) (gt_lastslot t)
    (Z.to_nat GTM_MAX_GLOBAL_TRANSACTIONS) (startslot t).

(** The statements of [GTM_BeginTransactionMulti] that follow the
    search when it stopped at slot [ii]. *)
Definition claim_slot (thr_client_id : Z) (r : begin_request) (ii : Z)
    (g : GTM_Globals) : GTM_Globals :=
  let p := Z.to_nat ii in
  let g1 := store_txninfo p
              (λ old, GTM_TransactionInfo_Init old ii (br_isolevel r) thr_client_id
                        (br_connid r) (br_global_sessionid r) (br_readonly r)) g in
  let t1 := set_gt_lastslot ii (GTMTransactions g1) in
  set_GTMTransactions (set_gt_open (gt_open_transactions t1 ++ [p]) t1) g1.

(** The [for (kk = 0; kk < txn_count; kk++)] loop; [txns] is the
    output array filled so far. *)
Fixpoint begin_loop (thr_client_id : Z) (reqs : list begin_request)
    (g : GTM_Globals) (txns : list GTM_TransactionHandle) :
    outcome (list GTM_TransactionHandle) :=
  match reqs with
  | [] => Returned txns g
  | r :: rest =>
      let txn := GTM_GlobalSessionIDToHandle (GTMTransactions g) (br_global_sessionid r) in
      if negb (txn =? InvalidTransactionHandle) then
        match GTM_HandleToTransactionInfo (GTMTransactions g) txn with
        | TxnPtr _ => begin_loop thr_client_id rest g (txns ++ [txn])
        | TxnNull | TxnOutOfBounds => Undefined
        end
      else
        match find_free_slot (GTMTransactions g) with
        | ScanFound ii =>
            begin_loop thr_client_id rest (claim_slot thr_client_id r ii g) (txns ++ [ii])
        | ScanFull => Raised g
        | ScanNoSlot _ | ScanOutOfBounds => Undefined
        end
  end.

Definition GTM_BeginTransactionMulti (thr_client_id : Z) (reqs : list begin_request)
    (g : GTM_Globals) : outcome (list GTM_TransactionHandle) :=
  begin_loop thr_client_id reqs g [].

Definition GTM_BeginTransaction (thr_client_id : Z) (isolevel : Z) (readonly : bool)
    (global_sessionid : option string) (g : GTM_Globals) : outcome GTM_TransactionHandle :=
  match GTM_BeginTransactionMulti thr_client_id
          [{| br_isolevel := isolevel; br_readonly := readonly;
              br_global_sessionid := global_sessionid; br_connid := -1 |}] g with
  | Returned txns g1 => Returned (default InvalidTransactionHandle (head txns)) g1
  | Raised g1 => Raised g1
  | AssertFailed g1 => AssertFailed g1
  | Undefined => Undefined
  end.

(** The first loop of [GTM_RollbackTransactionMulti]: the array
    [gtm_txninfo] and the array [status] built so far. *)
Fixpoint rollback_loop (txn : list GTM_TransactionHandle) (g : GTM_Globals)
    (gtm_txninfo : list (option nat)) (status : list Z) :
    outcome (list (option nat) * list Z) :=
  match txn with
  | [] => Returned (gtm_txninfo, status) g
  | h :: rest =>
      match GTM_HandleToTransactionInfo (GTMTransactions g) h with
      | TxnNull => rollback_loop rest g (gtm_txninfo ++ [None]) (status ++ [STATUS_ERROR])
      | TxnPtr p =>
          rollback_loop rest (store_txninfo p (set_gti_state GTM_TXN_ABORT_IN_PROGRESS) g)
            (gtm_txninfo ++ [Some p]) (status ++ [STATUS_OK])
      | TxnOutOfBounds => Undefined
      end
  end.

Definition GTM_RollbackTransactionMulti (txn : list GTM_TransactionHandle)
    (g : GTM_Globals) : outcome (list Z) :=
  match rollback_loop txn g [] [] with
  | Returned (gtm_txninfo, status) g1 =>
      Returned status (GTM_RemoveTransInfoMulti gtm_txninfo g1)
  | Raised g1 => Raised g1
  | AssertFailed g1 => AssertFailed g1
  | Undefined => Undefined
  end.

Definition GTM_RollbackTransaction (txn : GTM_TransactionHandle) (g : GTM_Globals) :
    outcome Z :=
  match GTM_RollbackTransactionMulti [txn] g with
  | Returned status g1 => Returned (default STATUS_ERROR (head status)) g1
  | Raised g1 => Raised g1
  | AssertFailed g1 => AssertFailed g1
  | Undefined => Undefined
  end.

(** The inner [for (jj = 0; jj < waited_xid_count; jj++)] loop. *)
Definition waited_xid_running (t : GTM_Transactions)
    (waited_xids : list GlobalTransactionId) : bool :=
  existsb (GTM_IsGXIDInProgress t) waited_xids.

(** The first loop of [GTM_CommitTransactionMulti]: the array
    [remove_txninfo] and the array [status] built so far. *)
Fixpoint commit_loop (txn : list GTM_TransactionHandle)
    (waited_xids : list GlobalTransactionId) (g : GTM_Globals)
    (remove_txninfo : list nat) (status : list Z) : outcome (list nat * list Z) :=
  match txn with
  | [] => Returned (remove_txninfo, status) g
  | h :: rest =>
      match GTM_HandleToTransactionInfo (GTMTransactions g) h with
      | TxnNull => commit_loop rest waited_xids g remove_txninfo (status ++ [STATUS_ERROR])
      | TxnPtr p =>
          if waited_xid_running (GTMTransactions g) waited_xids then
            commit_loop rest waited_xids g remove_txninfo (status ++ [STATUS_DELAYED])
          else
            commit_loop rest waited_xids
              (store_txninfo p (set_gti_state GTM_TXN_COMMIT_IN_PROGRESS) g)
              (remove_txninfo ++ [p]) (status ++ [STATUS_OK])
      | TxnOutOfBounds => Undefined
      end
  end.

(** Returns [remove_count] and the array [status]. *)
Definition GTM_CommitTransactionMulti (txn : list GTM_TransactionHandle)
    (waited_xids : list GlobalTransactionId) (g : GTM_Globals) : outcome (Z * list Z) :=
  match commit_loop txn waited_xids g [] [] with
  | Returned (remove_txninfo, status) g1 =>
      Returned (Z.of_nat (length remove_txninfo), status)
        (GTM_RemoveTransInfoMulti (map Some remove_txninfo) g1)
  | Raised g1 => Raised g1
  | AssertFailed g1 => AssertFailed g1
  | Undefined => Undefined
  end.

Definition GTM_CommitTransaction (txn : GTM_TransactionHandle)
    (waited_xids : list GlobalTransactionId) (g : GTM_Globals) : outcome Z :=
  match GTM_CommitTransactionMulti [txn] waited_xids g with
  | Returned (_, status) g1 => Returned (default STATUS_ERROR (head status)) g1
  | Raised g1 => Raised g1
  | AssertFailed g1 => AssertFailed g1
  | Undefined => Undefined
  end.

(** [USE_ASSERT_CHECKING] says whether [Assert] is compiled in. *)
Definition GTM_PrepareTransaction (USE_ASSERT_CHECKING : bool)
    (txn : GTM_TransactionHandle) (g : GTM_Globals) : outcome Z :=
  match GTM_HandleToTransactionInfo (GTMTransactions g) txn with
  | TxnNull => Returned STATUS_ERROR g
  | TxnPtr p =>
      match gt_transactions_array (GTMTransactions g) !! p with
      | Some i =>
          let state := gti_state i in
          let g1 := store_txninfo p (set_gti_state GTM_TXN_PREPARED) g in
          if USE_ASSERT_CHECKING
             && negb (bool_decide (state = GTM_TXN_PREPARE_IN_PROGRESS))
          then AssertFailed g1
          else Returned STATUS_OK g1
      | None => Undefined
      end
  | TxnOutOfBounds => Undefined
  end.

(** Whether [memcpy (buf, src, strlen (src) + 1)] stays inside a
    buffer of [n] bytes. *)
Definition memcpy_fits (n : nat) (src : string) : bool :=
  (String.length src + 1 <=? n)%nat.

(** The two buffers are allocated with [GTM_MAX_NODESTRING_LEN] and
    [GTM_MAX_GID_LEN] bytes and filled with [strlen + 1] bytes without
    a test of the length: a string that does not fit is written past
    the buffer. *)
Definition GTM_StartPreparedTransaction (txn : GTM_TransactionHandle)
    (gid nodestring : string) (g : GTM_Globals) : outcome Z :=
  match GTM_HandleToTransactionInfo (GTMTransactions g) txn with
  | TxnNull => Returned STATUS_ERROR g
  | TxnPtr p =>
      if negb (GTM_GIDToHandle (GTMTransactions g) gid =? InvalidTransactionHandle)
      then Returned STATUS_ERROR g
      else if negb (memcpy_fits GTM_MAX_NODESTRING_LEN nodestring) then Undefined
      else if negb (memcpy_fits GTM_MAX_GID_LEN gid) then Undefined
      else Returned STATUS_OK (store_txninfo p (set_prepare_data gid nodestring) g)
  | TxnOutOfBounds => Undefined
  end.

Definition GTM_SetDoVacuum (handle : GTM_TransactionHandle) (g : GTM_Globals) :
    outcome bool :=
  match GTM_HandleToTransactionInfo (GTMTransactions g) handle with
  | TxnNull => Raised g
  | TxnPtr p => Returned true (store_txninfo p (set_gti_vacuum true) g)
  | TxnOutOfBounds => Undefined
  end.

(** *** Replay on the standby *)

(** One element of the parallel arrays of
    [GTM_BkupBeginTransactionGetGXIDMulti]. The [client_id] of the call
    is carried along although the function does not use it. *)
Record bkup_request := {
  bk_gxid : GlobalTransactionId;
  bk_client_id : Z;
  bk_begin : begin_request;
}.

(** The next GXID of the standby after it has seen [gxid]. *)
Definition bkup_advance (nextXid gxid : GlobalTransactionId) : GlobalTransactionId :=
  let n := if GlobalTransactionIdPrecedesOrEquals nextXid gxid
           then u32 (gxid + 1) else nextXid in
  if negb (GlobalTransactionIdIsValid n) then FirstNormalGlobalTransactionId else n.

(** The [for (ii = 0; ii < txn_count; ii++)] loop of
    [GTM_BkupBeginTransactionGetGXIDMulti]; it returns the local [xid]. *)
Fixpoint bkup_loop (reqs : list bkup_request) (txn : list GTM_TransactionHandle)
    (g : GTM_Globals) (xid : GlobalTransactionId) : outcome GlobalTransactionId :=
  match reqs, txn with
  | r :: reqs', h :: txn' =>
      match GTM_HandleToTransactionInfo (GTMTransactions g) h with
      | TxnPtr p =>
          let g1 := store_txninfo p (set_gti_gxid (bk_gxid r)) g in
          let g2 := match br_global_sessionid (bk_begin r) with
                    | Some sid =>
                        store_txninfo p
                          (set_gti_global_session_id (strncpy GTM_MAX_SESSION_ID_LEN sid)) g1
                    | None => g1
                    end in
          let n := bkup_advance (gt_nextXid (GTMTransactions g2)) (bk_gxid r) in
          let g3 := set_GTMTransactions (set_gt_nextXid n (GTMTransactions g2)) g2 in
          bkup_loop reqs' txn' g3 n
      | TxnNull | TxnOutOfBounds => Undefined
      end
  | _, _ => Returned xid g
  end.

(** The local array [txn] has [GTM_MAX_GLOBAL_TRANSACTIONS] elements. *)
Definition GTM_BkupBeginTransactionGetGXIDMulti (thr_client_id : Z)
    (reqs : list bkup_request) (g : GTM_Globals) : outcome unit :=
  if GTM_MAX_GLOBAL_TRANSACTIONS <? Z.of_nat (length reqs) then Undefined
  else
    match GTM_BeginTransactionMulti thr_client_id (map bk_begin reqs) g with
    | Returned txn g1 =>
        match bkup_loop reqs txn g1 InvalidGlobalTransactionId with
        | Returned xid g2 => Returned tt (checkpoint_control xid false g2)
        | Raised g2 => Raised g2
        | AssertFailed g2 => AssertFailed g2
        | Undefined => Undefined
        end
    | Raised g1 => Raised g1
    | AssertFailed g1 => AssertFailed g1
    | Undefined => Undefined
    end.

Definition GTM_BkupBeginTransactionGetGXID (thr_client_id : Z)
    (gxid : GlobalTransactionId) (isolevel : Z) (readonly : bool)
    (global_sessionid : option string) (client_id : Z) (g : GTM_Globals) : outcome unit :=
  GTM_BkupBeginTransactionGetGXIDMulti thr_client_id
    [{| bk_gxid := gxid; bk_client_id := client_id;
        bk_begin := {| br_isolevel := isolevel; br_readonly := readonly;
                       br_global_sessionid := global_sessionid; br_connid := -1 |} |}] g.

(** What one replayed begin-with-GXID does once the begin is through. *)
Definition bkup_apply (p : nat) (gxid : GlobalTransactionId) (sid : option string)
    (g : GTM_Globals) : GTM_Globals :=
  let g1 := store_txninfo p (set_gti_gxid gxid) g in
  let g2 := match sid with
            | Some s =>
                store_txninfo p
                  (set_gti_global_session_id (strncpy GTM_MAX_SESSION_ID_LEN s)) g1
            | None => g1
            end in
  let n := bkup_advance (gt_nextXid (GTMTransactions g2)) gxid in
  checkpoint_control n false
    (set_GTMTransactions (set_gt_nextXid n (GTMTransactions g2)) g2).

End Lifecycle.

(** ** Start-up *)

(** A slot after [memset (&GTMTransactions, 0, ...)]. *)
Definition zero_txninfo : GTM_TransactionInfo :=
  {| gti_handle := 0; gti_client_id := 0; gti_proxy_client_id := 0;
     gti_in_use := false; gti_gxid := 0; gti_state := GTM_TXN_STARTING;
     gti_xmin := 0; gti_isolevel := 0; gti_readonly := false;
     gti_global_session_id := ""; nodestring := None; gti_gid := None;
     gti_snapshot_set := false; gti_vacuum := false;
     gti_created_seqs := []; gti_dropped_seqs := []; gti_altered_seqs := [] |}.

(** The globals as [GTM_InitTxnManager] leaves them, nothing written to
    the collaborators yet. *)
Definition GTM_InitTxnManager `{cfg : GTM_Config} : GTM_Globals :=
  {| GTMTransactions :=
       {| gt_nextXid := FirstNormalGlobalTransactionId;
          gt_backedUpXid := 0;
          gt_oldestXid := FirstNormalGlobalTransactionId;
          gt_xidVacLimit := InvalidGlobalTransactionId;
          gt_xidWarnLimit := InvalidGlobalTransactionId;
          gt_xidStopLimit := InvalidGlobalTransactionId;
          gt_xidWrapLimit := InvalidGlobalTransactionId;
          gt_latestCompletedXid := FirstNormalGlobalTransactionId;
          gt_recent_global_xmin := FirstNormalGlobalTransactionId;
          gt_lastslot := -1;
          gt_transactions_array :=
            replicate (Z.to_nat GTM_MAX_GLOBAL_TRANSACTIONS) zero_txninfo;
          gt_open_transactions := [];
          gt_gtm_state := GTM_STARTING |};
     ControlXid := FirstNormalGlobalTransactionId;
     control_file := [];
     need_backup := false;
     seq_calls := [] |}.

(** ** Requests and reachable states *)

(** The entry points of the file as requests served one after the
    other. *)
Inductive request :=
| ReqBegin (thr_client_id : Z) (reqs : list begin_request)
| ReqGetGXID (Recovery_IsStandby : bool) (handles : list GTM_TransactionHandle)
| ReqBkupBeginGetGXID (thr_client_id : Z) (reqs : list bkup_request)
| ReqRollback (txn : list GTM_TransactionHandle)
| ReqCommit (txn : list GTM_TransactionHandle) (waited_xids : list GlobalTransactionId)
| ReqStartPrepared (txn : GTM_TransactionHandle) (gid nodestring : string)
| ReqPrepare (USE_ASSERT_CHECKING : bool) (txn : GTM_TransactionHandle)
| ReqDisconnect (client_id backend_id : Z)
| ReqSetDoVacuum (handle : GTM_TransactionHandle)
| ReqSetNextGXID (gxid : GlobalTransactionId)
| ReqSetControlXid (gxid : GlobalTransactionId)
| ReqShutdown.

(** The globals a call leaves to the next request; none when the
    process is gone. *)
Definition left_behind {A : Type} (o : outcome A) : option GTM_Globals :=
  match o with
  | Returned _ g => Some g
  | Raised g => Some g
  | AssertFailed _ => None
  | Undefined => None
  end.

Definition serve `{cfg : GTM_Config} (r : request) (g : GTM_Globals) : option GTM_Globals :=
  match r with
  | ReqBegin c reqs => left_behind (GTM_BeginTransactionMulti c reqs g)
  | ReqGetGXID sb handles => left_behind (GTM_GetGlobalTransactionIdMulti sb handles g)
  | ReqBkupBeginGetGXID c reqs => left_behind (GTM_BkupBeginTransactionGetGXIDMulti c reqs g)
  | ReqRollback txn => left_behind (GTM_RollbackTransactionMulti txn g)
  | ReqCommit txn waited => left_behind (GTM_CommitTransactionMulti txn waited g)
  | ReqStartPrepared txn gid ns => left_behind (GTM_StartPreparedTransaction txn gid ns g)
  | ReqPrepare chk txn => left_behind (GTM_PrepareTransaction chk txn g)
  | ReqDisconnect c b => Some (GTM_RemoveAllTransInfos c b g)
  | ReqSetDoVacuum h => left_behind (GTM_SetDoVacuum h g)
  | ReqSetNextGXID x => Some (GTM_SetNextGlobalTransactionId x g)
  | ReqSetControlXid x => Some (GTM_SetControlXid x g)
  | ReqShutdown => Some (GTM_SetShuttingDown g)
  end.

(** The states the transaction manager can be in after serving any
    sequence of requests from start-up. *)
Inductive reachable `{cfg : GTM_Config} : GTM_Globals → Prop :=
| reachable_init : reachable GTM_InitTxnManager
| reachable_serve r g g' : reachable g → serve r g = Some g' → reachable g'.

(** Requests served in order, stopping when the process is gone. *)
Fixpoint serve_all `{cfg : GTM_Config} (rs : list request) (g : GTM_Globals) :
    option GTM_Globals :=
  match rs with
  | [] => Some g
  | r :: rest =>
      match serve r g with
      | Some g' => serve_all rest g'
      | None => None
      end
  end.

(** ** Properties of a table *)

Section Properties.
Context `{cfg : GTM_Config}.

(** The slot a pointer addresses. *)
Definition txninfo_at (t : GTM_Transactions) (p : nat) : option GTM_TransactionInfo :=
  gt_transactions_array t !! p.

(** The array has its declared size, the cursor is [-1] or an index,
    and the list of open transactions holds, once each, exactly the
    slots that are in use; a slot in use carries its own index as
    handle. *)
Record table_wf (t : GTM_Transactions) : Prop := {
  wf_length : Z.of_nat (length (gt_transactions_array t)) = GTM_MAX_GLOBAL_TRANSACTIONS;
  wf_lastslot : -1 ≤ gt_lastslot t < GTM_MAX_GLOBAL_TRANSACTIONS;
  wf_nodup : NoDup (gt_open_transactions t);
  wf_open : ∀ p, p ∈ gt_open_transactions t →
      ∃ i, txninfo_at t p = Some i ∧ gti_in_use i = true ∧ gti_handle i = Z.of_nat p;
  wf_in_use : ∀ p i, txninfo_at t p = Some i → gti_in_use i = true →
      p ∈ gt_open_transactions t;
}.

(** A GXID is present in the list of open transactions: it is a GXID
    (not the invalid one) and some open slot carries it. *)
Definition gxid_open (t : GTM_Transactions) (x : GlobalTransactionId) : Prop :=
  x ≠ InvalidGlobalTransactionId ∧
  ∃ p i, p ∈ gt_open_transactions t ∧ txninfo_at t p = Some i ∧ gti_gxid i = x.

(** A handle that designates a slot in use. *)
Definition valid_handle (t : GTM_Transactions) (h : GTM_TransactionHandle)
    (i : GTM_TransactionInfo) : Prop :=
  0 ≤ h < GTM_MAX_GLOBAL_TRANSACTIONS ∧
  txninfo_at t (Z.to_nat h) = Some i ∧ gti_in_use i = true.

(** Some open transaction carries [gid]. *)
Definition gid_open (t : GTM_Transactions) (gid : string) : Prop :=
  ∃ p i, p ∈ gt_open_transactions t ∧ txninfo_at t p = Some i ∧ gti_gid i = Some gid.

(** Every GID is carried by at most one open transaction. *)
Definition gid_unique (t : GTM_Transactions) : Prop :=
  ∀ p q i j gid,
    p ∈ gt_open_transactions t → q ∈ gt_open_transactions t →
    txninfo_at t p = Some i → txninfo_at t q = Some j →
    gti_gid i = Some gid → gti_gid j = Some gid → p = q.

(** One update of [gt_latestCompletedXid], holding [a], for a removed
    slot with the normal GXID [b]:
    [if (GlobalTransactionIdFollowsOrEquals (b, a)) a = b]. *)
Definition latest_step (a b : GlobalTransactionId) : GlobalTransactionId :=
  if GlobalTransactionIdFollowsOrEquals b a then b else a.

(** The value the updates leave after the GXIDs [xs] have been gone
    through in this order. This is what the loops compute; it depends
    on the order and need not follow every element of [xs]. *)
Definition latest_after (a : GlobalTransactionId) (xs : list GlobalTransactionId) :
    GlobalTransactionId :=
  fold_left latest_step xs a.



(** The normal GXIDs carried by the slots [ps] address. *)
Definition normal_gxids (arr : list GTM_TransactionInfo) (ps : list nat) :
    list GlobalTransactionId :=
  filter (λ x, GlobalTransactionIdIsNormal x = true)
    (omap (λ p, gti_gxid <$> arr !! p) ps).


(** What the reaper is meant to remove: the slot belongs to the client,
    to the backend (any backend when [backend_id = -1]) and is neither
    prepared nor being prepared. *)
Definition reap_target (client_id backend_id : Z) (i : GTM_TransactionInfo) : Prop :=
  gti_client_id i = client_id ∧
  (gti_proxy_client_id i = backend_id ∨ backend_id = -1) ∧
  gti_state i ≠ GTM_TXN_PREPARED ∧ gti_state i ≠ GTM_TXN_PREPARE_IN_PROGRESS.

(** The pointers of [ps] whose slot is a target of the reaper. *)
Definition reap_matches_at (client_id backend_id : Z) (arr : list GTM_TransactionInfo)
    (p : nat) : bool :=
  match arr !! p with
  | Some i => reap_matches client_id backend_id i
  | None => false
  end.

Definition reap_targets (client_id backend_id : Z) (arr : list GTM_TransactionInfo)
    (ps : list nat) : list nat :=
  filter (λ p, reap_matches_at client_id backend_id arr p = true) ps.

(** The pointers of [ps] the reaper is meant to leave alone. *)
Definition reap_survivors (client_id backend_id : Z) (arr : list GTM_TransactionInfo)
    (ps : list nat) : list nat :=
  filter (λ p, reap_matches_at client_id backend_id arr p = false) ps.

(** The invariant of the table: it is well formed and no GID is carried
    twice. *)
Definition table_inv (t : GTM_Transactions) : Prop :=
  table_wf t ∧ gid_unique t.

(** A property of the globals a call leaves behind, however it ends. *)
Definition leaves {A : Type} (P : GTM_Globals → Prop) (o : outcome A) : Prop :=
  match o with
  | Returned _ g => P g
  | Raised g => P g
  | AssertFailed g => P g
  | Undefined => True
  end.

End Properties.

(** ** A small build *)

(** The constants of the scenarios: four slots, a checkpoint every
    eight GXIDs, a session buffer of 16 bytes, GID and node string
    buffers of 8 bytes. *)
Definition small : GTM_Config :=
  {| GTM_MAX_GLOBAL_TRANSACTIONS := 4;
     CONTROL_INTERVAL := 8;
     GTM_MAX_SESSION_ID_LEN := 16;
     GTM_MAX_GID_LEN := 8;
     GTM_MAX_NODESTRING_LEN := 8 |}.

(** The state a sequence of requests leaves from start-up. *)
Definition run_small (rs : list request) : GTM_Globals :=
  default (GTM_InitTxnManager (cfg := small))
    (serve_all (cfg := small) rs (GTM_InitTxnManager (cfg := small))).

(** Whether the requests are all served (the process is not lost on
    the way). *)
Definition served_small (rs : list request) : bool :=
  match serve_all (cfg := small) rs (GTM_InitTxnManager (cfg := small)) with
  | Some _ => true
  | None => false
  end.

Definition begin_on (sid : string) : request :=
  ReqBegin 7 [{| br_isolevel := 2; br_readonly := false;
                 br_global_sessionid := Some sid; br_connid := -1 |}].

(** A begin-with-GXID mirror call of the standby. *)
Definition bkup_begin_on (gxid : GlobalTransactionId) (sid : option string) : request :=
  ReqBkupBeginGetGXID 7
    [{| bk_gxid := gxid; bk_client_id := 1;
        bk_begin := {| br_isolevel := 2; br_readonly := false;
                       br_global_sessionid := sid; br_connid := -1 |} |}].

(** ** Further functions of the file *)

Definition set_gti_created_seqs (l : list Z) (i : GTM_TransactionInfo) : GTM_TransactionInfo :=
  {| gti_handle := gti_handle i; gti_client_id := gti_client_id i;
     gti_proxy_client_id := gti_proxy_client_id i; gti_in_use := gti_in_use i;
     gti_gxid := gti_gxid i; gti_state := gti_state i; gti_xmin := gti_xmin i;
     gti_isolevel := gti_isolevel i; gti_readonly := gti_readonly i;
     gti_global_session_id := gti_global_session_id i;
     nodestring := nodestring i; gti_gid := gti_gid i;
     gti_snapshot_set := gti_snapshot_set i; gti_vacuum := gti_vacuum i;
     gti_created_seqs := l;
     gti_dropped_seqs := gti_dropped_seqs i;
     gti_altered_seqs := gti_altered_seqs i |}.

Definition set_gti_dropped_seqs (l : list Z) (i : GTM_TransactionInfo) : GTM_TransactionInfo :=
  {| gti_handle := gti_handle i; gti_client_id := gti_client_id i;
     gti_proxy_client_id := gti_proxy_client_id i; gti_in_use := gti_in_use i;
     gti_gxid := gti_gxid i; gti_state := gti_state i; gti_xmin := gti_xmin i;
     gti_isolevel := gti_isolevel i; gti_readonly := gti_readonly i;
     gti_global_session_id := gti_global_session_id i;
     nodestring := nodestring i; gti_gid := gti_gid i;
     gti_snapshot_set := gti_snapshot_set i; gti_vacuum := gti_vacuum i;
     gti_created_seqs := gti_created_seqs i;
     gti_dropped_seqs := l;
     gti_altered_seqs := gti_altered_seqs i |}.

Definition set_gti_altered_seqs (l : list Z) (i : GTM_TransactionInfo) : GTM_TransactionInfo :=
  {| gti_handle := gti_handle i; gti_client_id := gti_client_id i;
     gti_proxy_client_id := gti_proxy_client_id i; gti_in_use := gti_in_use i;
     gti_gxid := gti_gxid i; gti_state := gti_state i; gti_xmin := gti_xmin i;
     gti_isolevel := gti_isolevel i; gti_readonly := gti_readonly i;
     gti_global_session_id := gti_global_session_id i;
     nodestring := nodestring i; gti_gid := gti_gid i;
     gti_snapshot_set := gti_snapshot_set i; gti_vacuum := gti_vacuum i;
     gti_created_seqs := gti_created_seqs i;
     gti_dropped_seqs := gti_dropped_seqs i;
     gti_altered_seqs := l |}.

(** [gtm_list_delete] on a list of sequences: the first cell holding
    [seq] is unlinked. *)
Fixpoint gtm_list_delete_seq (l : list Z) (seq : Z) : list Z :=
  match l with
  | [] => []
  | c :: rest => if decide (c = seq) then rest else c :: gtm_list_delete_seq rest seq
  end.

Section Further.
Context `{cfg : GTM_Config}.

(** [GTM_GetGIDData]: the status, and the outputs [*prepared_gxid] and
    [*nodestring] when they are written. *)
Definition GTM_GetGIDData (prepared_txn : GTM_TransactionHandle) (g : GTM_Globals) :
    outcome (Z * option (GlobalTransactionId * option string)) :=
  match GTM_HandleToTransactionInfo (GTMTransactions g) prepared_txn with
  | TxnNull => Returned (STATUS_ERROR, None) g
  | TxnPtr p =>
      match gt_transactions_array (GTMTransactions g) !! p with
      | Some i => Returned (STATUS_OK, Some (gti_gxid i, nodestring i)) g
      | None => Undefined
      end
  | TxnOutOfBounds => Undefined
  end.

(** The common shape of the four functions that track a sequence in a
    transaction: look the GXID up, return when it is not open, else
    update a list of the slot. *)
Definition track_sequence (gxid : GlobalTransactionId)
    (f : GTM_TransactionInfo → GTM_TransactionInfo) (g : GTM_Globals) : outcome unit :=
  let txn := GTM_GXIDToHandle (GTMTransactions g) gxid in
  if txn =? InvalidTransactionHandle then Returned tt g
  else
    match GTM_HandleToTransactionInfo (GTMTransactions g) txn with
    | TxnPtr p => Returned tt (store_txninfo p f g)
    | TxnNull | TxnOutOfBounds => Undefined
    end.

Definition GTM_RememberCreatedSequence (gxid : GlobalTransactionId) (seq : Z)
    (g : GTM_Globals) : outcome unit :=
  track_sequence gxid (λ i, set_gti_created_seqs (gti_created_seqs i ++ [seq]) i) g.

Definition GTM_ForgetCreatedSequence (gxid : GlobalTransactionId) (seq : Z)
    (g : GTM_Globals) : outcome unit :=
  track_sequence gxid
    (λ i, set_gti_created_seqs (gtm_list_delete_seq (gti_created_seqs i) seq) i) g.

Definition GTM_RememberDroppedSequence (gxid : GlobalTransactionId) (seq : Z)
    (g : GTM_Globals) : outcome unit :=
  track_sequence gxid (λ i, set_gti_dropped_seqs (gti_dropped_seqs i ++ [seq]) i) g.

Definition GTM_RememberAlteredSequence (gxid : GlobalTransactionId) (seq : Z)
    (g : GTM_Globals) : outcome unit :=
  track_sequence gxid (λ i, set_gti_altered_seqs (seq :: gti_altered_seqs i) i) g.

Definition GTM_ReadNewGlobalTransactionId (g : GTM_Globals) : GlobalTransactionId :=
  gt_nextXid (GTMTransactions g).

(** Every slot of the array is in use. *)
Definition table_full (t : GTM_Transactions) : Prop :=
  ∀ ii, 0 ≤ ii < GTM_MAX_GLOBAL_TRANSACTIONS →
    ∃ i, txninfo_at t (Z.to_nat ii) = Some i ∧ gti_in_use i = true.

(** Once a transaction is open the cursor is an index of the array. *)
Definition cursor_set (t : GTM_Transactions) : Prop :=
  gt_open_transactions t = [] ∨ 0 ≤ gt_lastslot t.

(** The slot as a begin initialises it. *)
Definition fresh_txninfo (old : GTM_TransactionInfo) (ii : Z) (c : Z) (iso : Z)
    (ro : bool) (sid : option string) : GTM_TransactionInfo :=
  GTM_TransactionInfo_Init old ii iso c (-1) sid ro.

End Further.

(** The GXIDs a run of [n] fresh assignments hands out from [x]. *)
Fixpoint consecutive_gxids (x : GlobalTransactionId) (n : nat) : list GlobalTransactionId :=
  match n with
  | O => []
  | S n' => x :: consecutive_gxids (GlobalTransactionIdAdvance x) n'
  end.

(** The slot of the first transaction of the scenarios, as its begin
    leaves it. *)
Definition slot_S1 : GTM_TransactionInfo :=
  fresh_txninfo (cfg := small) zero_txninfo 0 7 2 false (Some "S1").

(** The slot of the second transaction of the scenarios. *)
Definition slot_S2 : GTM_TransactionInfo :=
  fresh_txninfo (cfg := small) zero_txninfo 1 7 2 false (Some "S2").

(** The first transaction of the scenarios with GXID 3, after it has
    created sequence 42. *)
Definition tracked_S1 : GTM_Globals :=
  match GTM_RememberCreatedSequence (cfg := small) 3 42
          (run_small [begin_on "S1"; ReqGetGXID false [0]]) with
  | Returned _ g => g
  | _ => run_small []
  end.

(** * Properties of the transaction manager *)

(** ** Reading and writing slots *)

Section Slots.
Context `{cfg : GTM_Config}.

Lemma array_store p f g q :
  gt_transactions_array (GTMTransactions (store_txninfo p f g)) !! q
  = if decide (p = q) then f <$> gt_transactions_array (GTMTransactions g) !! p
    else gt_transactions_array (GTMTransactions g) !! q.
Proof. apply list_lookup_alter. Qed.

Lemma array_store_eq p f g :
  gt_transactions_array (GTMTransactions (store_txninfo p f g)) !! p
  = f <$> gt_transactions_array (GTMTransactions g) !! p.
Proof. apply list_lookup_alter_eq. Qed.

Lemma array_store_ne p f g q :
  p ≠ q →
  gt_transactions_array (GTMTransactions (store_txninfo p f g)) !! q
  = gt_transactions_array (GTMTransactions g) !! q.
Proof. apply list_lookup_alter_ne. Qed.

Lemma length_store p f g :
  length (gt_transactions_array (GTMTransactions (store_txninfo p f g)))
  = length (gt_transactions_array (GTMTransactions g)).
Proof. apply length_alter. Qed.

(** When the lookup answers with a pointer, the pointer is the handle
    and the slot it addresses is in use. *)
Lemma GTM_HandleToTransactionInfo_ptr t h p :
  GTM_HandleToTransactionInfo t h = TxnPtr p ↔
  0 ≤ h ≤ GTM_MAX_GLOBAL_TRANSACTIONS ∧ p = Z.to_nat h ∧
  ∃ i, gt_transactions_array t !! p = Some i ∧ gti_in_use i = true.
Proof.
  unfold GTM_HandleToTransactionInfo.
  destruct (h <? 0) eqn:Hlo; [apply Z.ltb_lt in Hlo|apply Z.ltb_ge in Hlo]; simpl.
  { split; [discriminate|lia]. }
  destruct (h >? GTM_MAX_GLOBAL_TRANSACTIONS) eqn:Hhi.
  { split; [discriminate|]. apply Z.gtb_lt in Hhi. lia. }
  assert (h ≤ GTM_MAX_GLOBAL_TRANSACTIONS) by (rewrite Z.gtb_ltb in Hhi; apply Z.ltb_ge in Hhi; lia).
  destruct (gt_transactions_array t !! Z.to_nat h) as [i|] eqn:Hi.
  - destruct (gti_in_use i) eqn:Hu; simpl.
    + split.
      * intros [= <-]. rewrite Hi. eauto 6.
      * intros (_ & -> & _). done.
    + split; [discriminate|]. intros (_ & -> & j & Hj & Huj). congruence.
  - split; [discriminate|]. intros (_ & -> & j & Hj & _). congruence.
Qed.

(** When the lookup answers [NULL], the handle is outside
    [0, GTM_MAX_GLOBAL_TRANSACTIONS] or the slot is not in use. *)
Lemma GTM_HandleToTransactionInfo_null t h :
  GTM_HandleToTransactionInfo t h = TxnNull ↔
  h < 0 ∨ GTM_MAX_GLOBAL_TRANSACTIONS < h ∨
  (0 ≤ h ∧ ∃ i, gt_transactions_array t !! Z.to_nat h = Some i ∧ gti_in_use i = false).
Proof.
  unfold GTM_HandleToTransactionInfo.
  destruct (h <? 0) eqn:Hlo; [apply Z.ltb_lt in Hlo|apply Z.ltb_ge in Hlo]; simpl.
  { split; [auto|done]. }
  destruct (h >? GTM_MAX_GLOBAL_TRANSACTIONS) eqn:Hhi.
  { apply Z.gtb_lt in Hhi. split; [auto|done]. }
  assert (h ≤ GTM_MAX_GLOBAL_TRANSACTIONS) by (rewrite Z.gtb_ltb in Hhi; apply Z.ltb_ge in Hhi; lia).
  destruct (gt_transactions_array t !! Z.to_nat h) as [i|] eqn:Hi.
  - destruct (gti_in_use i) eqn:Hu; simpl.
    + split; [discriminate|]. intros [?|[?|(_ & j & [= <-] & ?)]]; [lia|lia|congruence].
    + split; [|done]. intros _. right; right. eauto.
  - split; [discriminate|]. intros [?|[?|(_ & j & ? & _)]]; [lia|lia|congruence].
Qed.

(** The array is read outside its bounds exactly for a handle in
    [0, GTM_MAX_GLOBAL_TRANSACTIONS] that is not an index of it. *)
Lemma GTM_HandleToTransactionInfo_out_of_bounds t h :
  GTM_HandleToTransactionInfo t h = TxnOutOfBounds ↔
  0 ≤ h ≤ GTM_MAX_GLOBAL_TRANSACTIONS ∧
  (length (gt_transactions_array t) ≤ Z.to_nat h)%nat.
Proof.
  unfold GTM_HandleToTransactionInfo.
  destruct (h <? 0) eqn:Hlo; [apply Z.ltb_lt in Hlo|apply Z.ltb_ge in Hlo]; simpl.
  { split; [discriminate|lia]. }
  destruct (h >? GTM_MAX_GLOBAL_TRANSACTIONS) eqn:Hhi.
  { apply Z.gtb_lt in Hhi. split; [discriminate|lia]. }
  assert (h ≤ GTM_MAX_GLOBAL_TRANSACTIONS) by (rewrite Z.gtb_ltb in Hhi; apply Z.ltb_ge in Hhi; lia).
  destruct (gt_transactions_array t !! Z.to_nat h) as [i|] eqn:Hi.
  - apply lookup_lt_Some in Hi.
    destruct (gti_in_use i); simpl; (split; [discriminate|lia]).
  - apply lookup_ge_None in Hi. split; [intros _; lia|done].
Qed.

Lemma valid_handle_ptr t h i :
  valid_handle t h i → GTM_HandleToTransactionInfo t h = TxnPtr (Z.to_nat h).
Proof.
  intros (Hh & Hi & Hu). apply GTM_HandleToTransactionInfo_ptr.
  split; [lia|]. split; [done|]. eauto.
Qed.

End Slots.

(** ** Handle lookup (C5) *)

(** C5. The lookup is meant to reject every handle outside
    [0, GTM_MAX_GLOBAL_TRANSACTIONS - 1] and never to index the array
    out of range. In the build with four slots, right after start-up,
    handle [5] is rejected, but handle [4] is let through by the test
    [handle > GTM_MAX_GLOBAL_TRANSACTIONS] and the array of four slots
    is read at index [4]. *)
Theorem GTM_HandleToTransactionInfo_reads_past_the_array :
  length (gt_transactions_array (GTMTransactions (run_small []))) = 4%nat ∧
  GTM_HandleToTransactionInfo (cfg := small) (GTMTransactions (run_small [])) 5 = TxnNull ∧
  GTM_HandleToTransactionInfo (cfg := small) (GTMTransactions (run_small [])) 4
    = TxnOutOfBounds.
Proof. split_and!; vm_compute; reflexivity. Qed.

(** ** Prepare (C10) *)

Section Prepare.
Context `{cfg : GTM_Config}.

(** C10. [GTM_PrepareTransaction] does not test the state of the slot.
    For a handle whose slot is in use, whatever the state [gti_state i]
    of the slot, the state is overwritten with [GTM_TXN_PREPARED] and
    [STATUS_OK] is returned: afterwards the slot is in state
    [GTM_TXN_PREPARED], its other members are what they were, and no
    other slot nor the list of open transactions has changed. In a
    build with assertion checking the assertion on the former state is
    evaluated after the slot has been written. [STATUS_ERROR] is
    returned only for a handle outside
    [0, GTM_MAX_GLOBAL_TRANSACTIONS] or a slot not in use, and nothing
    is changed then. *)
Theorem GTM_PrepareTransaction_ignores_state (g : GTM_Globals)
    (txn : GTM_TransactionHandle) (i : GTM_TransactionInfo) :
  valid_handle (GTMTransactions g) txn i →
  let g1 := store_txninfo (Z.to_nat txn) (set_gti_state GTM_TXN_PREPARED) g in
  GTM_PrepareTransaction false txn g = Returned STATUS_OK g1 ∧
  GTM_PrepareTransaction true txn g =
    (if decide (gti_state i = GTM_TXN_PREPARE_IN_PROGRESS)
     then Returned STATUS_OK g1 else AssertFailed g1) ∧
  txninfo_at (GTMTransactions g1) (Z.to_nat txn)
    = Some (set_gti_state GTM_TXN_PREPARED i) ∧
  (∃ j, txninfo_at (GTMTransactions g1) (Z.to_nat txn) = Some j ∧
        gti_state j = GTM_TXN_PREPARED ∧
        gti_in_use j = true ∧ gti_handle j = gti_handle i ∧
        gti_gxid j = gti_gxid i ∧ gti_gid j = gti_gid i ∧
        nodestring j = nodestring i ∧ gti_client_id j = gti_client_id i ∧
        gti_global_session_id j = gti_global_session_id i) ∧
  (∀ q, q ≠ Z.to_nat txn →
        txninfo_at (GTMTransactions g1) q = txninfo_at (GTMTransactions g) q) ∧
  gt_open_transactions (GTMTransactions g1) = gt_open_transactions (GTMTransactions g) ∧
  (∀ chk h g', GTM_PrepareTransaction chk h g = Returned STATUS_ERROR g' →
     g' = g ∧
     (h < 0 ∨ GTM_MAX_GLOBAL_TRANSACTIONS < h ∨
      ∃ j, txninfo_at (GTMTransactions g) (Z.to_nat h) = Some j ∧ gti_in_use j = false)).
Proof.
  intros Hv g1.
  pose proof (valid_handle_ptr _ _ _ Hv) as Hp.
  destruct Hv as (Hh & Hi & Hu). unfold txninfo_at in *.
  assert (Hi1 : gt_transactions_array (GTMTransactions g1) !! Z.to_nat txn
                = Some (set_gti_state GTM_TXN_PREPARED i)).
  { subst g1. rewrite array_store_eq, Hi. done. }
  split_and!.
  - unfold GTM_PrepareTransaction. rewrite Hp, Hi. done.
  - unfold GTM_PrepareTransaction. rewrite Hp, Hi. simpl.
    destruct (decide (gti_state i = GTM_TXN_PREPARE_IN_PROGRESS)) as [He|Hne].
    + rewrite bool_decide_eq_true_2 by done. done.
    + rewrite bool_decide_eq_false_2 by done. done.
  - exact Hi1.
  - exists (set_gti_state GTM_TXN_PREPARED i). split; [exact Hi1|]. done.
  - intros q Hq. subst g1. rewrite array_store_ne; done.
  - done.
  - intros chk h g'. unfold GTM_PrepareTransaction.
    destruct (GTM_HandleToTransactionInfo (GTMTransactions g) h) as [|p|] eqn:Hl.
    + intros [= <-]. split; [done|].
      apply GTM_HandleToTransactionInfo_null in Hl.
      destruct Hl as [?|[?|(_ & j & ? & ?)]]; eauto.
    + destruct (gt_transactions_array (GTMTransactions g) !! p); [|done].
      destruct (chk && _); [done|]. intros [= Hs].
    + done.
Qed.

End Prepare.

(** A handle in use in a state other than [GTM_TXN_PREPARE_IN_PROGRESS]:
    slot 0 right after a begin, in state [GTM_TXN_STARTING], is moved
    to [GTM_TXN_PREPARED]. *)
Lemma GTM_PrepareTransaction_ignores_state_witness :
  let g := run_small [begin_on "S1"] in
  ∃ i, valid_handle (cfg := small) (GTMTransactions g) 0 i ∧
       gti_state i = GTM_TXN_STARTING ∧
       GTM_PrepareTransaction (cfg := small) false 0 g
       = Returned STATUS_OK (store_txninfo 0 (set_gti_state GTM_TXN_PREPARED) g) ∧
       ∃ j, txninfo_at
              (GTMTransactions (store_txninfo 0 (set_gti_state GTM_TXN_PREPARED) g)) 0
            = Some j ∧
            gti_state j = GTM_TXN_PREPARED.
Proof.
  intros g.
  assert (Hv : ∃ i, valid_handle (cfg := small) (GTMTransactions g) 0 i ∧
                    gti_state i = GTM_TXN_STARTING).
  { eexists. split; [split; [|split]|];
      [cbn; lia|vm_compute; reflexivity|reflexivity|reflexivity]. }
  destruct Hv as (i & Hv & Hs). exists i. split; [exact Hv|]. split; [exact Hs|].
  destruct (GTM_PrepareTransaction_ignores_state (cfg := small) g 0 i Hv)
    as (Hret & _ & _ & (j & Hj & Hsj & _) & _).
  split; [exact Hret|]. exists j. split; [exact Hj|exact Hsj].
Defined.

(** ** The control checkpoint of the generator (C3) *)

Section Generator.
Context `{cfg : GTM_Config}.

(** The loop of the generator leaves [ControlXid] and the control file
    alone. *)
Lemma assign_gxids_control handles : ∀ g xid gx nh r g1,
  assign_gxids handles g xid gx nh = Returned r g1 →
  ControlXid g1 = ControlXid g ∧ control_file g1 = control_file g.
Proof.
  induction handles as [|h rest IH]; intros g xid gx nh r g1; simpl.
  { intros [= _ <-]. done. }
  destruct (GTM_HandleToTransactionInfo _ h) as [|p|]; [done| |done].
  destruct (_ !! p) as [i|]; [|done].
  destruct (GlobalTransactionIdIsValid (gti_gxid i)).
  { apply IH. }
  destruct (xid_stop _ _); [done|].
  intros H. apply IH in H. exact H.
Qed.

(** The local [xid] is the GXID handed out last: once a handle has
    been given a GXID, [gt_nextXid] is the successor of [xid]; when
    none has, [xid] is what it was before the loop. *)
Lemma assign_gxids_last handles : ∀ g xid0 gx0 nh0 xid gx nh g1,
  assign_gxids handles g xid0 gx0 nh0 = Returned (xid, gx, nh) g1 →
  ∃ extra, nh = nh0 ++ extra ∧
    (extra = [] → xid = xid0 ∧
       gt_nextXid (GTMTransactions g1) = gt_nextXid (GTMTransactions g)) ∧
    (extra ≠ [] →
       gt_nextXid (GTMTransactions g1) = GlobalTransactionIdAdvance xid).
Proof.
  induction handles as [|h rest IH]; intros g xid0 gx0 nh0 xid gx nh g1; simpl.
  { intros [= <- _ <- <-]. exists []. rewrite app_nil_r. done. }
  destruct (GTM_HandleToTransactionInfo _ h) as [|p|]; [done| |done].
  destruct (_ !! p) as [i|]; [|done].
  destruct (GlobalTransactionIdIsValid (gti_gxid i)).
  { apply IH. }
  destruct (xid_stop _ _); [done|].
  intros H. apply IH in H. destruct H as (extra & -> & Hnil & Hcons).
  exists (gti_handle i :: extra). rewrite <- app_assoc. split; [done|].
  split; [done|]. intros _.
  destruct extra as [|e extra].
  - destruct Hnil as [-> Hn]; [done|]. rewrite Hn. done.
  - apply Hcons. done.
Qed.

Lemma checkpoint_control_nextXid xid b g :
  gt_nextXid (GTMTransactions (checkpoint_control xid b g))
  = gt_nextXid (GTMTransactions g).
Proof.
  unfold checkpoint_control.
  destruct (save_control_due xid (ControlXid g));
    destruct (b && _); reflexivity.
Qed.

Lemma checkpoint_control_ControlXid xid b g :
  ControlXid (checkpoint_control xid b g)
  = if save_control_due xid (ControlXid g) then xid else ControlXid g.
Proof.
  unfold checkpoint_control.
  destruct (save_control_due xid (ControlXid g));
    destruct (b && _); reflexivity.
Qed.

Lemma checkpoint_control_file xid b g :
  control_file (checkpoint_control xid b g)
  = control_file g ++ (if save_control_due xid (ControlXid g) then [xid] else []).
Proof.
  unfold checkpoint_control.
  destruct (save_control_due xid (ControlXid g));
    destruct (b && _); simpl; rewrite ?app_nil_r; reflexivity.
Qed.

(** The test of the checkpoint, read as a proposition. *)
Lemma save_control_due_spec xid control :
  save_control_due xid control = true ↔
  xid ≠ InvalidGlobalTransactionId ∧
  (u32 (xid - control) > CONTROL_INTERVAL ∨ xid < control).
Proof.
  unfold save_control_due, GlobalTransactionIdIsValid.
  rewrite andb_true_iff, orb_true_iff, negb_true_iff, Z.eqb_neq, Z.gtb_gt, Z.ltb_lt.
  done.
Qed.

(** C3, as the code has it. When the loop of
    [GTM_GetGlobalTransactionIdMulti] has handed out GXIDs ending with
    [xid], the call returns, and it sets [ControlXid] to [xid] and
    writes the control file, as its last step, if and only if [xid] is
    valid and [xid - ControlXid > CONTROL_INTERVAL] in [uint32]
    arithmetic (strictly greater) or [xid < ControlXid]; otherwise
    [ControlXid] and the control file are left as they were. *)
Theorem GTM_GetGlobalTransactionIdMulti_checkpoint
    (handles : list GTM_TransactionHandle) (g g1 : GTM_Globals)
    (xid : GlobalTransactionId) (gxids : list GlobalTransactionId)
    (new_handles : list GTM_TransactionHandle) :
  gt_gtm_state (GTMTransactions g) ≠ GTM_SHUTTING_DOWN →
  assign_gxids handles g InvalidGlobalTransactionId [] []
    = Returned (xid, gxids, new_handles) g1 →
  ∃ g', GTM_GetGlobalTransactionIdMulti false handles g
          = Returned (gxids, new_handles) g' ∧
    (new_handles ≠ [] →
       gt_nextXid (GTMTransactions g') = GlobalTransactionIdAdvance xid) ∧
    (save_control_due xid (ControlXid g) = true ↔
       xid ≠ InvalidGlobalTransactionId ∧
       (u32 (xid - ControlXid g) > CONTROL_INTERVAL ∨ xid < ControlXid g)) ∧
    ControlXid g' = (if save_control_due xid (ControlXid g) then xid else ControlXid g) ∧
    control_file g' =
      control_file g ++ (if save_control_due xid (ControlXid g) then [xid] else []).
Proof.
  intros Hrun Hloop.
  exists (checkpoint_control xid true g1).
  destruct (assign_gxids_control _ _ _ _ _ _ _ Hloop) as [Hc Hf].
  destruct (assign_gxids_last _ _ _ _ _ _ _ _ _ Hloop) as (extra & Hnh & _ & Hadv).
  simpl in Hnh. subst extra.
  split.
  { unfold GTM_GetGlobalTransactionIdMulti.
    destruct (decide _) as [He|_]; [done|]. rewrite Hloop. done. }
  split.
  { intros Hne. rewrite checkpoint_control_nextXid. auto. }
  split; [apply save_control_due_spec|].
  rewrite checkpoint_control_ControlXid, checkpoint_control_file, Hc, Hf. done.
Qed.

End Generator.

(** The generator hands out GXID 11 while [ControlXid = 3] and
    [CONTROL_INTERVAL = 8]: the difference is 8, not more, and nothing
    is written. *)
Lemma GTM_GetGlobalTransactionIdMulti_checkpoint_witness :
  let g := run_small [ReqSetNextGXID 11; begin_on "S1"] in
  gt_gtm_state (GTMTransactions g) ≠ GTM_SHUTTING_DOWN ∧
  ∃ g', GTM_GetGlobalTransactionIdMulti (cfg := small) false [0] g
          = Returned ([11], [0]) g' ∧
        ControlXid g' = 3 ∧ control_file g' = [].
Proof.
  intros g. split; [by vm_compute|].
  destruct (GTM_GetGlobalTransactionIdMulti_checkpoint (cfg := small) [0] g
              (store_txninfo 0 (set_gti_gxid 11)
                 (set_GTMTransactions (set_gt_nextXid 12 (GTMTransactions g)) g))
              11 [11] [0])
    as (g' & Hret & _ & _ & Hc & Hf).
  - by vm_compute.
  - vm_compute. reflexivity.
  - exists g'. split; [exact Hret|]. split; [exact Hc|exact Hf].
Defined.

(** C3 as stated fails on the code: with [ControlXid = 3] and
    [CONTROL_INTERVAL = 8] the generator hands out GXID 11, so that
    [xid - ControlXid >= CONTROL_INTERVAL], and the checkpoint is not
    marked: [ControlXid] stays 3 and nothing is written. *)
Lemma GTM_GetGlobalTransactionIdMulti_checkpoint_not_at_interval :
  ∃ g', GTM_GetGlobalTransactionIdMulti (cfg := small) false [0]
          (run_small [ReqSetNextGXID 11; begin_on "S1"])
        = Returned ([11], [0]) g' ∧
    11 - ControlXid (run_small [ReqSetNextGXID 11; begin_on "S1"])
      >= CONTROL_INTERVAL (GTM_Config := small) ∧
    ControlXid g' = ControlXid (run_small [ReqSetNextGXID 11; begin_on "S1"]) ∧
    control_file g' = control_file (run_small [ReqSetNextGXID 11; begin_on "S1"]).
Proof.
  eexists. split; [vm_compute; reflexivity|].
  split; [by vm_compute|]. split; vm_compute; reflexivity.
Qed.

(** ** The removal pass (C2, C6) *)

Section Removal.
Context `{cfg : GTM_Config}.

Implicit Types (g : GTM_Globals) (p q : nat) (i : GTM_TransactionInfo).

Lemma array_update_latest i g :
  gt_transactions_array (GTMTransactions (update_latestCompletedXid i g))
  = gt_transactions_array (GTMTransactions g).
Proof. unfold update_latestCompletedXid. destruct (_ && _); reflexivity. Qed.

Lemma open_update_latest i g :
  gt_open_transactions (GTMTransactions (update_latestCompletedXid i g))
  = gt_open_transactions (GTMTransactions g).
Proof. unfold update_latestCompletedXid. destruct (_ && _); reflexivity. Qed.

Lemma latest_update_latest i g :
  gt_latestCompletedXid (GTMTransactions (update_latestCompletedXid i g))
  = latest_after (gt_latestCompletedXid (GTMTransactions g))
      (filter (λ x, GlobalTransactionIdIsNormal x = true) [gti_gxid i]).
Proof.
  unfold update_latestCompletedXid, latest_after.
  rewrite filter_cons, filter_nil.
  destruct (decide _) as [Hn|Hn].
  - rewrite Hn. simpl. unfold latest_step. destruct (GlobalTransactionIdFollowsOrEquals _ _); reflexivity.
  - apply not_true_is_false in Hn. rewrite Hn. reflexivity.
Qed.

Lemma array_clean p g q :
  gt_transactions_array (GTMTransactions (GTM_TransactionInfo_Clean p g)) !! q
  = if decide (p = q) then cleaned <$> gt_transactions_array (GTMTransactions g) !! p
    else gt_transactions_array (GTMTransactions g) !! q.
Proof.
  unfold GTM_TransactionInfo_Clean.
  destruct (gt_transactions_array (GTMTransactions g) !! p) as [i|] eqn:Hi.
  - rewrite array_store. simpl. rewrite Hi. done.
  - destruct (decide (p = q)) as [<-|]; [rewrite Hi|]; done.
Qed.

Lemma length_clean p g :
  length (gt_transactions_array (GTMTransactions (GTM_TransactionInfo_Clean p g)))
  = length (gt_transactions_array (GTMTransactions g)).
Proof.
  unfold GTM_TransactionInfo_Clean.
  destruct (_ !! p); [|done]. rewrite length_store. done.
Qed.

Lemma open_clean p g :
  gt_open_transactions (GTMTransactions (GTM_TransactionInfo_Clean p g))
  = gt_open_transactions (GTMTransactions g).
Proof. unfold GTM_TransactionInfo_Clean. destruct (_ !! p); reflexivity. Qed.

Lemma latest_clean p g :
  gt_latestCompletedXid (GTMTransactions (GTM_TransactionInfo_Clean p g))
  = gt_latestCompletedXid (GTMTransactions g).
Proof. unfold GTM_TransactionInfo_Clean. destruct (_ !! p); reflexivity. Qed.

(** Cleaning a slot keeps the GXID it carries. *)
Lemma gxid_clean p g q :
  gti_gxid <$> gt_transactions_array (GTMTransactions (GTM_TransactionInfo_Clean p g)) !! q
  = gti_gxid <$> gt_transactions_array (GTMTransactions g) !! q.
Proof.
  rewrite array_clean. destruct (decide (p = q)) as [<-|]; [|done].
  destruct (_ !! p); done.
Qed.

Lemma array_remove_one p g q :
  gt_transactions_array (GTMTransactions (remove_one p g)) !! q
  = if decide (p = q) then cleaned <$> gt_transactions_array (GTMTransactions g) !! p
    else gt_transactions_array (GTMTransactions g) !! q.
Proof.
  unfold remove_one. simpl.
  destruct (gt_transactions_array (GTMTransactions g) !! p) as [i|] eqn:Hi.
  - rewrite array_clean, array_update_latest. simpl. rewrite Hi. done.
  - simpl. destruct (decide (p = q)) as [<-|]; [rewrite Hi|]; done.
Qed.

Lemma open_remove_one p g :
  gt_open_transactions (GTMTransactions (remove_one p g))
  = gtm_list_delete (gt_open_transactions (GTMTransactions g)) p.
Proof.
  unfold remove_one. simpl.
  destruct (gt_transactions_array (GTMTransactions g) !! p) as [i|] eqn:Hi; [|done].
  rewrite open_clean, open_update_latest. done.
Qed.


Lemma normal_gxids_ext (arr arr' : list GTM_TransactionInfo) ps :
  (∀ q, q ∈ ps → gti_gxid <$> arr' !! q = gti_gxid <$> arr !! q) →
  normal_gxids arr' ps = normal_gxids arr ps.
Proof.
  unfold normal_gxids. intros H. f_equal.
  induction ps as [|p ps IH]; [done|]. csimpl.
  rewrite (H p) by (apply elem_of_cons; auto).
  rewrite IH; [done|]. intros q Hq. apply H, elem_of_cons; auto.
Qed.

Lemma filter_ext_elem (P Q : nat → Prop) `{!∀ x, Decision (P x), !∀ x, Decision (Q x)}
    (l : list nat) :
  (∀ x, x ∈ l → P x ↔ Q x) → filter P l = filter Q l.
Proof.
  induction l as [|a l IH]; intros Hext; [done|].
  rewrite !filter_cons.
  rewrite IH by (intros x Hx; apply Hext, elem_of_cons; auto).
  assert (P a ↔ Q a) as Ha by (apply Hext, elem_of_cons; auto).
  destruct (decide (P a)) as [HP|HP], (decide (Q a)) as [HQ|HQ]; tauto.
Qed.

Lemma normal_gxids_cons arr p ps :
  normal_gxids arr (p :: ps) = normal_gxids arr [p] ++ normal_gxids arr ps.
Proof.
  unfold normal_gxids. simpl.
  destruct (gti_gxid <$> arr !! p) as [x|]; simpl; [|done].
  rewrite !filter_cons, filter_nil. destruct (decide _); done.
Qed.

Lemma latest_after_app a xs ys :
  latest_after a (xs ++ ys) = latest_after (latest_after a xs) ys.
Proof. apply fold_left_app. Qed.



(** The loop of the reaper over cells without repetition: it leaves
    the survivors in the list, cleans the targets, keeps every other
    slot, and leaves in [gt_latestCompletedXid] the value of the
    successive updates over the normal GXIDs of the targets. *)
Lemma reap_cells_spec c b cells : ∀ g kept g',
  NoDup cells →
  reap_cells c b cells g = (kept, g') →
  let arr := gt_transactions_array (GTMTransactions g) in
  kept = reap_survivors c b arr cells ∧
  (∀ q, gt_transactions_array (GTMTransactions g') !! q
        = if decide (q ∈ reap_targets c b arr cells)
          then cleaned <$> arr !! q else arr !! q) ∧
  gt_open_transactions (GTMTransactions g') = gt_open_transactions (GTMTransactions g) ∧
  gt_latestCompletedXid (GTMTransactions g')
  = latest_after (gt_latestCompletedXid (GTMTransactions g))
      (normal_gxids arr (reap_targets c b arr cells)).
Proof.
  induction cells as [|p cells IH]; intros g kept g' Hnd; simpl.
  { intros [= <- <-]. repeat split. }
  apply NoDup_cons in Hnd as [Hp Hnd].
  set (arr := gt_transactions_array (GTMTransactions g)).
  destruct (reap_matches_at c b arr p) eqn:Hat.
  - (* the cell is unlinked and the slot cleaned *)
    assert (∃ i, arr !! p = Some i ∧ reap_matches c b i = true) as (i & Hi & Hm).
    { unfold reap_matches_at in Hat. destruct (arr !! p) as [i|]; [eauto|done]. }
    rewrite Hi, Hm. intros Hrec.
    unfold reap_survivors, reap_targets.
    rewrite filter_cons_False by (rewrite Hat; done).
    rewrite filter_cons_True by done.
    fold (reap_survivors c b arr cells) (reap_targets c b arr cells).
    set (g1 := GTM_TransactionInfo_Clean p (update_latestCompletedXid i g)) in *.
    assert (Harr1 : ∀ q, gt_transactions_array (GTMTransactions g1) !! q
              = if decide (p = q) then cleaned <$> arr !! p else arr !! q).
    { intros q. subst g1. rewrite array_clean, array_update_latest. done. }
    assert (Hsame : ∀ q, q ∈ cells →
              reap_matches_at c b (gt_transactions_array (GTMTransactions g1)) q
              = reap_matches_at c b arr q).
    { intros q Hq. unfold reap_matches_at. rewrite Harr1.
      destruct (decide (p = q)) as [->|]; [done|done]. }
    assert (Hsurv : reap_survivors c b (gt_transactions_array (GTMTransactions g1)) cells
                    = reap_survivors c b arr cells).
    { unfold reap_survivors. apply filter_ext_elem.
      intros q Hq. rewrite Hsame by done. done. }
    assert (Htarg : reap_targets c b (gt_transactions_array (GTMTransactions g1)) cells
                    = reap_targets c b arr cells).
    { unfold reap_targets. apply filter_ext_elem.
      intros q Hq. rewrite Hsame by done. done. }
    destruct (IH g1 kept g' Hnd Hrec) as (Hk & Ha & Ho & Hl).
    rewrite Hsurv in Hk. rewrite Htarg in Ha, Hl.
    split; [done|]. split; [|split].
    + intros q. rewrite Ha, Harr1.
      destruct (decide (p = q)) as [<-|Hne].
      * destruct (decide (p ∈ reap_targets c b arr cells)) as [Hin|_].
        -- apply list_elem_of_filter in Hin as [_ Hin]. done.
        -- rewrite decide_True by (apply elem_of_cons; auto). done.
      * destruct (decide (q ∈ reap_targets c b arr cells)) as [Hin|Hnin].
        -- rewrite decide_True by (apply elem_of_cons; auto). done.
        -- rewrite decide_False; [done|].
           intros [->|?]%elem_of_cons; done.
    + rewrite Ho. subst g1. rewrite open_clean, open_update_latest. done.
    + rewrite Hl. subst g1. rewrite latest_clean, latest_update_latest.
      rewrite (normal_gxids_cons _ p), latest_after_app. f_equal.
      * unfold normal_gxids. simpl. fold arr. rewrite Hi. done.
      * apply normal_gxids_ext. intros q _. rewrite Harr1.
        destruct (decide (p = q)) as [<-|]; [|done]. rewrite Hi. done.
  - (* the cell stays *)
    assert (Hstep : (match arr !! p with
                     | Some i =>
                         if reap_matches c b i then
                           reap_cells c b cells
                             (GTM_TransactionInfo_Clean p (update_latestCompletedXid i g))
                         else let '(kept, g') := reap_cells c b cells g in (p :: kept, g')
                     | None => let '(kept, g') := reap_cells c b cells g in (p :: kept, g')
                     end) = let '(kept, g') := reap_cells c b cells g in (p :: kept, g')).
    { unfold reap_matches_at in Hat. destruct (arr !! p) as [i|]; [rewrite Hat|]; done. }
    rewrite Hstep. clear Hstep.
    destruct (reap_cells c b cells g) as [kept0 g0] eqn:Hrec.
    intros [= <- <-].
    destruct (IH g kept0 g0 Hnd Hrec) as (Hk & Ha & Ho & Hl). fold arr in Hk, Ha, Hl.
    unfold reap_survivors, reap_targets.
    rewrite filter_cons_True by done.
    rewrite filter_cons_False by (rewrite Hat; done).
    fold (reap_survivors c b arr cells) (reap_targets c b arr cells).
    split; [by rewrite Hk|]. done.
Qed.

(** The loops that mark the slots before a removal pass keep
    [gt_latestCompletedXid], the list of open transactions and the
    GXID of every slot. *)
Lemma array_set_state p st g q :
  gt_transactions_array (GTMTransactions (store_txninfo p (set_gti_state st) g)) !! q
  = if decide (p = q)
    then set_gti_state st <$> gt_transactions_array (GTMTransactions g) !! p
    else gt_transactions_array (GTMTransactions g) !! q.
Proof. apply array_store. Qed.

Lemma gxid_set_state p st g q :
  gti_gxid <$> gt_transactions_array (GTMTransactions (store_txninfo p (set_gti_state st) g)) !! q
  = gti_gxid <$> gt_transactions_array (GTMTransactions g) !! q.
Proof.
  rewrite array_store. destruct (decide (p = q)) as [<-|]; [|done].
  destruct (_ !! p); done.
Qed.

Lemma commit_loop_frame txn waited : ∀ g rm st rm' st' g1,
  commit_loop txn waited g rm st = Returned (rm', st') g1 →
  gt_latestCompletedXid (GTMTransactions g1) = gt_latestCompletedXid (GTMTransactions g) ∧
  gt_open_transactions (GTMTransactions g1) = gt_open_transactions (GTMTransactions g) ∧
  (∀ q, gti_gxid <$> gt_transactions_array (GTMTransactions g1) !! q
        = gti_gxid <$> gt_transactions_array (GTMTransactions g) !! q).
Proof.
  induction txn as [|h txn IH]; intros g rm st rm' st' g1; simpl.
  { intros [= _ _ <-]. done. }
  destruct (GTM_HandleToTransactionInfo _ h) as [|p|]; [apply IH| |done].
  destruct (waited_xid_running _ _); [apply IH|].
  intros H. apply IH in H as (Hl & Ho & Hg).
  split; [done|]. split; [done|]. intros q. rewrite Hg. apply gxid_set_state.
Qed.

Lemma rollback_loop_frame txn : ∀ g ptrs st ptrs' st' g1,
  rollback_loop txn g ptrs st = Returned (ptrs', st') g1 →
  gt_latestCompletedXid (GTMTransactions g1) = gt_latestCompletedXid (GTMTransactions g) ∧
  gt_open_transactions (GTMTransactions g1) = gt_open_transactions (GTMTransactions g) ∧
  (∀ q, gti_gxid <$> gt_transactions_array (GTMTransactions g1) !! q
        = gti_gxid <$> gt_transactions_array (GTMTransactions g) !! q).
Proof.
  induction txn as [|h txn IH]; intros g ptrs st ptrs' st' g1; simpl.
  { intros [= _ _ <-]. done. }
  destruct (GTM_HandleToTransactionInfo _ h) as [|p|]; [apply IH| |done].
  intros H. apply IH in H as (Hl & Ho & Hg).
  split; [done|]. split; [done|]. intros q. rewrite Hg. apply gxid_set_state.
Qed.


(** *** The value the updates leave *)







Lemma reap_matches_spec c b i :
  gti_in_use i = true →
  reap_matches c b i = true ↔ reap_target c b i.
Proof.
  intros Hu. unfold reap_matches, reap_target, GTM_CLIENT_ID_EQ. rewrite Hu. simpl.
  rewrite !andb_true_iff, orb_true_iff, !negb_true_iff, !bool_decide_eq_false,
    !Z.eqb_eq.
  tauto.
Qed.

(** C6. On a well-formed table the reaper removes from the list of
    open transactions exactly the open slots that belong to the client
    and to the backend ([backend_id = -1] stands for any backend) and
    are neither prepared nor being prepared; such a slot is cleaned.
    Every other open slot, and so every slot in state
    [GTM_TXN_PREPARED] or [GTM_TXN_PREPARE_IN_PROGRESS], stays in the
    list, in its place, and is not changed. *)
Theorem GTM_RemoveAllTransInfos_exact (client_id backend_id : Z) (g : GTM_Globals) :
  table_wf (GTMTransactions g) →
  let t := GTMTransactions g in
  let t' := GTMTransactions (GTM_RemoveAllTransInfos client_id backend_id g) in
  (∀ p, p ∈ gt_open_transactions t' ↔
        p ∈ gt_open_transactions t ∧
        ∃ i, txninfo_at t p = Some i ∧ ¬ reap_target client_id backend_id i) ∧
  (∀ p i, p ∈ gt_open_transactions t → txninfo_at t p = Some i →
        reap_target client_id backend_id i →
        (p ∉ gt_open_transactions t') ∧ txninfo_at t' p = Some (cleaned i)) ∧
  (∀ p i, p ∈ gt_open_transactions t → txninfo_at t p = Some i →
        gti_state i = GTM_TXN_PREPARED ∨ gti_state i = GTM_TXN_PREPARE_IN_PROGRESS →
        p ∈ gt_open_transactions t' ∧ txninfo_at t' p = Some i) ∧
  (∀ p i, txninfo_at t p = Some i →
        ¬ (p ∈ gt_open_transactions t ∧ reap_target client_id backend_id i) →
        txninfo_at t' p = Some i) ∧
  gt_open_transactions t' =
    filter (λ p, p ∈ gt_open_transactions t') (gt_open_transactions t).
Proof.
  intros Hwf t t'.
  pose proof (wf_nodup _ Hwf) as Hnd. pose proof (wf_open _ Hwf) as Hopen.
  fold t in Hnd, Hopen.
  assert (Hrun : ∃ g', reap_cells client_id backend_id (gt_open_transactions t) g
                       = (reap_survivors client_id backend_id (gt_transactions_array t)
                            (gt_open_transactions t), g') ∧
            t' = set_gt_open (reap_survivors client_id backend_id (gt_transactions_array t)
                                (gt_open_transactions t)) (GTMTransactions g') ∧
            (∀ q, gt_transactions_array (GTMTransactions g') !! q
               = if decide (q ∈ reap_targets client_id backend_id (gt_transactions_array t)
                                   (gt_open_transactions t))
                 then cleaned <$> gt_transactions_array t !! q
                 else gt_transactions_array t !! q)).
  { subst t'. unfold GTM_RemoveAllTransInfos. fold t.
    destruct (reap_cells client_id backend_id _ g) as [kept g'] eqn:Hrec.
    destruct (reap_cells_spec _ _ _ _ _ _ Hnd Hrec) as (-> & Ha & _ & _).
    exists g'. done. }
  destruct Hrun as (g' & _ & Ht' & Harr).
  assert (Hopen' : gt_open_transactions t'
            = reap_survivors client_id backend_id (gt_transactions_array t)
                (gt_open_transactions t)) by (rewrite Ht'; done).
  assert (Harr' : ∀ q, txninfo_at t' q
               = if decide (q ∈ reap_targets client_id backend_id (gt_transactions_array t)
                                   (gt_open_transactions t))
                 then cleaned <$> txninfo_at t q else txninfo_at t q).
  { intros q. unfold txninfo_at. rewrite Ht'. simpl. apply Harr. }
  clearbody t'. clear Ht' Harr.
  assert (Hsurv : ∀ p, p ∈ gt_open_transactions t' ↔
            p ∈ gt_open_transactions t ∧
            ∃ i, txninfo_at t p = Some i ∧ ¬ reap_target client_id backend_id i).
  { intros p. rewrite Hopen'. unfold reap_survivors. rewrite list_elem_of_filter.
    split.
    - intros [Hm Hp]. split; [done|].
      destruct (Hopen p Hp) as (i & Hi & Hu & _). exists i. split; [done|].
      rewrite <- reap_matches_spec by done.
      unfold reap_matches_at, txninfo_at in *. rewrite Hi in Hm. congruence.
    - intros [Hp (i & Hi & Hn)]. split; [|done].
      destruct (Hopen p Hp) as (i' & Hi' & Hu & _).
      assert (i' = i) as -> by congruence.
      rewrite <- reap_matches_spec in Hn by done.
      unfold reap_matches_at, txninfo_at in *. rewrite Hi.
      by apply not_true_is_false. }
  assert (Htarg : ∀ p i, txninfo_at t p = Some i →
            (p ∈ reap_targets client_id backend_id (gt_transactions_array t)
                   (gt_open_transactions t)
             ↔ p ∈ gt_open_transactions t ∧ reap_target client_id backend_id i)).
  { intros p i Hi. unfold reap_targets. rewrite list_elem_of_filter.
    unfold reap_matches_at, txninfo_at in *. rewrite Hi.
    split.
    - intros [Hm Hp]. split; [done|].
      destruct (Hopen p Hp) as (i' & Hi' & Hu & _).
      unfold txninfo_at in Hi'. assert (i' = i) as -> by congruence.
      by apply reap_matches_spec.
    - intros [Hp Hr]. split; [|done].
      destruct (Hopen p Hp) as (i' & Hi' & Hu & _).
      unfold txninfo_at in Hi'. assert (i' = i) as -> by congruence.
      by apply reap_matches_spec. }
  split; [exact Hsurv|]. split; [|split; [|split]].
  - intros p i Hp Hi Hr. split.
    + rewrite Hsurv. intros [_ (j & Hj & Hn)]. apply Hn. congruence.
    + rewrite Harr', decide_True by (apply (Htarg p i); done). rewrite Hi. done.
  - intros p i Hp Hi Hst.
    assert (Hn : ¬ reap_target client_id backend_id i).
    { intros (_ & _ & H1 & H2). destruct Hst; done. }
    split.
    + apply Hsurv. eauto.
    + rewrite Harr', decide_False; [done|]. rewrite (Htarg p i) by done. tauto.
  - intros p i Hi Hn.
    rewrite Harr', decide_False; [done|]. rewrite (Htarg p i) by done. done.
  - rewrite Hopen' at 1. unfold reap_survivors. apply filter_ext_elem.
    intros p Hp. rewrite Hopen'. unfold reap_survivors.
    rewrite list_elem_of_filter. tauto.
Qed.

End Removal.

(** ** The invariant of the table *)

Section Invariant.
Context `{cfg : GTM_Config}.

Implicit Types (g : GTM_Globals) (t : GTM_Transactions) (p q : nat)
  (i j : GTM_TransactionInfo).

Lemma elem_of_gtm_list_delete (l : list nat) p q :
  NoDup l → q ∈ gtm_list_delete l p ↔ q ∈ l ∧ q ≠ p.
Proof.
  induction l as [|c l IH]; intros Hnd; simpl.
  { rewrite elem_of_nil. tauto. }
  apply NoDup_cons in Hnd as [Hc Hnd].
  destruct (decide (c = p)) as [->|Hne].
  - rewrite elem_of_cons. split.
    + intros Hq. split; [auto|]. intros ->. done.
    + intros [[->|Hq] Hn]; done.
  - rewrite !elem_of_cons, IH by done. split.
    + intros [->|[Hq Hn]]; auto.
    + intros [[->|Hq] Hn]; auto.
Qed.

Lemma NoDup_gtm_list_delete (l : list nat) p : NoDup l → NoDup (gtm_list_delete l p).
Proof.
  induction l as [|c l IH]; intros Hnd; simpl; [done|].
  pose proof Hnd as Hnd0.
  apply NoDup_cons in Hnd as [Hc Hnd].
  destruct (decide (c = p)) as [->|Hne]; [done|].
  apply NoDup_cons. split; [|auto].
  rewrite elem_of_gtm_list_delete by done. tauto.
Qed.

(** The invariant looks at the array, the list and the cursor only. *)
Lemma table_inv_ext t t' :
  gt_transactions_array t' = gt_transactions_array t →
  gt_open_transactions t' = gt_open_transactions t →
  gt_lastslot t' = gt_lastslot t →
  table_inv t → table_inv t'.
Proof.
  intros Ha Ho Hl [[H1 H2 H3 H4 H5] Hg]. split.
  - split; unfold txninfo_at in *; rewrite ?Ha, ?Ho, ?Hl; done.
  - unfold gid_unique, txninfo_at in *. rewrite Ha, Ho. done.
Qed.

(** A store that keeps [gti_in_use] and [gti_handle]. *)
Lemma table_wf_store p f g :
  (∀ i, gti_in_use (f i) = gti_in_use i ∧ gti_handle (f i) = gti_handle i) →
  table_wf (GTMTransactions g) → table_wf (GTMTransactions (store_txninfo p f g)).
Proof.
  intros Hf [H1 H2 H3 H4 H5].
  assert (Hlook : ∀ q j, txninfo_at (GTMTransactions (store_txninfo p f g)) q = Some j →
            ∃ i, txninfo_at (GTMTransactions g) q = Some i ∧
                 gti_in_use j = gti_in_use i ∧ gti_handle j = gti_handle i).
  { intros q j. unfold txninfo_at. rewrite array_store.
    destruct (decide (p = q)) as [<-|Hne].
    - destruct (_ !! p) as [i|]; [|done]. intros [= <-]. exists i.
      destruct (Hf i) as (? & ?). done.
    - intros Hj. exists j. done. }
  assert (Hlook' : ∀ q i, txninfo_at (GTMTransactions g) q = Some i →
            ∃ j, txninfo_at (GTMTransactions (store_txninfo p f g)) q = Some j ∧
                 gti_in_use j = gti_in_use i ∧ gti_handle j = gti_handle i).
  { intros q i. unfold txninfo_at. rewrite array_store.
    destruct (decide (p = q)) as [<-|Hne].
    - intros ->. exists (f i). destruct (Hf i) as (? & ?). done.
    - intros Hi. exists i. done. }
  split.
  - rewrite length_store. done.
  - done.
  - done.
  - intros q Hq. destruct (H4 q Hq) as (i & Hi & Hu & Hh).
    destruct (Hlook' q i Hi) as (j & Hj & Hu' & Hh'). exists j.
    split; [done|]. split; congruence.
  - intros q j Hj Hu. destruct (Hlook q j Hj) as (i & Hi & Hu' & _).
    apply (H5 q i Hi). congruence.
Qed.

(** A store that keeps [gti_gid]. *)
Lemma gid_unique_store p f g :
  (∀ i, gti_gid (f i) = gti_gid i) →
  gid_unique (GTMTransactions g) → gid_unique (GTMTransactions (store_txninfo p f g)).
Proof.
  intros Hf Hg.
  assert (Hlook : ∀ q j, txninfo_at (GTMTransactions (store_txninfo p f g)) q = Some j →
            ∃ i, txninfo_at (GTMTransactions g) q = Some i ∧ gti_gid j = gti_gid i).
  { intros q j. unfold txninfo_at. rewrite array_store.
    destruct (decide (p = q)) as [<-|Hne].
    - destruct (_ !! p) as [i|]; [|done]. intros [= <-]. exists i. auto.
    - intros Hj. exists j. done. }
  intros q1 q2 j1 j2 gid Hq1 Hq2 Hj1 Hj2 Hg1 Hg2.
  destruct (Hlook q1 j1 Hj1) as (i1 & Hi1 & Hgi1).
  destruct (Hlook q2 j2 Hj2) as (i2 & Hi2 & Hgi2).
  apply (Hg q1 q2 i1 i2 gid); try done; congruence.
Qed.

Lemma table_inv_store p f g :
  (∀ i, gti_in_use (f i) = gti_in_use i ∧ gti_handle (f i) = gti_handle i ∧
        gti_gid (f i) = gti_gid i) →
  table_inv (GTMTransactions g) → table_inv (GTMTransactions (store_txninfo p f g)).
Proof.
  intros Hf [Hwf Hg]. split.
  - apply table_wf_store; [|done]. intros i. destruct (Hf i) as (? & ? & ?). done.
  - apply gid_unique_store; [|done]. intros i. destruct (Hf i) as (? & ? & ?). done.
Qed.

Lemma table_inv_update_latest i g :
  table_inv (GTMTransactions g) →
  table_inv (GTMTransactions (update_latestCompletedXid i g)).
Proof.
  unfold update_latestCompletedXid. destruct (_ && _); [|done].
  apply table_inv_ext; reflexivity.
Qed.

(** Removing a slot from the list and cleaning it. *)
Lemma table_inv_remove_one p g :
  table_inv (GTMTransactions g) → table_inv (GTMTransactions (remove_one p g)).
Proof.
  intros [[H1 H2 H3 H4 H5] Hg].
  assert (Hopen : ∀ q, q ∈ gt_open_transactions (GTMTransactions (remove_one p g)) ↔
                       q ∈ gt_open_transactions (GTMTransactions g) ∧ q ≠ p).
  { intros q. rewrite open_remove_one. by apply elem_of_gtm_list_delete. }
  assert (Harr : ∀ q, q ≠ p →
            txninfo_at (GTMTransactions (remove_one p g)) q
            = txninfo_at (GTMTransactions g) q).
  { intros q Hq. unfold txninfo_at. rewrite array_remove_one, decide_False; done. }
  split; [split|].
  - assert (Hlen : ∀ g0, length (gt_transactions_array (GTMTransactions (remove_one p g0)))
                         = length (gt_transactions_array (GTMTransactions g0))).
    { intros g0. unfold remove_one. simpl. destruct (_ !! p); [|done].
      rewrite length_clean, array_update_latest. done. }
    rewrite Hlen. done.
  - assert (Hls : gt_lastslot (GTMTransactions (remove_one p g))
                  = gt_lastslot (GTMTransactions g)).
    { unfold remove_one. simpl. destruct (_ !! p) as [i|]; [|done].
      unfold GTM_TransactionInfo_Clean. rewrite array_update_latest. simpl.
      destruct (_ !! p); unfold update_latestCompletedXid; destruct (_ && _); done. }
    rewrite Hls. done.
  - rewrite open_remove_one. by apply NoDup_gtm_list_delete.
  - intros q [Hq Hne]%Hopen. rewrite Harr by done. auto.
  - intros q j Hj Hu. apply Hopen.
    destruct (decide (q = p)) as [->|Hne].
    + unfold txninfo_at in Hj. rewrite array_remove_one, decide_True in Hj by done.
      destruct (_ !! p) as [i|]; [|done]. injection Hj as <-. done.
    + rewrite Harr in Hj by done. split; [|done]. by apply (H5 q j).
  - intros q1 q2 j1 j2 gid [Hq1 Hn1]%Hopen [Hq2 Hn2]%Hopen Hj1 Hj2.
    rewrite Harr in Hj1, Hj2 by done. by apply Hg.
Qed.

Lemma table_inv_RemoveTransInfoMulti ptrs : ∀ g,
  table_inv (GTMTransactions g) →
  table_inv (GTMTransactions (GTM_RemoveTransInfoMulti ptrs g)).
Proof.
  induction ptrs as [|[p|] ptrs IH]; intros g Hinv; simpl; [done| |auto].
  apply IH, table_inv_remove_one, Hinv.
Qed.

Lemma reap_cells_frame c b cells : ∀ g kept g',
  reap_cells c b cells g = (kept, g') →
  length (gt_transactions_array (GTMTransactions g'))
  = length (gt_transactions_array (GTMTransactions g)) ∧
  gt_lastslot (GTMTransactions g') = gt_lastslot (GTMTransactions g).
Proof.
  induction cells as [|p cells IH]; intros g kept g'; simpl.
  { intros [= _ <-]. done. }
  assert (Hclean : ∀ i,
    length (gt_transactions_array
              (GTMTransactions (GTM_TransactionInfo_Clean p (update_latestCompletedXid i g))))
    = length (gt_transactions_array (GTMTransactions g)) ∧
    gt_lastslot (GTMTransactions (GTM_TransactionInfo_Clean p (update_latestCompletedXid i g)))
    = gt_lastslot (GTMTransactions g)).
  { intros i. rewrite length_clean, array_update_latest. split; [done|].
    unfold GTM_TransactionInfo_Clean. rewrite array_update_latest.
    destruct (_ !! p); unfold update_latestCompletedXid; destruct (_ && _); done. }
  destruct (_ !! p) as [i|].
  - destruct (reap_matches c b i).
    + intros H. apply IH in H as [-> ->]. apply Hclean.
    + destruct (reap_cells c b cells g) as [k0 g0] eqn:Hrec.
      intros [= _ <-]. by apply (IH g k0).
  - destruct (reap_cells c b cells g) as [k0 g0] eqn:Hrec.
    intros [= _ <-]. by apply (IH g k0).
Qed.

Lemma table_inv_RemoveAllTransInfos c b g :
  table_inv (GTMTransactions g) →
  table_inv (GTMTransactions (GTM_RemoveAllTransInfos c b g)).
Proof.
  intros [[H1 H2 H3 H4 H5] Hg]. unfold GTM_RemoveAllTransInfos.
  destruct (reap_cells c b _ g) as [kept g'] eqn:Hrec.
  destruct (reap_cells_frame _ _ _ _ _ _ Hrec) as [Hlen Hls].
  destruct (reap_cells_spec _ _ _ _ _ _ H3 Hrec) as (-> & Harr & _ & _).
  set (arr := gt_transactions_array (GTMTransactions g)) in *.
  set (open := gt_open_transactions (GTMTransactions g)) in *.
  assert (Hsurv : ∀ q, q ∈ reap_survivors c b arr open →
            q ∈ open ∧ gt_transactions_array (GTMTransactions g') !! q = arr !! q).
  { intros q [Hm Hq]%list_elem_of_filter. split; [done|].
    rewrite Harr, decide_False; [done|].
    intros [Hm' _]%list_elem_of_filter. congruence. }
  split; [split|]; unfold txninfo_at in *; simpl.
  - rewrite Hlen. done.
  - rewrite Hls. done.
  - by apply NoDup_filter.
  - intros q Hq. destruct (Hsurv q Hq) as [Hq' ->]. auto.
  - intros q j Hj Hu. rewrite Harr in Hj.
    destruct (decide (q ∈ reap_targets c b arr open)) as [Hin|Hnin].
    + destruct (arr !! q); [|done]. injection Hj as <-. done.
    + pose proof (H5 q j Hj Hu) as Hq. apply list_elem_of_filter. split; [|done].
      destruct (reap_matches_at c b arr q) eqn:Hm; [|done].
      exfalso. apply Hnin. apply list_elem_of_filter. done.
  - unfold gid_unique, txninfo_at in *. simpl. intros q1 q2 j1 j2 gid Hq1 Hq2.
    destruct (Hsurv q1 Hq1) as [Hq1' ->]. destruct (Hsurv q2 Hq2) as [Hq2' ->].
    by apply Hg.
Qed.

(** *** Allocation *)

Lemma scan_slots_found arr last n : ∀ ii r,
  0 < GTM_MAX_GLOBAL_TRANSACTIONS → 0 ≤ ii →
  scan_slots arr last n ii = ScanFound r →
  0 ≤ r ∧ ∃ i, arr !! Z.to_nat r = Some i ∧ gti_in_use i = false.
Proof.
  induction n as [|n IH]; intros ii r Hmax Hii; simpl; [done|].
  destruct (arr !! Z.to_nat ii) as [i|] eqn:Hi; [|done].
  destruct (gti_in_use i) eqn:Hu; simpl.
  - destruct (ii =? last); [done|]. apply IH; [done|].
    apply Z.mod_pos_bound. done.
  - intros [= <-]. eauto.
Qed.

Lemma table_inv_claim_slot c r ii g i :
  table_inv (GTMTransactions g) →
  0 ≤ ii →
  txninfo_at (GTMTransactions g) (Z.to_nat ii) = Some i → gti_in_use i = false →
  table_inv (GTMTransactions (claim_slot c r ii g)).
Proof.
  intros [[H1 H2 H3 H4 H5] Hg] Hii Hi Hu.
  set (p := Z.to_nat ii) in *.
  assert (Hp : p ∉ gt_open_transactions (GTMTransactions g)).
  { intros Hp. destruct (H4 p Hp) as (j & Hj & Huj & _). congruence. }
  assert (Harr : ∀ q, txninfo_at (GTMTransactions (claim_slot c r ii g)) q
            = if decide (p = q)
              then Some (GTM_TransactionInfo_Init i ii (br_isolevel r) c (br_connid r)
                           (br_global_sessionid r) (br_readonly r))
              else txninfo_at (GTMTransactions g) q).
  { intros q. unfold txninfo_at, claim_slot. simpl. rewrite list_lookup_alter.
    fold p. destruct (decide (p = q)) as [<-|]; [|done].
    unfold txninfo_at in Hi. rewrite Hi. done. }
  assert (Hopen : gt_open_transactions (GTMTransactions (claim_slot c r ii g))
                  = gt_open_transactions (GTMTransactions g) ++ [p]) by done.
  split; [split|].
  - unfold claim_slot. simpl. rewrite length_alter. done.
  - unfold claim_slot. simpl. apply lookup_lt_Some in Hi. subst p. lia.
  - rewrite Hopen. apply NoDup_app. split; [done|]. split; [|apply NoDup_singleton].
    intros q Hq ->%list_elem_of_singleton. done.
  - intros q. rewrite Hopen, elem_of_app, list_elem_of_singleton, Harr.
    intros [Hq| ->].
    + rewrite decide_False by (intros <-; done). auto.
    + rewrite decide_True by done. eexists. split; [done|]. simpl.
      split; [done|]. subst p. lia.
  - intros q j. rewrite Harr, Hopen, elem_of_app, list_elem_of_singleton.
    destruct (decide (p = q)) as [<-|]; [auto|]. intros Hj Huj. left. by apply (H5 q j).
  - intros q1 q2 j1 j2 gid. rewrite Hopen, !elem_of_app, !list_elem_of_singleton, !Harr.
    intros Hq1 Hq2.
    destruct (decide (p = q1)) as [<-|Hn1]; [intros [= <-]; done|].
    destruct (decide (p = q2)) as [<-|Hn2]; [intros _ [= <-]; done|].
    destruct Hq1 as [Hq1| ->]; [|done]. destruct Hq2 as [Hq2| ->]; [|done].
    by apply Hg.
Qed.

Lemma startslot_nonneg t : -1 ≤ gt_lastslot t → 0 ≤ startslot t.
Proof. unfold startslot. destruct (_ >=? _); lia. Qed.

Lemma leaves_begin_loop c reqs : ∀ g txns,
  0 < GTM_MAX_GLOBAL_TRANSACTIONS →
  table_inv (GTMTransactions g) →
  leaves (λ g', table_inv (GTMTransactions g')) (begin_loop c reqs g txns).
Proof.
  induction reqs as [|r reqs IH]; intros g txns Hmax Hinv; simpl; [done|].
  destruct (negb _).
  - destruct (GTM_HandleToTransactionInfo _ _); [done| |done]. by apply IH.
  - destruct (find_free_slot (GTMTransactions g)) as [ii| | |] eqn:Hscan; [|done..].
    apply IH; [done|].
    apply scan_slots_found in Hscan as (Hii & i & Hi & Hu); [|done|].
    + by eapply table_inv_claim_slot.
    + apply startslot_nonneg. destruct Hinv as [[_ [? _] _ _ _] _]. done.
Qed.

(** *** The marking loops and the generator *)

Lemma leaves_commit_loop txn waited : ∀ g rm st,
  table_inv (GTMTransactions g) →
  leaves (λ g', table_inv (GTMTransactions g')) (commit_loop txn waited g rm st).
Proof.
  induction txn as [|h txn IH]; intros g rm st Hinv; simpl; [done|].
  destruct (GTM_HandleToTransactionInfo _ h) as [|p|]; [by apply IH| |done].
  destruct (waited_xid_running _ _); [by apply IH|].
  apply IH, table_inv_store; done.
Qed.

Lemma leaves_rollback_loop txn : ∀ g ptrs st,
  table_inv (GTMTransactions g) →
  leaves (λ g', table_inv (GTMTransactions g')) (rollback_loop txn g ptrs st).
Proof.
  induction txn as [|h txn IH]; intros g ptrs st Hinv; simpl; [done|].
  destruct (GTM_HandleToTransactionInfo _ h) as [|p|]; [by apply IH| |done].
  apply IH, table_inv_store; done.
Qed.

Lemma leaves_assign_gxids handles : ∀ g xid gx nh,
  table_inv (GTMTransactions g) →
  leaves (λ g', table_inv (GTMTransactions g')) (assign_gxids handles g xid gx nh).
Proof.
  induction handles as [|h handles IH]; intros g xid gx nh Hinv; simpl; [done|].
  destruct (GTM_HandleToTransactionInfo _ h) as [|p|]; [done| |done].
  destruct (_ !! p) as [i|]; [|done].
  destruct (GlobalTransactionIdIsValid _); [by apply IH|].
  destruct (xid_stop _ _); [done|].
  apply IH, table_inv_store; [done|].
  revert Hinv. apply table_inv_ext; reflexivity.
Qed.

Lemma GTMTransactions_checkpoint_control xid b g :
  GTMTransactions (checkpoint_control xid b g) = GTMTransactions g.
Proof.
  unfold checkpoint_control.
  destruct (save_control_due _ _); destruct (b && _); reflexivity.
Qed.

Lemma leaves_bkup_loop reqs : ∀ txn g xid,
  table_inv (GTMTransactions g) →
  leaves (λ g', table_inv (GTMTransactions g')) (bkup_loop reqs txn g xid).
Proof.
  induction reqs as [|r reqs IH]; intros txn g xid Hinv; simpl; [done|].
  destruct txn as [|h txn]; [done|].
  destruct (GTM_HandleToTransactionInfo _ h) as [|p|]; [done| |done].
  apply IH.
  assert (H1 : table_inv (GTMTransactions (store_txninfo p (set_gti_gxid (bk_gxid r)) g)))
    by (apply table_inv_store; done).
  destruct (br_global_sessionid (bk_begin r)) as [sid|].
  - assert (H2 : table_inv (GTMTransactions
             (store_txninfo p (set_gti_global_session_id (strncpy GTM_MAX_SESSION_ID_LEN sid))
                (store_txninfo p (set_gti_gxid (bk_gxid r)) g))))
      by (apply table_inv_store; done).
    revert H2. apply table_inv_ext; reflexivity.
  - revert H1. apply table_inv_ext; reflexivity.
Qed.

(** *** Lookup by GID *)

Lemma gtm_foreach_find_None P arr cells :
  gtm_foreach_find P arr cells = None ↔
  ∀ p i, p ∈ cells → arr !! p = Some i → P i = false.
Proof.
  induction cells as [|c cells IH]; simpl.
  { split; [|done]. intros _ p i Hp. by apply elem_of_nil in Hp. }
  destruct (arr !! c) as [i|] eqn:Hi.
  - destruct (P i) eqn:HP.
    + split; [done|]. intros H. rewrite (H c i) in HP; [done| |done].
      apply elem_of_cons; auto.
    + rewrite IH. split.
      * intros H p j [->|Hp]%elem_of_cons Hj; [congruence|]. by apply (H p).
      * intros H p j Hp. apply H, elem_of_cons; auto.
  - rewrite IH. split.
    + intros H p j [->|Hp]%elem_of_cons Hj; [congruence|]. by apply (H p).
    + intros H p j Hp. apply H, elem_of_cons; auto.
Qed.

Lemma gtm_foreach_find_Some P arr cells i :
  gtm_foreach_find P arr cells = Some i →
  ∃ p, p ∈ cells ∧ arr !! p = Some i ∧ P i = true.
Proof.
  induction cells as [|c cells IH]; simpl; [done|].
  destruct (arr !! c) as [j|] eqn:Hj.
  - destruct (P j) eqn:HP.
    + intros [= <-]. exists c. split; [apply elem_of_cons; auto|done].
    + intros (p & Hp & H)%IH. exists p. split; [apply elem_of_cons; auto|done].
  - intros (p & Hp & H)%IH. exists p. split; [apply elem_of_cons; auto|done].
Qed.

Lemma gid_matches_true gid i : gid_matches gid i = true ↔ gti_gid i = Some gid.
Proof.
  unfold gid_matches. destruct (gti_gid i) as [s|]; [|done].
  rewrite String.eqb_eq. split; [by intros ->|by intros [= ->]].
Qed.

(** On a well-formed table the lookup by GID misses exactly when no
    open transaction carries the GID. *)
Lemma GTM_GIDToHandle_invalid t gid :
  table_wf t →
  GTM_GIDToHandle t gid = InvalidTransactionHandle ↔ ¬ gid_open t gid.
Proof.
  intros Hwf. unfold GTM_GIDToHandle, open_find, gid_open, txninfo_at.
  destruct (gtm_foreach_find _ _ _) as [i|] eqn:Hfind.
  - apply gtm_foreach_find_Some in Hfind as (p & Hp & Hi & Hm).
    apply gid_matches_true in Hm.
    destruct (wf_open _ Hwf p Hp) as (i' & Hi' & _ & Hh).
    unfold txninfo_at in Hi'. assert (i' = i) as -> by congruence.
    split.
    + unfold InvalidTransactionHandle. lia.
    + intros H. exfalso. apply H. eauto.
  - split; [|done]. intros _ (p & i & Hp & Hi & Hg).
    rewrite gtm_foreach_find_None in Hfind.
    specialize (Hfind p i Hp Hi). apply gid_matches_true in Hg. congruence.
Qed.

(** On a well-formed table the lookup by GXID answers with the handle
    of an open slot that carries the GXID, or with the invalid handle
    when the GXID is not present. *)
Lemma GTM_GXIDToHandle_Internal_spec t x :
  table_wf t →
  (GTM_GXIDToHandle_Internal t x = InvalidTransactionHandle ∧ ¬ gxid_open t x) ∨
  (∃ i, valid_handle t (GTM_GXIDToHandle_Internal t x) i ∧ gti_gxid i = x ∧
        Z.to_nat (GTM_GXIDToHandle_Internal t x) ∈ gt_open_transactions t ∧
        gxid_open t x).
Proof.
  intros Hwf. unfold GTM_GXIDToHandle_Internal, GlobalTransactionIdIsValid, gxid_open.
  destruct (x =? InvalidGlobalTransactionId) eqn:Hx; simpl.
  { apply Z.eqb_eq in Hx. left. split; [done|]. intros [? _]. done. }
  apply Z.eqb_neq in Hx.
  unfold open_find. destruct (gtm_foreach_find _ _ _) as [i|] eqn:Hfind.
  - apply gtm_foreach_find_Some in Hfind as (p & Hp & Hi & Hm).
    apply Z.eqb_eq in Hm.
    destruct (wf_open _ Hwf p Hp) as (i' & Hi' & Hu & Hh).
    unfold txninfo_at in *. assert (i' = i) as -> by congruence.
    right. exists i. rewrite Hh, Nat2Z.id.
    split; [|eauto 10].
    unfold valid_handle, txninfo_at. rewrite Nat2Z.id. split; [|done].
    pose proof (wf_length _ Hwf). apply lookup_lt_Some in Hi. lia.
  - left. split; [done|]. intros (_ & p & i & Hp & Hi & Hg).
    rewrite gtm_foreach_find_None in Hfind. specialize (Hfind p i Hp Hi).
    simpl in Hfind. apply Z.eqb_neq in Hfind. done.
Qed.

Lemma GTM_IsGXIDInProgress_spec t x :
  table_wf t → GTM_IsGXIDInProgress t x = true ↔ gxid_open t x.
Proof.
  intros Hwf. unfold GTM_IsGXIDInProgress. rewrite negb_true_iff, Z.eqb_neq.
  destruct (GTM_GXIDToHandle_Internal_spec t x Hwf) as [[-> Hn]|(i & Hv & _ & _ & Ho)].
  - tauto.
  - split; [done|]. intros _. destruct Hv as ([? ?] & _). unfold InvalidTransactionHandle. lia.
Qed.

Lemma leaves_left_behind {A} (P : GTM_Globals → Prop) (o : outcome A) g' :
  leaves P o → left_behind o = Some g' → P g'.
Proof. destruct o; simpl; intros H [= <-]; done. Qed.

Lemma table_inv_StartPrepared txn gid ns g :
  table_inv (GTMTransactions g) →
  leaves (λ g', table_inv (GTMTransactions g'))
    (GTM_StartPreparedTransaction txn gid ns g).
Proof.
  intros Hinv. unfold GTM_StartPreparedTransaction.
  destruct (GTM_HandleToTransactionInfo _ txn) as [|p|]; [done| |done].
  destruct (GTM_GIDToHandle _ gid =? InvalidTransactionHandle) eqn:Hgid;
    cbn [negb leaves]; [|done].
  destruct (negb (memcpy_fits _ ns)); [done|].
  destruct (negb (memcpy_fits _ gid)); [done|]. cbn [leaves].
  apply Z.eqb_eq in Hgid. destruct Hinv as [Hwf Hg].
  apply GTM_GIDToHandle_invalid in Hgid; [|done].
  split; [by apply table_wf_store|].
  intros q1 q2 j1 j2 gid' Hq1 Hq2. unfold txninfo_at. rewrite !array_store.
  simpl in Hq1, Hq2.
  destruct (decide (p = q1)) as [<-|Hn1], (decide (p = q2)) as [<-|Hn2]; [done|..].
  - destruct (_ !! p) as [i|]; [|done]. intros [= <-] Hj2. simpl. intros [= <-] Hg2.
    exfalso. apply Hgid. exists q2, j2. done.
  - destruct (_ !! p) as [i|]; [|done]. intros Hj1 [= <-] Hg1. simpl. intros [= <-].
    exfalso. apply Hgid. exists q1, j1. done.
  - by apply Hg.
Qed.

Lemma table_inv_init :
  0 < GTM_MAX_GLOBAL_TRANSACTIONS → table_inv (GTMTransactions GTM_InitTxnManager).
Proof.
  intros Hmax. split; [split|]; simpl.
  - rewrite length_replicate. lia.
  - lia.
  - apply NoDup_nil. done.
  - intros p Hp. by apply elem_of_nil in Hp.
  - intros p i. unfold txninfo_at. simpl.
    intros [-> _]%lookup_replicate. done.
  - intros p q i j gid Hp. by apply elem_of_nil in Hp.
Qed.

(** Serving a request keeps the invariant. *)
Lemma table_inv_serve r g g' :
  0 < GTM_MAX_GLOBAL_TRANSACTIONS →
  table_inv (GTMTransactions g) → serve r g = Some g' →
  table_inv (GTMTransactions g').
Proof.
  intros Hmax Hinv. destruct r; simpl.
  - apply (leaves_left_behind (λ g', table_inv (GTMTransactions g'))).
    by apply leaves_begin_loop.
  - apply (leaves_left_behind (λ g', table_inv (GTMTransactions g'))).
    unfold GTM_GetGlobalTransactionIdMulti.
    destruct Recovery_IsStandby; [done|]. destruct (decide _); [done|].
    pose proof (leaves_assign_gxids handles g InvalidGlobalTransactionId [] [] Hinv) as H.
    destruct (assign_gxids _ _ _ _ _) as [[[xid gx] nh] g1|g1|g1|]; simpl in *; try done.
    rewrite GTMTransactions_checkpoint_control. done.
  - apply (leaves_left_behind (λ g', table_inv (GTMTransactions g'))).
    unfold GTM_BkupBeginTransactionGetGXIDMulti. destruct (_ <? _); [done|].
    unfold GTM_BeginTransactionMulti.
    pose proof (leaves_begin_loop thr_client_id (map bk_begin reqs) g [] Hmax Hinv) as H.
    destruct (begin_loop _ _ _ _) as [txn g1|g1|g1|]; simpl in *; try done.
    pose proof (leaves_bkup_loop reqs txn g1 InvalidGlobalTransactionId H) as H'.
    destruct (bkup_loop _ _ _ _) as [xid g2|g2|g2|]; simpl in *; try done.
    rewrite GTMTransactions_checkpoint_control. done.
  - apply (leaves_left_behind (λ g', table_inv (GTMTransactions g'))).
    unfold GTM_RollbackTransactionMulti.
    pose proof (leaves_rollback_loop txn g [] [] Hinv) as H.
    destruct (rollback_loop _ _ _ _) as [[ptrs st] g1|g1|g1|]; simpl in *; try done.
    by apply table_inv_RemoveTransInfoMulti.
  - apply (leaves_left_behind (λ g', table_inv (GTMTransactions g'))).
    unfold GTM_CommitTransactionMulti.
    pose proof (leaves_commit_loop txn waited_xids g [] [] Hinv) as H.
    destruct (commit_loop _ _ _ _ _) as [[rm st] g1|g1|g1|]; simpl in *; try done.
    by apply table_inv_RemoveTransInfoMulti.
  - apply (leaves_left_behind (λ g', table_inv (GTMTransactions g'))).
    by apply table_inv_StartPrepared.
  - apply (leaves_left_behind (λ g', table_inv (GTMTransactions g'))).
    unfold GTM_PrepareTransaction.
    destruct (GTM_HandleToTransactionInfo _ _) as [|p|]; [done| |done].
    destruct (_ !! p); [|done].
    destruct (_ && _); simpl; by apply table_inv_store.
  - intros [= <-]. by apply table_inv_RemoveAllTransInfos.
  - apply (leaves_left_behind (λ g', table_inv (GTMTransactions g'))).
    unfold GTM_SetDoVacuum.
    destruct (GTM_HandleToTransactionInfo _ _) as [|p|]; [done| |done].
    simpl. by apply table_inv_store.
  - intros [= <-]. revert Hinv. apply table_inv_ext; reflexivity.
  - intros [= <-]. done.
  - intros [= <-]. revert Hinv. apply table_inv_ext; reflexivity.
Qed.

(** Every state the transaction manager reaches satisfies the
    invariant. *)
Lemma reachable_table_inv g :
  0 < GTM_MAX_GLOBAL_TRANSACTIONS → reachable g → table_inv (GTMTransactions g).
Proof.
  intros Hmax Hr. induction Hr as [|r g g' _ IH Hs].
  - by apply table_inv_init.
  - by eapply table_inv_serve.
Qed.

Lemma reachable_serve_all rs : ∀ g g',
  reachable g → serve_all rs g = Some g' → reachable g'.
Proof.
  induction rs as [|r rs IH]; intros g g' Hr; simpl.
  { intros [= <-]. done. }
  destruct (serve r g) as [g1|] eqn:Hs; [|done].
  apply IH. by eapply reachable_serve.
Qed.

End Invariant.

(** The states of the scenarios are reachable. *)
Lemma reachable_run_small rs :
  served_small rs = true → reachable (cfg := small) (run_small rs).
Proof.
  unfold served_small, run_small.
  destruct (serve_all rs GTM_InitTxnManager) as [g|] eqn:Hg; [|done].
  intros _. simpl. eapply reachable_serve_all; [apply reachable_init|exact Hg].
Qed.

Lemma table_wf_run_small rs :
  served_small rs = true →
  table_wf (cfg := small) (GTMTransactions (run_small rs)).
Proof.
  intros H. apply (reachable_table_inv (cfg := small)); [done|].
  by apply reachable_run_small.
Qed.

(** ** Start of a two-phase commit (C7) *)

Section StartPrepared.
Context `{cfg : GTM_Config}.

(** On a table of the declared size only the handle
    [GTM_MAX_GLOBAL_TRANSACTIONS] makes the lookup read past the
    array. *)
Lemma GTM_HandleToTransactionInfo_in_bounds t h :
  Z.of_nat (length (gt_transactions_array t)) = GTM_MAX_GLOBAL_TRANSACTIONS →
  h ≠ GTM_MAX_GLOBAL_TRANSACTIONS →
  GTM_HandleToTransactionInfo t h ≠ TxnOutOfBounds.
Proof.
  intros Hlen Hh [Hr Hl]%GTM_HandleToTransactionInfo_out_of_bounds. lia.
Qed.

Lemma memcpy_fits_true (n : nat) (src : string) :
  memcpy_fits n src = true ↔ (String.length src < n)%nat.
Proof. unfold memcpy_fits. rewrite Nat.leb_le. lia. Qed.

Lemma memcpy_fits_false (n : nat) (src : string) :
  memcpy_fits n src = false ↔ (n ≤ String.length src)%nat.
Proof. unfold memcpy_fits. rewrite Nat.leb_gt. lia. Qed.


End StartPrepared.




(** Client 7 holds two transactions, the second being prepared under
    "GID-1". After the client is reaped the first slot is gone and
    cleaned, the second is still open and unchanged. *)
Lemma GTM_RemoveAllTransInfos_exact_witness :
  table_wf (cfg := small) (GTMTransactions
    (run_small [begin_on "S1"; begin_on "S2"; ReqStartPrepared 1 "GID-1" "dn1"])) ∧
  (0%nat ∉ gt_open_transactions (GTMTransactions (GTM_RemoveAllTransInfos 7 (-1)
    (run_small [begin_on "S1"; begin_on "S2"; ReqStartPrepared 1 "GID-1" "dn1"])))) ∧
  1%nat ∈ gt_open_transactions (GTMTransactions (GTM_RemoveAllTransInfos 7 (-1)
    (run_small [begin_on "S1"; begin_on "S2"; ReqStartPrepared 1 "GID-1" "dn1"]))) ∧
  txninfo_at (GTMTransactions (GTM_RemoveAllTransInfos 7 (-1)
    (run_small [begin_on "S1"; begin_on "S2"; ReqStartPrepared 1 "GID-1" "dn1"]))) 1
  = txninfo_at (GTMTransactions
    (run_small [begin_on "S1"; begin_on "S2"; ReqStartPrepared 1 "GID-1" "dn1"])) 1.
Proof.
  assert (Hwf : table_wf (cfg := small) (GTMTransactions
    (run_small [begin_on "S1"; begin_on "S2"; ReqStartPrepared 1 "GID-1" "dn1"]))).
  { apply table_wf_run_small. vm_compute. reflexivity. }
  destruct (GTM_RemoveAllTransInfos_exact (cfg := small) 7 (-1) _ Hwf)
    as (_ & Hgone & Hstay & _ & _).
  split; [exact Hwf|].
  split.
  - eapply (Hgone 0%nat).
    + vm_compute. apply elem_of_cons. left. reflexivity.
    + vm_compute. reflexivity.
    + split; [reflexivity|]. split; [right; reflexivity|]. split; discriminate.
  - assert (H1 : (1%nat ∈ gt_open_transactions (GTMTransactions
        (run_small [begin_on "S1"; begin_on "S2"; ReqStartPrepared 1 "GID-1" "dn1"])))).
    { vm_compute. apply elem_of_cons. right. apply elem_of_cons. left. reflexivity. }
    assert (H2 : ∃ i, txninfo_at (GTMTransactions
        (run_small [begin_on "S1"; begin_on "S2"; ReqStartPrepared 1 "GID-1" "dn1"])) 1
        = Some i ∧ gti_state i = GTM_TXN_PREPARE_IN_PROGRESS).
    { eexists. split; [vm_compute; reflexivity|reflexivity]. }
    destruct H2 as (i & Hi & Hs).
    destruct (Hstay 1%nat i H1 Hi (or_intror Hs)) as [Hin Hsame].
    split; [exact Hin|]. rewrite Hsame, Hi. reflexivity.
Defined.

(** ** Commit with dependencies (C1) *)

Section Commit.
Context `{cfg : GTM_Config}.

Implicit Types (g : GTM_Globals) (t : GTM_Transactions) (p q : nat)
  (i j : GTM_TransactionInfo).

(** A store that keeps what [P] tests and the handle does not change
    what a search of the open list answers. *)
Lemma gtm_foreach_find_alter P (f : GTM_TransactionInfo → GTM_TransactionInfo) arr p cells :
  (∀ i, P (f i) = P i ∧ gti_handle (f i) = gti_handle i) →
  gti_handle <$> gtm_foreach_find P (alter f p arr) cells
  = gti_handle <$> gtm_foreach_find P arr cells.
Proof.
  intros Hf. induction cells as [|c cells IH]; simpl; [done|].
  rewrite list_lookup_alter.
  destruct (decide (p = c)) as [->|Hne].
  - destruct (arr !! c) as [i|]; simpl; [|done].
    destruct (Hf i) as [-> Hh]. destruct (P i); [simpl; by rewrite Hh|done].
  - destruct (arr !! c) as [i|]; [|done]. destruct (P i); done.
Qed.

Lemma GTM_IsGXIDInProgress_set_state p st g x :
  GTM_IsGXIDInProgress (GTMTransactions (store_txninfo p (set_gti_state st) g)) x
  = GTM_IsGXIDInProgress (GTMTransactions g) x.
Proof.
  unfold GTM_IsGXIDInProgress, GTM_GXIDToHandle_Internal, open_find. simpl.
  destruct (negb (GlobalTransactionIdIsValid x)); [done|].
  pose proof (gtm_foreach_find_alter (λ i, GlobalTransactionIdEquals (gti_gxid i) x)
                (set_gti_state st) (gt_transactions_array (GTMTransactions g)) p
                (gt_open_transactions (GTMTransactions g))
                (λ i, conj eq_refl eq_refl)) as H.
  destruct (gtm_foreach_find _ (alter _ _ _) _), (gtm_foreach_find _ _ _);
    simpl in H; try done.
  by injection H as ->.
Qed.

Lemma waited_xid_running_set_state p st g waited :
  waited_xid_running (GTMTransactions (store_txninfo p (set_gti_state st) g)) waited
  = waited_xid_running (GTMTransactions g) waited.
Proof.
  unfold waited_xid_running. induction waited as [|x waited IH]; [done|].
  cbn [existsb]. rewrite IH, GTM_IsGXIDInProgress_set_state. done.
Qed.

Lemma GTM_HandleToTransactionInfo_set_state p st g h :
  GTM_HandleToTransactionInfo (GTMTransactions (store_txninfo p (set_gti_state st) g)) h
  = GTM_HandleToTransactionInfo (GTMTransactions g) h.
Proof.
  unfold GTM_HandleToTransactionInfo. destruct (_ || _); [done|].
  rewrite array_store. destruct (decide (p = Z.to_nat h)) as [->|]; [|done].
  destruct (_ !! Z.to_nat h); done.
Qed.

Lemma waited_xid_running_spec t waited :
  table_wf t →
  waited_xid_running t waited = true ↔ ∃ x, x ∈ waited ∧ gxid_open t x.
Proof.
  intros Hwf. unfold waited_xid_running. rewrite existsb_exists. split.
  - intros (x & Hx & Hp). exists x. split; [by apply list_elem_of_In|].
    by apply GTM_IsGXIDInProgress_spec.
  - intros (x & Hx & Hp). exists x. split; [by apply list_elem_of_In|].
    by apply GTM_IsGXIDInProgress_spec.
Qed.

(** The marking loop when a waited GXID is still open: nothing is
    written, every handle in use is reported delayed. *)
Lemma commit_loop_delayed txn waited g : ∀ rm st,
  waited_xid_running (GTMTransactions g) waited = true →
  Forall (λ h, GTM_HandleToTransactionInfo (GTMTransactions g) h ≠ TxnOutOfBounds) txn →
  ∃ st', commit_loop txn waited g rm st = Returned (rm, st ++ st') g ∧
    length st' = length txn ∧
    ∀ k h p, txn !! k = Some h →
      GTM_HandleToTransactionInfo (GTMTransactions g) h = TxnPtr p →
      st' !! k = Some STATUS_DELAYED.
Proof.
  intros rm st Hrun Hb. revert st.
  induction txn as [|h txn IH]; intros st; simpl.
  { exists []. rewrite app_nil_r. done. }
  apply Forall_cons in Hb as [Hh Hb].
  destruct (GTM_HandleToTransactionInfo (GTMTransactions g) h) as [|p|] eqn:Hl; [| |done].
  - destruct (IH Hb (st ++ [STATUS_ERROR])) as (st' & -> & Hlen & Hst).
    exists (STATUS_ERROR :: st'). rewrite <- app_assoc. split; [done|].
    split; [simpl; lia|]. intros [|k] h' p'; simpl.
    + intros [= <-]. congruence.
    + apply Hst.
  - rewrite Hrun.
    destruct (IH Hb (st ++ [STATUS_DELAYED])) as (st' & -> & Hlen & Hst).
    exists (STATUS_DELAYED :: st'). rewrite <- app_assoc. split; [done|].
    split; [simpl; lia|]. intros [|k] h' p'; simpl.
    + done.
    + apply Hst.
Qed.

(** The marking loop when no waited GXID is open: every handle in use
    is switched to [GTM_TXN_COMMIT_IN_PROGRESS], reported committed and
    put on the removal batch. *)
Lemma commit_loop_commits txn waited : ∀ g rm st,
  waited_xid_running (GTMTransactions g) waited = false →
  Forall (λ h, GTM_HandleToTransactionInfo (GTMTransactions g) h ≠ TxnOutOfBounds) txn →
  ∃ rm' st' g1, commit_loop txn waited g rm st = Returned (rm ++ rm', st ++ st') g1 ∧
    length st' = length txn ∧
    (∀ q, gt_transactions_array (GTMTransactions g1) !! q
          = if decide (q ∈ rm')
            then set_gti_state GTM_TXN_COMMIT_IN_PROGRESS
                   <$> gt_transactions_array (GTMTransactions g) !! q
            else gt_transactions_array (GTMTransactions g) !! q) ∧
    ∀ k h p, txn !! k = Some h →
      GTM_HandleToTransactionInfo (GTMTransactions g) h = TxnPtr p →
      st' !! k = Some STATUS_OK ∧ p ∈ rm'.
Proof.
  induction txn as [|h txn IH]; intros g rm st Hrun Hb; simpl.
  { exists [], [], g. rewrite !app_nil_r. split; [done|]. split; [done|]. split.
    - intros q. rewrite decide_False; [done|]. apply not_elem_of_nil.
    - intros k h p Hk. by apply lookup_nil_Some in Hk || done. }
  apply Forall_cons in Hb as [Hh Hb].
  destruct (GTM_HandleToTransactionInfo (GTMTransactions g) h) as [|p|] eqn:Hl; [| |done].
  - destruct (IH g rm (st ++ [STATUS_ERROR]) Hrun Hb) as (rm' & st' & g1 & -> & Hlen & Harr & Hst).
    exists rm', (STATUS_ERROR :: st'), g1. rewrite <- app_assoc. split; [done|].
    split; [simpl; lia|]. split; [done|]. intros [|k] h' p'; simpl.
    + intros [= <-]. congruence.
    + apply Hst.
  - rewrite Hrun.
    set (g2 := store_txninfo p (set_gti_state GTM_TXN_COMMIT_IN_PROGRESS) g).
    assert (Hrun2 : waited_xid_running (GTMTransactions g2) waited = false)
      by (subst g2; rewrite waited_xid_running_set_state; done).
    assert (Hb2 : Forall (λ h, GTM_HandleToTransactionInfo (GTMTransactions g2) h
                               ≠ TxnOutOfBounds) txn).
    { eapply Forall_impl; [exact Hb|]. intros h' Hh'. subst g2.
      rewrite GTM_HandleToTransactionInfo_set_state. done. }
    destruct (IH g2 (rm ++ [p]) (st ++ [STATUS_OK]) Hrun2 Hb2)
      as (rm' & st' & g1 & -> & Hlen & Harr & Hst).
    exists (p :: rm'), (STATUS_OK :: st'), g1. rewrite <- !app_assoc. split; [done|].
    split; [simpl; lia|]. split.
    + intros q. rewrite Harr. subst g2. rewrite array_store.
      destruct (decide (p = q)) as [<-|Hne].
      * rewrite (decide_True (P := p ∈ p :: rm')) by (apply elem_of_cons; auto).
        destruct (decide (p ∈ rm')); [|done].
        destruct (_ !! p); done.
      * destruct (decide (q ∈ rm')) as [Hin|Hnin].
        -- rewrite decide_True by (apply elem_of_cons; auto). done.
        -- rewrite decide_False; [done|]. intros [->|?]%elem_of_cons; done.
    + intros [|k] h' p'; simpl.
      * intros [= <-]. rewrite Hl. intros [= <-]. split; [done|]. apply elem_of_cons; auto.
      * intros Hk Hl'. destruct (Hst k h' p' Hk) as [? ?].
        { subst g2. rewrite GTM_HandleToTransactionInfo_set_state. done. }
        split; [done|]. apply elem_of_cons; auto.
Qed.

(** A slot on the batch is not in the list after the removal pass. *)
Lemma RemoveTransInfoMulti_not_open ps : ∀ g p,
  NoDup (gt_open_transactions (GTMTransactions g)) →
  NoDup (gt_open_transactions
           (GTMTransactions (GTM_RemoveTransInfoMulti (map Some ps) g))) ∧
  (∀ q, q ∈ gt_open_transactions
              (GTMTransactions (GTM_RemoveTransInfoMulti (map Some ps) g)) →
        q ∈ gt_open_transactions (GTMTransactions g)) ∧
  (p ∈ ps →
   p ∉ gt_open_transactions (GTMTransactions (GTM_RemoveTransInfoMulti (map Some ps) g))).
Proof.
  induction ps as [|c ps IH]; intros g p Hnd; simpl.
  { split; [done|]. split; [done|]. intros H. by apply elem_of_nil in H. }
  assert (Hnd1 : NoDup (gt_open_transactions (GTMTransactions (remove_one c g)))).
  { rewrite open_remove_one. by apply NoDup_gtm_list_delete. }
  destruct (IH (remove_one c g) p Hnd1) as (Hnd' & Hsub & Hp).
  split; [done|]. split.
  - intros q Hq%Hsub. rewrite open_remove_one in Hq.
    apply elem_of_gtm_list_delete in Hq; [|done]. tauto.
  - intros [->|Hin]%elem_of_cons; [|auto].
    intros Hq%Hsub. rewrite open_remove_one in Hq.
    apply elem_of_gtm_list_delete in Hq; [|done]. tauto.
Qed.

(** C1. On a well-formed table, a commit request over handles other
    than [GTM_MAX_GLOBAL_TRANSACTIONS] returns. If a GXID of
    [waited_xids] is present in the list of open transactions, every
    handle in use gets [STATUS_DELAYED] and the globals are what they
    were: the slot stays in the list, unchanged. Otherwise every handle
    in use gets [STATUS_OK]; after the marking loop its slot is in
    state [GTM_TXN_COMMIT_IN_PROGRESS], still in use and with the GXID,
    GID and handle it had, and is on the removal batch; after the
    removal pass the slot is not in the list of open transactions. *)
Theorem GTM_CommitTransactionMulti_delay (g : GTM_Globals)
    (txn : list GTM_TransactionHandle) (waited_xids : list GlobalTransactionId) :
  table_wf (GTMTransactions g) →
  Forall (λ h, h ≠ GTM_MAX_GLOBAL_TRANSACTIONS) txn →
  let t := GTMTransactions g in
  ∃ remove_txninfo status g1,
    commit_loop txn waited_xids g [] [] = Returned (remove_txninfo, status) g1 ∧
    let g' := GTM_RemoveTransInfoMulti (map Some remove_txninfo) g1 in
    GTM_CommitTransactionMulti txn waited_xids g
      = Returned (Z.of_nat (length remove_txninfo), status) g' ∧
    length status = length txn ∧
    ((∃ x, x ∈ waited_xids ∧ gxid_open t x) →
       g' = g ∧
       ∀ k h i, txn !! k = Some h → valid_handle t h i →
         status !! k = Some STATUS_DELAYED ∧
         Z.to_nat h ∈ gt_open_transactions (GTMTransactions g') ∧
         txninfo_at (GTMTransactions g') (Z.to_nat h) = Some i) ∧
    (¬ (∃ x, x ∈ waited_xids ∧ gxid_open t x) →
       ∀ k h i, txn !! k = Some h → valid_handle t h i →
         status !! k = Some STATUS_OK ∧
         txninfo_at (GTMTransactions g1) (Z.to_nat h)
           = Some (set_gti_state GTM_TXN_COMMIT_IN_PROGRESS i) ∧
         (∃ j, txninfo_at (GTMTransactions g1) (Z.to_nat h) = Some j ∧
               gti_state j = GTM_TXN_COMMIT_IN_PROGRESS ∧
               gti_in_use j = true ∧ gti_gxid j = gti_gxid i ∧
               gti_gid j = gti_gid i ∧ gti_handle j = gti_handle i) ∧
         Z.to_nat h ∈ remove_txninfo ∧
         (Z.to_nat h ∉ gt_open_transactions (GTMTransactions g'))).
Proof.
  intros Hwf Htxn t.
  assert (Hb : Forall (λ h, GTM_HandleToTransactionInfo t h ≠ TxnOutOfBounds) txn).
  { eapply Forall_impl; [exact Htxn|]. intros h Hh.
    apply GTM_HandleToTransactionInfo_in_bounds; [apply Hwf|done]. }
  destruct (waited_xid_running t waited_xids) eqn:Hrun.
  - destruct (commit_loop_delayed txn waited_xids g [] [] Hrun Hb) as (st' & Hloop & Hlen & Hst).
    simpl in Hloop. exists [], st', g. split; [done|]. simpl.
    split; [unfold GTM_CommitTransactionMulti; rewrite Hloop; done|].
    split; [done|]. split.
    + intros _. split; [done|]. intros k h i Hk Hv.
      split; [eapply Hst; [done|by eapply valid_handle_ptr]|].
      destruct Hv as (Hr & Hi & Hu). split; [|done].
      by apply (wf_in_use _ Hwf _ i).
    + intros Hn. exfalso. apply Hn. by apply waited_xid_running_spec.
  - destruct (commit_loop_commits txn waited_xids g [] [] Hrun Hb)
      as (rm & st' & g1 & Hloop & Hlen & Harr & Hst).
    simpl in Hloop. exists rm, st', g1. split; [done|]. simpl.
    split; [unfold GTM_CommitTransactionMulti; rewrite Hloop; done|].
    split; [done|]. split.
    + intros Hex. apply waited_xid_running_spec in Hex; [|done]. fold t in Hrun. congruence.
    + intros _ k h i Hk Hv.
      destruct (Hst k h _ Hk (valid_handle_ptr _ _ _ Hv)) as [Hs Hin].
      assert (Hj : txninfo_at (GTMTransactions g1) (Z.to_nat h)
                   = Some (set_gti_state GTM_TXN_COMMIT_IN_PROGRESS i)).
      { unfold txninfo_at. rewrite Harr, decide_True by done.
        destruct Hv as (_ & Hi & _). unfold txninfo_at in Hi. fold t. rewrite Hi. done. }
      split; [done|]. split; [exact Hj|]. split.
      { exists (set_gti_state GTM_TXN_COMMIT_IN_PROGRESS i). split; [exact Hj|].
        destruct Hv as (_ & _ & Hu). done. }
      split; [done|].
      assert (Hnd : NoDup (gt_open_transactions (GTMTransactions g1))).
      { destruct (commit_loop_frame _ _ _ _ _ _ _ _ Hloop) as (_ & -> & _). apply Hwf. }
      by apply (RemoveTransInfoMulti_not_open rm g1 (Z.to_nat h) Hnd).
Qed.

End Commit.

(** Scenario: g1 = 3 and g2 = 4 are open. A commit of g2 that waits
    for g1 is delayed and changes nothing; a commit of g2 that waits
    for nothing succeeds and removes slot 1 from the list. *)
Lemma GTM_CommitTransactionMulti_delay_witness :
  table_wf (cfg := small) (GTMTransactions
    (run_small [begin_on "S1"; ReqGetGXID false [0]; begin_on "S2"; ReqGetGXID false [1]])) ∧
  GTM_CommitTransaction (cfg := small) 1 [3]
    (run_small [begin_on "S1"; ReqGetGXID false [0]; begin_on "S2"; ReqGetGXID false [1]])
  = Returned STATUS_DELAYED
    (run_small [begin_on "S1"; ReqGetGXID false [0]; begin_on "S2"; ReqGetGXID false [1]]) ∧
  ∃ g', GTM_CommitTransactionMulti (cfg := small) [1] []
    (run_small [begin_on "S1"; ReqGetGXID false [0]; begin_on "S2"; ReqGetGXID false [1]])
    = Returned (1, [STATUS_OK]) g' ∧
    (1%nat ∉ gt_open_transactions (GTMTransactions g')) ∧
    ∃ g1 j, commit_loop (cfg := small) [1] []
              (run_small [begin_on "S1"; ReqGetGXID false [0]; begin_on "S2";
                          ReqGetGXID false [1]]) [] []
            = Returned ([1%nat], [STATUS_OK]) g1 ∧
            txninfo_at (GTMTransactions g1) 1 = Some j ∧
            gti_state j = GTM_TXN_COMMIT_IN_PROGRESS.
Proof.
  assert (Hwf : table_wf (cfg := small) (GTMTransactions
    (run_small [begin_on "S1"; ReqGetGXID false [0]; begin_on "S2"; ReqGetGXID false [1]]))).
  { apply table_wf_run_small. vm_compute. reflexivity. }
  split; [exact Hwf|]. split; [vm_compute; reflexivity|].
  destruct (GTM_CommitTransactionMulti_delay (cfg := small) _ [1] [] Hwf)
    as (rm & st & g1 & Hloop & Hret & Hlen & _ & Hok).
  { apply Forall_cons. split; [discriminate|apply Forall_nil; exact I]. }
  assert (Hrun : ∃ g2, commit_loop (cfg := small) [1] []
              (run_small [begin_on "S1"; ReqGetGXID false [0]; begin_on "S2";
                          ReqGetGXID false [1]]) [] []
            = Returned ([1%nat], [STATUS_OK]) g2).
  { eexists. vm_compute. reflexivity. }
  destruct Hrun as (g2 & Hrun). rewrite Hrun in Hloop. injection Hloop as <- <- <-.
  assert (Hv : ∃ i, valid_handle (cfg := small) (GTMTransactions
    (run_small [begin_on "S1"; ReqGetGXID false [0]; begin_on "S2"; ReqGetGXID false [1]]))
    1 i).
  { eexists. split; [cbn; lia|]. split; [vm_compute; reflexivity|reflexivity]. }
  destruct Hv as [i Hv].
  destruct (Hok (λ H, match H with
                      | ex_intro _ x (conj Hx _) => proj1 (elem_of_nil x) Hx
                      end) 0%nat 1 i eq_refl Hv)
    as (_ & _ & (j & Hj & Hsj & _) & _ & Hnot).
  eexists. split; [exact Hret|]. split; [exact Hnot|].
  exists g2, j. split; [exact Hrun|]. split; [exact Hj|exact Hsj].
Defined.

(** ** The search for a free slot *)

Section Allocation.
Context `{cfg : GTM_Config}.

Implicit Types (g : GTM_Globals) (t : GTM_Transactions) (p q : nat)
  (i j : GTM_TransactionInfo).

Abbreviation M := GTM_MAX_GLOBAL_TRANSACTIONS.

(** The search walks over slots that are in use and are not the one
    the cursor points at. *)
Lemma scan_slots_skip arr last : ∀ (m n : nat) ii,
  0 < M → 0 ≤ ii < M →
  (∀ d, 0 ≤ d < Z.of_nat m →
     ∃ i, arr !! Z.to_nat ((ii + d) mod M) = Some i ∧ gti_in_use i = true ∧
          (ii + d) mod M ≠ last) →
  scan_slots arr last (m + n) ii = scan_slots arr last n ((ii + Z.of_nat m) mod M).
Proof.
  induction m as [|m IH]; intros n ii HM Hii Hbusy.
  { simpl. rewrite Z.add_0_r, Z.mod_small by done. done. }
  destruct (Hbusy 0) as (i & Hi & Hu & Hne); [lia|].
  rewrite Z.add_0_r, Z.mod_small in Hi, Hne by done.
  simpl. rewrite Hi, Hu. simpl.
  apply Z.eqb_neq in Hne. rewrite Hne.
  rewrite IH; [|done|by apply Z.mod_pos_bound|].
  - f_equal. rewrite Zplus_mod_idemp_l. f_equal. lia.
  - intros d Hd. rewrite Zplus_mod_idemp_l.
    replace (ii + 1 + d) with (ii + (d + 1)) by lia. apply Hbusy. lia.
Qed.

(** Where the search starts. *)
Lemma startslot_mod t :
  0 < M → -1 ≤ gt_lastslot t < M →
  startslot t = (gt_lastslot t + 1) mod M ∧ 0 ≤ startslot t < M.
Proof.
  intros HM Hl. unfold startslot.
  destruct (gt_lastslot t + 1 >=? M) eqn:Hge.
  - assert (gt_lastslot t + 1 = M) as -> by lia.
    rewrite Z.mod_same by lia. lia.
  - rewrite Z.mod_small by lia. lia.
Qed.

(** The search comes back to the cursor only at its last step. *)
Lemma cursor_is_last_step (a d : Z) :
  0 < M → 0 ≤ a < M → 0 ≤ d < M - 1 → (a + 1 + d) mod M ≠ a.
Proof.
  intros HM Ha Hd He.
  destruct (Z_lt_ge_dec (a + 1 + d) M) as [Hlt|Hge].
  - rewrite Z.mod_small in He by lia. lia.
  - replace (a + 1 + d) with (a + 1 + d - M + 1 * M) in He by lia.
    rewrite Z.mod_add, Z.mod_small in He by lia. lia.
Qed.

(** The first free slot in the cyclic order that starts after the
    cursor is the one the search stops at. *)
Lemma find_free_slot_first t (k : Z) i :
  0 < M → -1 ≤ gt_lastslot t < M →
  0 ≤ k < M →
  (∀ d, 0 ≤ d < k →
     ∃ j, gt_transactions_array t !! Z.to_nat ((gt_lastslot t + 1 + d) mod M) = Some j ∧
          gti_in_use j = true) →
  gt_transactions_array t !! Z.to_nat ((gt_lastslot t + 1 + k) mod M) = Some i →
  gti_in_use i = false →
  find_free_slot t = ScanFound ((gt_lastslot t + 1 + k) mod M).
Proof.
  intros HM Hl Hk Hbusy Hi Hu.
  destruct (startslot_mod t HM Hl) as [Hs Hsr].
  unfold find_free_slot.
  replace (Z.to_nat M) with (Z.to_nat k + S (Z.to_nat (M - k - 1)))%nat by lia.
  rewrite scan_slots_skip; [|done|done|].
  - rewrite Z2Nat.id by lia. rewrite Hs, Zplus_mod_idemp_l. simpl.
    rewrite Hi, Hu. done.
  - intros d Hd. rewrite Z2Nat.id in Hd by lia.
    rewrite Hs, Zplus_mod_idemp_l.
    destruct (Hbusy d Hd) as (j & Hj & Huj). exists j. split; [done|]. split; [done|].
    destruct (decide (gt_lastslot t = -1)) as [->|Hne].
    + pose proof (Z.mod_pos_bound (-1 + 1 + d) M HM). lia.
    + apply cursor_is_last_step; lia.
Qed.

(** When every slot is in use and the cursor is an index of the array,
    the search ends with the error. *)
Lemma find_free_slot_full t :
  0 < M → 0 ≤ gt_lastslot t < M →
  (∀ ii, 0 ≤ ii < M →
     ∃ j, gt_transactions_array t !! Z.to_nat ii = Some j ∧ gti_in_use j = true) →
  find_free_slot t = ScanFull.
Proof.
  intros HM Hl Hall.
  destruct (startslot_mod t HM ltac:(lia)) as [Hs Hsr].
  unfold find_free_slot.
  replace (Z.to_nat M) with (Z.to_nat (M - 1) + 1)%nat by lia.
  rewrite scan_slots_skip; [|done|done|].
  - rewrite Z2Nat.id by lia. rewrite Hs, Zplus_mod_idemp_l.
    replace (gt_lastslot t + 1 + (M - 1)) with (gt_lastslot t + 1 * M) by lia.
    rewrite Z.mod_add, Z.mod_small by lia. simpl.
    destruct (Hall (gt_lastslot t) Hl) as (j & -> & ->). simpl.
    rewrite Z.eqb_refl. done.
  - intros d Hd. rewrite Z2Nat.id in Hd by lia.
    rewrite Hs, Zplus_mod_idemp_l.
    destruct (Hall ((gt_lastslot t + 1 + d) mod M)) as (j & Hj & Huj);
      [by apply Z.mod_pos_bound|].
    exists j. split; [done|]. split; [done|]. apply cursor_is_last_step; lia.
Qed.

(** When every slot is in use and the cursor still has its initial
    value, the search runs out of steps: no error is raised and no slot
    is chosen. *)
Lemma find_free_slot_full_initial_cursor t :
  0 < M → gt_lastslot t = -1 →
  (∀ ii, 0 ≤ ii < M →
     ∃ j, gt_transactions_array t !! Z.to_nat ii = Some j ∧ gti_in_use j = true) →
  find_free_slot t = ScanNoSlot 0.
Proof.
  intros HM Hl Hall.
  destruct (startslot_mod t HM ltac:(lia)) as [Hs Hsr].
  unfold find_free_slot.
  replace (Z.to_nat M) with (Z.to_nat M + 0)%nat by lia.
  rewrite Hl. rewrite scan_slots_skip; [|done|done|].
  - rewrite Z2Nat.id by lia. rewrite Hs, Zplus_mod_idemp_l, Hl.
    replace (-1 + 1 + M) with (0 + 1 * M) by lia.
    rewrite Z.mod_add, Z.mod_small by lia. done.
  - intros d Hd.
    destruct (Hall ((startslot t + d) mod M)) as (j & Hj & Huj);
      [by apply Z.mod_pos_bound|].
    exists j. split; [done|]. split; [done|].
    pose proof (Z.mod_pos_bound (startslot t + d) M HM). lia.
Qed.

End Allocation.

(** ** Replay of a begin on the standby (C8, C9) *)

Section Standby.
Context `{cfg : GTM_Config}.

Implicit Types (g : GTM_Globals) (t : GTM_Transactions) (p q : nat)
  (i j : GTM_TransactionInfo).

Abbreviation M := GTM_MAX_GLOBAL_TRANSACTIONS.

(** A begin for one request either reuses the transaction of the
    session or claims the slot the search stops at. *)
Lemma begin_loop_single c r g txns g1 :
  begin_loop c [r] g [] = Returned txns g1 →
  let h := GTM_GlobalSessionIDToHandle (GTMTransactions g) (br_global_sessionid r) in
  (h ≠ InvalidTransactionHandle ∧ txns = [h] ∧ g1 = g ∧
   ∃ p, GTM_HandleToTransactionInfo (GTMTransactions g) h = TxnPtr p) ∨
  (h = InvalidTransactionHandle ∧
   ∃ ii, find_free_slot (GTMTransactions g) = ScanFound ii ∧
         txns = [ii] ∧ g1 = claim_slot c r ii g).
Proof.
  simpl.
  destruct (GTM_GlobalSessionIDToHandle _ _ =? InvalidTransactionHandle) eqn:He; simpl.
  - apply Z.eqb_eq in He.
    destruct (find_free_slot (GTMTransactions g)) as [ii| | |]; try done.
    intros [= <- <-]. right. split; [done|]. exists ii. done.
  - apply Z.eqb_neq in He.
    destruct (GTM_HandleToTransactionInfo _ _) as [|p|] eqn:Hl; try done.
    intros [= <- <-]. left. split; [done|]. split; [done|]. split; [done|]. by exists p.
Qed.

Lemma GTM_BkupBeginTransactionGetGXID_returned c gxid iso ro sid cid g g' :
  GTM_BkupBeginTransactionGetGXID c gxid iso ro sid cid g = Returned tt g' →
  ∃ h p gb,
    begin_loop c [{| br_isolevel := iso; br_readonly := ro;
                     br_global_sessionid := sid; br_connid := -1 |}] g []
      = Returned [h] gb ∧
    GTM_HandleToTransactionInfo (GTMTransactions gb) h = TxnPtr p ∧
    g' = bkup_apply p gxid sid gb.
Proof.
  unfold GTM_BkupBeginTransactionGetGXID, GTM_BkupBeginTransactionGetGXIDMulti,
    GTM_BeginTransactionMulti.
  destruct (_ <? _); [done|]. cbn [map bk_begin].
  destruct (begin_loop _ _ _ _) as [txns gb|gb|gb|] eqn:Hb; try done.
  destruct (begin_loop_single _ _ _ _ _ Hb) as [(_ & -> & _ & _)|(_ & ii & _ & -> & _)].
  - cbn [bkup_loop bk_gxid bk_begin br_global_sessionid].
    destruct (GTM_HandleToTransactionInfo _ _) as [|p|] eqn:Hl; try done.
    intros [= <-]. eexists _, p, gb. split; [done|]. split; [done|].
    unfold bkup_apply. destruct sid; done.
  - cbn [bkup_loop bk_gxid bk_begin br_global_sessionid].
    destruct (GTM_HandleToTransactionInfo _ _) as [|p|] eqn:Hl; try done.
    intros [= <-]. eexists _, p, gb. split; [done|]. split; [done|].
    unfold bkup_apply. destruct sid; done.
Qed.

(** A begin does not move the generator. *)
Lemma begin_loop_nextXid c reqs : ∀ g txns txns' g1,
  begin_loop c reqs g txns = Returned txns' g1 →
  gt_nextXid (GTMTransactions g1) = gt_nextXid (GTMTransactions g) ∧
  ControlXid g1 = ControlXid g ∧ control_file g1 = control_file g.
Proof.
  induction reqs as [|r reqs IH]; intros g txns txns' g1; simpl.
  { intros [= _ <-]. done. }
  destruct (negb _).
  - destruct (GTM_HandleToTransactionInfo _ _); try done. apply IH.
  - destruct (find_free_slot _) as [ii| | |]; try done.
    intros H. apply IH in H. exact H.
Qed.

Lemma bkup_apply_nextXid p gxid sid g :
  gt_nextXid (GTMTransactions (bkup_apply p gxid sid g))
  = bkup_advance (gt_nextXid (GTMTransactions g)) gxid.
Proof.
  unfold bkup_apply. rewrite checkpoint_control_nextXid. destruct sid; done.
Qed.

(** Some slot of the array is free: the search stops at the first
    free slot in the cyclic order that starts after the cursor. *)
Lemma find_free_slot_finds t :
  0 < M → Z.of_nat (length (gt_transactions_array t)) = M →
  -1 ≤ gt_lastslot t < M →
  (∃ p i, gt_transactions_array t !! p = Some i ∧ gti_in_use i = false) →
  ∃ k i, 0 ≤ k < M ∧
    gt_transactions_array t !! Z.to_nat ((gt_lastslot t + 1 + k) mod M) = Some i ∧
    gti_in_use i = false ∧
    (∀ d, 0 ≤ d < k →
       ∃ j, gt_transactions_array t !! Z.to_nat ((gt_lastslot t + 1 + d) mod M) = Some j ∧
            gti_in_use j = true) ∧
    find_free_slot t = ScanFound ((gt_lastslot t + 1 + k) mod M).
Proof.
  intros HM Hlen Hl (p & i & Hi & Hu).
  set (slot d := gt_transactions_array t !! Z.to_nat ((gt_lastslot t + 1 + d) mod M)).
  assert (Hsearch : ∀ n : nat, Z.of_nat n ≤ M →
    (∃ k j, 0 ≤ k < Z.of_nat n ∧ slot k = Some j ∧ gti_in_use j = false ∧
            ∀ d, 0 ≤ d < k → ∃ j', slot d = Some j' ∧ gti_in_use j' = true) ∨
    (∀ d, 0 ≤ d < Z.of_nat n → ∃ j', slot d = Some j' ∧ gti_in_use j' = true)).
  { induction n as [|n IH]; intros Hn.
    { right. intros d Hd. lia. }
    destruct IH as [(k & j & Hk & Hj & Hju & Hbusy)|Hbusy]; [lia| |].
    - left. exists k, j. split; [lia|done].
    - assert (Hex : ∃ j, slot (Z.of_nat n) = Some j).
      { apply lookup_lt_is_Some_2.
        pose proof (Z.mod_pos_bound (gt_lastslot t + 1 + Z.of_nat n) M HM). lia. }
      destruct Hex as [j Hj]. destruct (gti_in_use j) eqn:Hju.
      + right. intros d Hd. destruct (decide (d = Z.of_nat n)) as [->|]; [eauto|].
        apply Hbusy. lia.
      + left. exists (Z.of_nat n), j. split; [lia|done]. }
  destruct (Hsearch (Z.to_nat M) ltac:(lia)) as [(k & j & Hk & Hj & Hju & Hbusy)|Hbusy].
  - exists k, j. split; [lia|]. split; [done|]. split; [done|]. split; [done|].
    apply (find_free_slot_first t k j); try done; lia.
  - exfalso.
    assert (Hp : 0 ≤ Z.of_nat p < M) by (apply lookup_lt_Some in Hi; lia).
    destruct (Hbusy ((Z.of_nat p - gt_lastslot t - 1) mod M)) as (j' & Hj' & Hju').
    { pose proof (Z.mod_pos_bound (Z.of_nat p - gt_lastslot t - 1) M HM). lia. }
    unfold slot in Hj'. rewrite Zplus_mod_idemp_r in Hj'.
    replace (gt_lastslot t + 1 + (Z.of_nat p - gt_lastslot t - 1)) with (Z.of_nat p) in Hj' by lia.
    rewrite Z.mod_small, Nat2Z.id in Hj' by done. congruence.
Qed.

(** *** Lookup by session *)

Lemma gtm_foreach_find_alter_at P (f : GTM_TransactionInfo → GTM_TransactionInfo) arr p cells :
  (∀ i, arr !! p = Some i → P (f i) = P i ∧ gti_handle (f i) = gti_handle i) →
  gti_handle <$> gtm_foreach_find P (alter f p arr) cells
  = gti_handle <$> gtm_foreach_find P arr cells.
Proof.
  intros Hf. induction cells as [|c cells IH]; simpl; [done|].
  rewrite list_lookup_alter.
  destruct (decide (p = c)) as [->|Hne].
  - destruct (arr !! c) as [i|] eqn:Hi; simpl; [|done].
    destruct (Hf i eq_refl) as [-> Hh]. destruct (P i); [simpl; by rewrite Hh|done].
  - destruct (arr !! c) as [i|]; [|done]. destruct (P i); done.
Qed.

Lemma gtm_foreach_find_app P arr cells cells' :
  gtm_foreach_find P arr (cells ++ cells')
  = match gtm_foreach_find P arr cells with
    | Some i => Some i
    | None => gtm_foreach_find P arr cells'
    end.
Proof.
  induction cells as [|c cells IH]; simpl; [done|].
  destruct (arr !! c) as [i|]; [|done]. destruct (P i); done.
Qed.

Lemma gtm_foreach_find_ext P arr arr' cells :
  (∀ q, q ∈ cells → arr' !! q = arr !! q) →
  gtm_foreach_find P arr' cells = gtm_foreach_find P arr cells.
Proof.
  induction cells as [|c cells IH]; intros H; simpl; [done|].
  rewrite (H c) by (apply elem_of_cons; auto).
  rewrite IH by (intros q Hq; apply H, elem_of_cons; auto). done.
Qed.

Lemma strncpy_short (n : nat) (s : string) :
  (String.length s ≤ n)%nat → strncpy n s = s.
Proof.
  unfold strncpy. revert n. induction s as [|c s IH]; intros n Hn.
  - destruct n; done.
  - destruct n as [|n]; simpl in *; [lia|]. rewrite IH by lia. done.
Qed.

(** The comparison matches a buffer that holds the C string [sid]. *)
Lemma session_matches_true sid i :
  session_matches sid i = true ↔
  gti_global_session_id i = sid ∧ (String.length sid < GTM_MAX_SESSION_ID_LEN)%nat.
Proof.
  unfold session_matches, buffer_terminated.
  rewrite andb_true_iff, Nat.ltb_lt, String.eqb_eq.
  split; [intros [? <-]; done|intros [-> ?]; done].
Qed.


(** On a well-formed table the lookup by session answers with the
    index of an open slot whose buffer holds that session id, or with
    the invalid handle when no open slot matches. *)
Lemma GTM_GlobalSessionIDToHandle_spec t sid :
  table_wf t → sid ≠ "" →
  (GTM_GlobalSessionIDToHandle t (Some sid) = InvalidTransactionHandle ∧
   ∀ p i, p ∈ gt_open_transactions t → gt_transactions_array t !! p = Some i →
          session_matches sid i = false) ∨
  (∃ p i, GTM_GlobalSessionIDToHandle t (Some sid) = Z.of_nat p ∧
          p ∈ gt_open_transactions t ∧ gt_transactions_array t !! p = Some i ∧
          gti_in_use i = true ∧ gti_global_session_id i = sid ∧
          (String.length sid < GTM_MAX_SESSION_ID_LEN)%nat).
Proof.
  intros Hwf Hsid. unfold GTM_GlobalSessionIDToHandle, open_find.
  destruct (String.eqb sid "") eqn:He; [by apply String.eqb_eq in He|].
  destruct (gtm_foreach_find _ _ _) as [i|] eqn:Hfind.
  - apply gtm_foreach_find_Some in Hfind as (p & Hp & Hi & Hm).
    apply session_matches_true in Hm as [Hm Hlen].
    destruct (wf_open _ Hwf p Hp) as (i' & Hi' & Hu & Hh).
    unfold txninfo_at in Hi'. assert (i' = i) as -> by congruence.
    right. exists p, i. done.
  - left. split; [done|]. intros p i Hp Hi.
    rewrite gtm_foreach_find_None in Hfind. by apply (Hfind p i Hp Hi).
Qed.

Lemma GTM_HandleToTransactionInfo_index t p i :
  Z.of_nat (length (gt_transactions_array t)) = M →
  gt_transactions_array t !! p = Some i → gti_in_use i = true →
  GTM_HandleToTransactionInfo t (Z.of_nat p) = TxnPtr p.
Proof.
  intros Hlen Hi Hu. apply GTM_HandleToTransactionInfo_ptr.
  rewrite Nat2Z.id. apply lookup_lt_Some in Hi as Hlt.
  split; [lia|]. split; [done|]. eauto.
Qed.

(** A begin for one request returns when the table is well formed and
    a slot is free; the handle it answers with designates a slot in
    use, and the lookup by session finds it when the session is named. *)
Lemma begin_loop_single_returns c r g :
  0 < M → table_inv (GTMTransactions g) →
  (∃ p i, gt_transactions_array (GTMTransactions g) !! p = Some i ∧ gti_in_use i = false) →
  ∃ h gb p, begin_loop c [r] g [] = Returned [h] gb ∧
            GTM_HandleToTransactionInfo (GTMTransactions gb) h = TxnPtr p.
Proof.
  intros HM [Hwf _] Hfree. simpl.
  destruct (GTM_GlobalSessionIDToHandle _ _ =? InvalidTransactionHandle) eqn:He; simpl.
  - destruct (find_free_slot_finds _ HM (wf_length _ Hwf) (wf_lastslot _ Hwf) Hfree)
      as (k & i & Hk & Hi & Hu & _ & ->).
    set (ii := (gt_lastslot (GTMTransactions g) + 1 + k) mod M) in *.
    assert (Hii : 0 ≤ ii < M) by (by apply Z.mod_pos_bound).
    exists ii, (claim_slot c r ii g), (Z.to_nat ii). split; [done|].
    apply GTM_HandleToTransactionInfo_ptr. split; [lia|]. split; [done|].
    eexists. unfold claim_slot. simpl. rewrite list_lookup_alter_eq, Hi. done.
  - apply Z.eqb_neq in He.
    destruct (br_global_sessionid r) as [sid|] eqn:Hsid; [|done].
    destruct (decide (sid = "")) as [->|Hne]; [done|].
    destruct (GTM_GlobalSessionIDToHandle_spec _ sid Hwf Hne)
      as [[Hinv _]|(p & i & Hh & Hp & Hi & Hu & _)]; [done|].
    rewrite Hh, (GTM_HandleToTransactionInfo_index _ p i); [|apply Hwf|done|done].
    exists (Z.of_nat p), g, p. split; [done|].
    apply (GTM_HandleToTransactionInfo_index _ p i); [apply Hwf|done|done].
Qed.

(** After a begin for a named session the lookup by session answers
    with the handle of the begin, and the slot carries the session. *)
Lemma begin_loop_single_session c iso ro sid g h gb :
  table_inv (GTMTransactions g) → sid ≠ "" →
  (String.length sid < GTM_MAX_SESSION_ID_LEN)%nat →
  begin_loop c [{| br_isolevel := iso; br_readonly := ro;
                   br_global_sessionid := Some sid; br_connid := -1 |}] g []
    = Returned [h] gb →
  table_inv (GTMTransactions gb) ∧
  GTM_GlobalSessionIDToHandle (GTMTransactions gb) (Some sid) = h ∧
  ∃ p i, h = Z.of_nat p ∧ gt_transactions_array (GTMTransactions gb) !! p = Some i ∧
         gti_in_use i = true ∧ gti_global_session_id i = sid.
Proof.
  intros Hinv Hsid Hlen Hb.
  assert (Hinvb : table_inv (GTMTransactions gb)).
  { destruct (decide (0 < M)) as [HM|HM].
    - pose proof (leaves_begin_loop c
        [{| br_isolevel := iso; br_readonly := ro;
            br_global_sessionid := Some sid; br_connid := -1 |}] g [] HM Hinv) as H.
      rewrite Hb in H. exact H.
    - exfalso. revert Hb. simpl.
      destruct (negb _).
      + destruct (GTM_HandleToTransactionInfo _ _) as [|p|] eqn:Hl; try done.
        apply GTM_HandleToTransactionInfo_ptr in Hl as (Hr & -> & i & Hi & _).
        apply lookup_lt_Some in Hi. destruct Hinv as [Hwf _].
        pose proof (wf_length _ Hwf). lia.
      + unfold find_free_slot. replace (Z.to_nat M) with 0%nat by lia. done. }
  split; [done|].
  destruct Hinv as [Hwf Hg].
  destruct (begin_loop_single _ _ _ _ _ Hb) as [(Hne & Hh & -> & _)|(He & ii & Hscan & Hh & ->)];
    cbn [br_global_sessionid] in *.
  - injection Hh as Hh.
    assert (h = GTM_GlobalSessionIDToHandle (GTMTransactions g) (Some sid)) as ->
      by exact Hh.
    destruct (GTM_GlobalSessionIDToHandle_spec _ sid Hwf Hsid)
      as [[Hinv' _]|(p & i & Hp & _ & Hi & Hu & Hs & _)]; [done|].
    split; [done|]. exists p, i. done.
  - injection Hh as ->.
    destruct (GTM_GlobalSessionIDToHandle_spec _ sid Hwf Hsid)
      as [[_ Hmiss]|(p & i & Hp & _)]; [|unfold InvalidTransactionHandle in *; lia].
    assert (HM : 0 < M).
    { destruct (decide (0 < M)) as [HM|HM]; [done|]. exfalso. revert Hscan.
      unfold find_free_slot. replace (Z.to_nat M) with 0%nat by lia. done. }
    pose proof Hscan as Hscan'. unfold find_free_slot in Hscan'.
    apply scan_slots_found in Hscan' as (Hii & i & Hi & Hu); [|done|].
    2: { apply startslot_nonneg. apply Hwf. }
    set (p := Z.to_nat ii) in *.
    assert (Hp : p ∉ gt_open_transactions (GTMTransactions g)).
    { intros Hp. destruct (wf_open _ Hwf p Hp) as (j & Hj & Huj & _).
      unfold txninfo_at in Hj. congruence. }
    set (new := GTM_TransactionInfo_Init i ii iso c (-1) (Some sid) ro).
    assert (Harr : ∀ q, gt_transactions_array
                (GTMTransactions (claim_slot c
                   {| br_isolevel := iso; br_readonly := ro;
                      br_global_sessionid := Some sid; br_connid := -1 |} ii g)) !! q
              = if decide (p = q) then Some new
                else gt_transactions_array (GTMTransactions g) !! q).
    { intros q. unfold claim_slot. simpl. rewrite list_lookup_alter. fold p.
      destruct (decide (p = q)) as [<-|]; [|done]. rewrite Hi. done. }
    assert (Hnews : gti_global_session_id new = sid).
    { simpl. apply strncpy_short. lia. }
    split.
    + unfold GTM_GlobalSessionIDToHandle, open_find.
      destruct (String.eqb sid "") eqn:Hes; [by apply String.eqb_eq in Hes|].
      change (gt_open_transactions (GTMTransactions (claim_slot c _ ii g)))
        with (gt_open_transactions (GTMTransactions g) ++ [p]).
      rewrite gtm_foreach_find_app.
      rewrite (gtm_foreach_find_ext _ (gt_transactions_array (GTMTransactions g))).
      2: { intros q Hq. rewrite Harr, decide_False; [done|]. by intros <-. }
      replace (gtm_foreach_find _ (gt_transactions_array (GTMTransactions g))
                 (gt_open_transactions (GTMTransactions g))) with (@None GTM_TransactionInfo).
      2: { symmetry. apply gtm_foreach_find_None. intros q j Hq Hj.
           by eapply Hmiss. }
      simpl. rewrite Harr, decide_True by done.
      rewrite (proj2 (session_matches_true sid new)) by done. done.
    + exists p, new. split; [subst p; lia|]. split; [|done].
      rewrite Harr, decide_True; done.
Qed.

(** *** One replayed begin, applied twice *)

Lemma store_txninfo_id p (f : GTM_TransactionInfo → GTM_TransactionInfo) g i :
  gt_transactions_array (GTMTransactions g) !! p = Some i → f i = i →
  store_txninfo p f g = g.
Proof.
  intros Hi Hf. unfold store_txninfo.
  assert (Ha : alter f p (gt_transactions_array (GTMTransactions g))
               = gt_transactions_array (GTMTransactions g)).
  { apply list_eq. intros q. rewrite list_lookup_alter.
    destruct (decide (p = q)) as [<-|]; [|done]. rewrite Hi. simpl. by rewrite Hf. }
  rewrite Ha. destruct g as [[] ? ? ? ?]. reflexivity.
Qed.

Lemma set_gt_nextXid_id g :
  set_GTMTransactions
    (set_gt_nextXid (gt_nextXid (GTMTransactions g)) (GTMTransactions g)) g = g.
Proof. destruct g as [[] ? ? ? ?]. reflexivity. Qed.

Lemma int32_small z : 0 ≤ z < 2 ^ 31 → int32 z = z.
Proof.
  intros Hz. unfold int32, u32. rewrite Z.mod_small by lia.
  destruct (z <? 2 ^ 31) eqn:Hlt; [done|]. apply Z.ltb_ge in Hlt. lia.
Qed.

Lemma int32_mod z : int32 (z mod 2 ^ 32) = int32 z.
Proof. unfold int32, u32. rewrite Z.mod_mod by lia. done. Qed.

(** Seeing the same GXID again does not move the next GXID of the
    standby, provided the next GXID was valid to begin with. *)
Lemma bkup_advance_idempotent n gxid :
  n ≠ InvalidGlobalTransactionId →
  bkup_advance (bkup_advance n gxid) gxid = bkup_advance n gxid.
Proof.
  intros Hn.
  assert (Hcases :
    (bkup_advance n gxid = 3 ∧ u32 (gxid + 1) = 0) ∨
    (bkup_advance n gxid = u32 (gxid + 1) ∧ u32 (gxid + 1) ≠ 0) ∨
    (bkup_advance n gxid = n ∧ GlobalTransactionIdPrecedesOrEquals n gxid = false)).
  { unfold bkup_advance, GlobalTransactionIdIsValid, InvalidGlobalTransactionId,
      FirstNormalGlobalTransactionId.
    destruct (GlobalTransactionIdPrecedesOrEquals n gxid).
    - destruct (u32 (gxid + 1) =? 0) eqn:Hz; simpl.
      + apply Z.eqb_eq in Hz. auto.
      + apply Z.eqb_neq in Hz. auto.
    - unfold InvalidGlobalTransactionId in Hn. apply Z.eqb_neq in Hn. rewrite Hn. simpl. auto. }
  destruct Hcases as [[-> Hz]|[[-> Hz]|[-> Hpe]]].
  - assert (Hd : int32 (3 - gxid) = 4).
    { rewrite <- int32_mod.
      replace (3 - gxid) with (4 - (gxid + 1)) by lia.
      unfold u32 in Hz.
      rewrite <- Zminus_mod_idemp_r, Hz. rewrite int32_mod. by apply int32_small. }
    unfold bkup_advance, GlobalTransactionIdPrecedesOrEquals. rewrite Hd. done.
  - assert (Hd : int32 (u32 (gxid + 1) - gxid) = 1).
    { rewrite <- int32_mod. unfold u32. rewrite Zminus_mod_idemp_l.
      replace (gxid + 1 - gxid) with 1 by lia. rewrite int32_mod. by apply int32_small. }
    unfold bkup_advance, GlobalTransactionIdPrecedesOrEquals. rewrite Hd. simpl.
    unfold GlobalTransactionIdIsValid, InvalidGlobalTransactionId.
    apply Z.eqb_neq in Hz. rewrite Hz. done.
  - unfold bkup_advance. rewrite Hpe.
    unfold GlobalTransactionIdIsValid. apply Z.eqb_neq in Hn. rewrite Hn. done.
Qed.

(** After the checkpoint test has been made for [xid], it does not
    fire again for the same [xid]. *)
Lemma save_control_due_settled xid control :
  0 ≤ CONTROL_INTERVAL →
  save_control_due xid
    (if save_control_due xid control then xid else control) = false.
Proof.
  intros Hci. destruct (save_control_due xid control) eqn:Hdue; [|done].
  unfold save_control_due. rewrite Z.sub_diag, Z.ltb_irrefl.
  replace (u32 0 >? CONTROL_INTERVAL) with false.
  - apply andb_false_r.
  - symmetry. rewrite Z.gtb_ltb. apply Z.ltb_ge. done.
Qed.

Lemma bkup_apply_fixed p gxid sid g i :
  gt_transactions_array (GTMTransactions g) !! p = Some i →
  gti_gxid i = gxid →
  gti_global_session_id i = strncpy GTM_MAX_SESSION_ID_LEN sid →
  bkup_advance (gt_nextXid (GTMTransactions g)) gxid = gt_nextXid (GTMTransactions g) →
  save_control_due (gt_nextXid (GTMTransactions g)) (ControlXid g) = false →
  bkup_apply p gxid (Some sid) g = g.
Proof.
  intros Hi Hx Hs Hn Hdue. unfold bkup_apply.
  rewrite (store_txninfo_id p (set_gti_gxid gxid) g i Hi).
  2: { destruct i. simpl in *. by subst. }
  rewrite (store_txninfo_id p _ g i Hi).
  2: { destruct i. simpl in *. by subst. }
  rewrite Hn, set_gt_nextXid_id.
  unfold checkpoint_control. rewrite Hdue. done.
Qed.

Lemma bkup_apply_idempotent p gxid sid g i :
  0 ≤ CONTROL_INTERVAL →
  gt_transactions_array (GTMTransactions g) !! p = Some i →
  gt_nextXid (GTMTransactions g) ≠ InvalidGlobalTransactionId →
  bkup_apply p gxid (Some sid) (bkup_apply p gxid (Some sid) g)
  = bkup_apply p gxid (Some sid) g.
Proof.
  intros Hci Hi Hn.
  apply (bkup_apply_fixed p gxid sid _
           (set_gti_global_session_id (strncpy GTM_MAX_SESSION_ID_LEN sid)
              (set_gti_gxid gxid i))).
  - unfold bkup_apply. rewrite GTMTransactions_checkpoint_control. simpl.
    rewrite !list_lookup_alter_eq, Hi. done.
  - done.
  - done.
  - rewrite bkup_apply_nextXid. by apply bkup_advance_idempotent.
  - rewrite bkup_apply_nextXid. unfold bkup_apply.
    rewrite checkpoint_control_ControlXid. simpl.
    by apply save_control_due_settled.
Qed.

Lemma GTM_HandleToTransactionInfo_bkup_apply p gxid sid g h :
  GTM_HandleToTransactionInfo (GTMTransactions (bkup_apply p gxid (Some sid) g)) h
  = GTM_HandleToTransactionInfo (GTMTransactions g) h.
Proof.
  unfold bkup_apply. rewrite GTMTransactions_checkpoint_control.
  unfold GTM_HandleToTransactionInfo. destruct (_ || _); [done|]. simpl.
  rewrite list_alter_alter_eq, list_lookup_alter.
  destruct (decide (p = Z.to_nat h)) as [->|]; [|done].
  destruct (_ !! Z.to_nat h); done.
Qed.

Lemma GTM_GlobalSessionIDToHandle_bkup_apply p gxid sid g i :
  gt_transactions_array (GTMTransactions g) !! p = Some i →
  gti_global_session_id i = sid →
  (String.length sid < GTM_MAX_SESSION_ID_LEN)%nat →
  GTM_GlobalSessionIDToHandle (GTMTransactions (bkup_apply p gxid (Some sid) g)) (Some sid)
  = GTM_GlobalSessionIDToHandle (GTMTransactions g) (Some sid).
Proof.
  intros Hi Hs Hlen. unfold bkup_apply. rewrite GTMTransactions_checkpoint_control.
  unfold GTM_GlobalSessionIDToHandle, open_find. destruct (String.eqb sid ""); [done|].
  simpl. rewrite list_alter_alter_eq.
  pose proof (gtm_foreach_find_alter_at (session_matches sid)
    (set_gti_global_session_id (strncpy GTM_MAX_SESSION_ID_LEN sid) ∘ set_gti_gxid gxid)
    (gt_transactions_array (GTMTransactions g)) p
    (gt_open_transactions (GTMTransactions g))) as H.
  destruct (gtm_foreach_find _ (alter _ _ _) _), (gtm_foreach_find _ _ _);
    simpl in H.
  all: try (specialize (H ltac:(intros j Hj; assert (j = i) as -> by congruence;
              unfold session_matches; simpl;
              rewrite strncpy_short, Hs by lia; done)); congruence).
Qed.

Lemma begin_loop_hit c r g h p :
  GTM_GlobalSessionIDToHandle (GTMTransactions g) (br_global_sessionid r) = h →
  h ≠ InvalidTransactionHandle →
  GTM_HandleToTransactionInfo (GTMTransactions g) h = TxnPtr p →
  begin_loop c [r] g [] = Returned [h] g.
Proof.
  intros <- Hne Hl. simpl. apply Z.eqb_neq in Hne. rewrite Hne. simpl. rewrite Hl. done.
Qed.

Lemma GTM_BkupBeginTransactionGetGXID_from_begin c gxid iso ro sid cid g h gb p :
  0 < M →
  begin_loop c [{| br_isolevel := iso; br_readonly := ro;
                   br_global_sessionid := sid; br_connid := -1 |}] g []
    = Returned [h] gb →
  GTM_HandleToTransactionInfo (GTMTransactions gb) h = TxnPtr p →
  GTM_BkupBeginTransactionGetGXID c gxid iso ro sid cid g
  = Returned tt (bkup_apply p gxid sid gb).
Proof.
  intros HM Hb Hl.
  unfold GTM_BkupBeginTransactionGetGXID, GTM_BkupBeginTransactionGetGXIDMulti,
    GTM_BeginTransactionMulti.
  replace (M <? Z.of_nat (length _)) with false
    by (symmetry; apply Z.ltb_ge; simpl; lia).
  cbn [map bk_begin]. rewrite Hb.
  cbn [bkup_loop bk_gxid bk_begin br_global_sessionid]. rewrite Hl.
  unfold bkup_apply. destruct sid; done.
Qed.

(** C8, as the code has it. A replayed begin-with-GXID that returns
    leaves [gt_nextXid] advanced to [gxid + 1] (in [uint32]) when the
    former value precedes or equals [gxid] under the modular
    comparison, and unchanged otherwise; then, only when that value is
    the invalid GXID 0, it is replaced by
    [FirstNormalGlobalTransactionId]. The call returns on a well-formed
    table with a free slot. For a normal [gxid] the value [gxid + 1] is
    below [FirstNormalGlobalTransactionId] only when it is 0, so that
    for the GXIDs a primary hands out the reserved range is skipped. *)
Theorem GTM_BkupBeginTransactionGetGXID_nextXid (c : Z) (gxid : GlobalTransactionId)
    (iso : Z) (ro : bool) (sid : option string) (cid : Z) (g : GTM_Globals) :
  let n := gt_nextXid (GTMTransactions g) in
  let advanced :=
    if GlobalTransactionIdPrecedesOrEquals n gxid then u32 (gxid + 1) else n in
  (∀ g', GTM_BkupBeginTransactionGetGXID c gxid iso ro sid cid g = Returned tt g' →
     gt_nextXid (GTMTransactions g')
     = if advanced =? InvalidGlobalTransactionId
       then FirstNormalGlobalTransactionId else advanced) ∧
  (0 < M → table_inv (GTMTransactions g) →
   (∃ p i, txninfo_at (GTMTransactions g) p = Some i ∧ gti_in_use i = false) →
   ∃ g', GTM_BkupBeginTransactionGetGXID c gxid iso ro sid cid g = Returned tt g') ∧
  (FirstNormalGlobalTransactionId ≤ gxid < 2 ^ 32 →
   u32 (gxid + 1) < FirstNormalGlobalTransactionId →
   u32 (gxid + 1) = InvalidGlobalTransactionId).
Proof.
  intros n advanced. split; [|split].
  - intros g' Hret.
    apply GTM_BkupBeginTransactionGetGXID_returned in Hret as (h & p & gb & Hb & _ & ->).
    rewrite bkup_apply_nextXid.
    destruct (begin_loop_nextXid _ _ _ _ _ _ Hb) as (-> & _ & _).
    unfold bkup_advance, GlobalTransactionIdIsValid. rewrite negb_involutive. done.
  - intros HM Hinv Hfree.
    destruct (begin_loop_single_returns c
                {| br_isolevel := iso; br_readonly := ro;
                   br_global_sessionid := sid; br_connid := -1 |} g HM Hinv Hfree)
      as (h & gb & p & Hb & Hl).
    eexists. by eapply GTM_BkupBeginTransactionGetGXID_from_begin.
  - unfold FirstNormalGlobalTransactionId, InvalidGlobalTransactionId, u32.
    intros Hg Hlow.
    destruct (decide (gxid + 1 = 2 ^ 32)) as [->|Hne].
    + apply Z.mod_same. lia.
    + rewrite Z.mod_small in Hlow by lia. lia.
Qed.

(** C9, as the code has it. A replayed begin-with-GXID that names a
    session (a session id that is not empty and fits the buffer), on a
    table that satisfies the invariant and whose next GXID is valid,
    with a non-negative [CONTROL_INTERVAL]: once the call has returned,
    the same call returns again and leaves the globals exactly as the
    first call left them. The first call returns when a slot is free. *)
Theorem GTM_BkupBeginTransactionGetGXID_idempotent (c : Z) (gxid : GlobalTransactionId)
    (iso : Z) (ro : bool) (sid : string) (cid : Z) (g : GTM_Globals) :
  0 ≤ CONTROL_INTERVAL →
  table_inv (GTMTransactions g) →
  sid ≠ "" → (String.length sid < GTM_MAX_SESSION_ID_LEN)%nat →
  gt_nextXid (GTMTransactions g) ≠ InvalidGlobalTransactionId →
  (∀ g1, GTM_BkupBeginTransactionGetGXID c gxid iso ro (Some sid) cid g = Returned tt g1 →
         GTM_BkupBeginTransactionGetGXID c gxid iso ro (Some sid) cid g1 = Returned tt g1) ∧
  (0 < M →
   (∃ p i, txninfo_at (GTMTransactions g) p = Some i ∧ gti_in_use i = false) →
   ∃ g1, GTM_BkupBeginTransactionGetGXID c gxid iso ro (Some sid) cid g = Returned tt g1).
Proof.
  intros Hci Hinv Hsid Hlen Hn. split.
  - intros g1 Hret.
    assert (HM : 0 < M).
    { destruct (decide (0 < M)) as [HM|HM]; [done|]. exfalso. revert Hret.
      unfold GTM_BkupBeginTransactionGetGXID, GTM_BkupBeginTransactionGetGXIDMulti.
      replace (M <? Z.of_nat (length _)) with true; [done|].
      symmetry. apply Z.ltb_lt. simpl. lia. }
    apply GTM_BkupBeginTransactionGetGXID_returned in Hret as (h & p & gb & Hb & Hl & ->).
    destruct (begin_loop_single_session _ _ _ _ _ _ _ Hinv Hsid Hlen Hb)
      as (Hinvb & Hlook & p' & i & Hh & Hi & Hu & Hs).
    assert (p = p') as <-.
    { apply GTM_HandleToTransactionInfo_ptr in Hl as (_ & -> & _). lia. }
    destruct (begin_loop_nextXid _ _ _ _ _ _ Hb) as (Hnb & _ & _).
    rewrite (GTM_BkupBeginTransactionGetGXID_from_begin c gxid iso ro (Some sid) cid
               (bkup_apply p gxid (Some sid) gb) h (bkup_apply p gxid (Some sid) gb) p HM).
    + f_equal. apply (bkup_apply_idempotent p gxid sid gb i); [done|done|congruence].
    + apply (begin_loop_hit _ _ _ h p).
      * cbn [br_global_sessionid].
        rewrite (GTM_GlobalSessionIDToHandle_bkup_apply p gxid sid gb i Hi Hs Hlen). done.
      * unfold InvalidTransactionHandle. lia.
      * rewrite GTM_HandleToTransactionInfo_bkup_apply. done.
    + rewrite GTM_HandleToTransactionInfo_bkup_apply. done.
  - intros HM Hfree.
    destruct (GTM_BkupBeginTransactionGetGXID_nextXid c gxid iso ro (Some sid) cid g)
      as (_ & Hreturns & _).
    by apply Hreturns.
Qed.

End Standby.

(** On a fresh standby a replayed begin with GXID 10 moves the next
    GXID from 3 to 11. *)
Lemma GTM_BkupBeginTransactionGetGXID_nextXid_witness :
  0 < GTM_MAX_GLOBAL_TRANSACTIONS (GTM_Config := small) ∧
  table_inv (cfg := small) (GTMTransactions (GTM_InitTxnManager (cfg := small))) ∧
  ∃ g', GTM_BkupBeginTransactionGetGXID (cfg := small) 7 10 2 false (Some "S1") 1
          (GTM_InitTxnManager (cfg := small)) = Returned tt g' ∧
        gt_nextXid (GTMTransactions g') = 11.
Proof.
  assert (HM : 0 < GTM_MAX_GLOBAL_TRANSACTIONS (GTM_Config := small)) by done.
  assert (Hinv : table_inv (cfg := small) (GTMTransactions (GTM_InitTxnManager (cfg := small))))
    by (by apply table_inv_init).
  destruct (GTM_BkupBeginTransactionGetGXID_nextXid (cfg := small) 7 10 2 false (Some "S1") 1
              (GTM_InitTxnManager (cfg := small))) as (Hnext & Hreturns & _).
  destruct (Hreturns HM Hinv) as [g' Hret].
  { exists 0%nat, zero_txninfo. split; reflexivity. }
  split; [exact HM|]. split; [exact Hinv|].
  exists g'. split; [exact Hret|]. rewrite (Hnext g' Hret). vm_compute. reflexivity.
Defined.

(** C8 as stated fails on the code: on a standby whose next GXID is 1,
    a replayed begin carrying GXID 1 advances the next GXID to 2, a
    value of the reserved range below
    [FirstNormalGlobalTransactionId], and leaves it there. *)
Lemma GTM_BkupBeginTransactionGetGXID_reserved_not_skipped :
  GlobalTransactionIdPrecedesOrEquals
    (gt_nextXid (GTMTransactions (run_small [ReqSetNextGXID 1]))) 1 = true ∧
  u32 (1 + 1) < FirstNormalGlobalTransactionId ∧
  ∃ g', GTM_BkupBeginTransactionGetGXID (cfg := small) 7 1 2 false None 1
          (run_small [ReqSetNextGXID 1]) = Returned tt g' ∧
        gt_nextXid (GTMTransactions g') = 2 ∧
        gt_nextXid (GTMTransactions g') ≠ FirstNormalGlobalTransactionId.
Proof.
  split; [vm_compute; reflexivity|]. split; [vm_compute; reflexivity|].
  eexists. split; [vm_compute; reflexivity|]. split; [reflexivity|discriminate].
Qed.

(** On a fresh standby a replayed begin with GXID 10 on session "S1",
    applied a second time, changes nothing. *)
Lemma GTM_BkupBeginTransactionGetGXID_idempotent_witness :
  0 ≤ CONTROL_INTERVAL (GTM_Config := small) ∧
  table_inv (cfg := small) (GTMTransactions (GTM_InitTxnManager (cfg := small))) ∧
  "S1" ≠ "" ∧
  (String.length "S1" < GTM_MAX_SESSION_ID_LEN (GTM_Config := small))%nat ∧
  gt_nextXid (GTMTransactions (GTM_InitTxnManager (cfg := small)))
    ≠ InvalidGlobalTransactionId ∧
  ∃ g1, GTM_BkupBeginTransactionGetGXID (cfg := small) 7 10 2 false (Some "S1") 1
          (GTM_InitTxnManager (cfg := small)) = Returned tt g1 ∧
        GTM_BkupBeginTransactionGetGXID (cfg := small) 7 10 2 false (Some "S1") 1 g1
          = Returned tt g1.
Proof.
  assert (Hci : 0 ≤ CONTROL_INTERVAL (GTM_Config := small)) by done.
  assert (Hinv : table_inv (cfg := small) (GTMTransactions (GTM_InitTxnManager (cfg := small))))
    by (by apply table_inv_init).
  assert (Hsid : "S1" ≠ "") by discriminate.
  assert (Hlen : (String.length "S1" < GTM_MAX_SESSION_ID_LEN (GTM_Config := small))%nat)
    by (cbn; lia).
  assert (Hn : gt_nextXid (GTMTransactions (GTM_InitTxnManager (cfg := small)))
               ≠ InvalidGlobalTransactionId) by discriminate.
  destruct (GTM_BkupBeginTransactionGetGXID_idempotent (cfg := small) 7 10 2 false "S1" 1
              (GTM_InitTxnManager (cfg := small)) Hci Hinv Hsid Hlen Hn) as (Hagain & Hreturns).
  destruct Hreturns as [g1 Hret]; [done| |].
  { exists 0%nat, zero_txninfo. split; reflexivity. }
  split_and!; try done.
  exists g1. split; [exact Hret|exact (Hagain g1 Hret)].
Defined.

(** C9 as stated fails on the code: a replayed begin with GXID 10 and
    no session id opens slot 0; the same call applied again opens slot
    1 with the same GXID, so that two transactions are open instead of
    one. The same happens with an empty session id. *)
Lemma GTM_BkupBeginTransactionGetGXID_twice_without_session :
  ∃ g1 g2,
    GTM_BkupBeginTransactionGetGXID (cfg := small) 7 10 2 false None 1
      (GTM_InitTxnManager (cfg := small)) = Returned tt g1 ∧
    GTM_BkupBeginTransactionGetGXID (cfg := small) 7 10 2 false None 1 g1
      = Returned tt g2 ∧
    gt_open_transactions (GTMTransactions g1) = [0%nat] ∧
    gt_open_transactions (GTMTransactions g2) = [0%nat; 1%nat] ∧
    g2 ≠ g1 ∧
    ∃ g1' g2',
      GTM_BkupBeginTransactionGetGXID (cfg := small) 7 10 2 false (Some "") 1
        (GTM_InitTxnManager (cfg := small)) = Returned tt g1' ∧
      GTM_BkupBeginTransactionGetGXID (cfg := small) 7 10 2 false (Some "") 1 g1'
        = Returned tt g2' ∧
      gt_open_transactions (GTMTransactions g1') = [0%nat] ∧
      gt_open_transactions (GTMTransactions g2') = [0%nat; 1%nat].
Proof.
  eexists _, _. split; [vm_compute; reflexivity|]. split; [vm_compute; reflexivity|].
  split; [reflexivity|]. split; [reflexivity|].
  split; [intros H; discriminate H|].
  eexists _, _. split; [vm_compute; reflexivity|]. split; [vm_compute; reflexivity|].
  split; reflexivity.
Qed.

(** * Further properties of the transaction manager *)

(** ** The open list and the lookups *)

Section Lookups.
Context `{cfg : GTM_Config}.

Implicit Types (g : GTM_Globals) (t : GTM_Transactions) (p q : nat)
  (i j : GTM_TransactionInfo).

(** X1. In every state the transaction manager reaches through the
    entry points of the file, also after a request that ended in an
    error, the list of open transactions holds exactly the slots in
    use, each once, an open slot carries its index as handle, the
    array has its declared size and the cursor is [-1] or an index. *)
Theorem reachable_table_wf (g : GTM_Globals) :
  0 < GTM_MAX_GLOBAL_TRANSACTIONS → reachable g → table_wf (GTMTransactions g).
Proof. intros HM Hr. by apply reachable_table_inv. Qed.

(** X2. Lookup by GXID on a well-formed table. The answer is the
    invalid handle exactly when no open slot carries the GXID (always
    so for the invalid GXID); otherwise it is a handle in range whose
    slot is in use, is in the open list and carries the GXID. *)
Theorem GTM_GXIDToHandle_lookup (t : GTM_Transactions) (x : GlobalTransactionId) :
  table_wf t →
  (GTM_GXIDToHandle t x = InvalidTransactionHandle ↔ ¬ gxid_open t x) ∧
  (GTM_GXIDToHandle t x ≠ InvalidTransactionHandle →
   ∃ i, valid_handle t (GTM_GXIDToHandle t x) i ∧ gti_gxid i = x ∧
        Z.to_nat (GTM_GXIDToHandle t x) ∈ gt_open_transactions t) ∧
  GTM_GXIDToHandle t InvalidGlobalTransactionId = InvalidTransactionHandle.
Proof.
  intros Hwf. unfold GTM_GXIDToHandle.
  destruct (GTM_GXIDToHandle_Internal_spec t x Hwf)
    as [[He Hn]|(i & Hv & Hx & Hin & Ho)].
  - split; [tauto|]. split; [done|]. done.
  - assert (Hne : GTM_GXIDToHandle_Internal t x ≠ InvalidTransactionHandle).
    { destruct Hv as ([? ?] & _). unfold InvalidTransactionHandle. lia. }
    split; [tauto|]. split; [eauto|]. done.
Qed.


(** On a table that satisfies the invariant the lookup by GID answers
    with the index of the one open slot that carries the GID. *)
Lemma GTM_GIDToHandle_carrier t gid p i :
  table_inv t →
  p ∈ gt_open_transactions t → txninfo_at t p = Some i → gti_gid i = Some gid →
  GTM_GIDToHandle t gid = Z.of_nat p.
Proof.
  intros [Hwf Hu] Hp Hi Hg. unfold GTM_GIDToHandle, open_find.
  destruct (gtm_foreach_find _ _ _) as [j|] eqn:Hfind.
  - apply gtm_foreach_find_Some in Hfind as (q & Hq & Hj & Hm).
    apply gid_matches_true in Hm.
    assert (q = p) as -> by (by eapply (Hu q p j i gid)).
    destruct (wf_open _ Hwf p Hp) as (i' & Hi' & _ & Hh).
    unfold txninfo_at in *. congruence.
  - rewrite gtm_foreach_find_None in Hfind. specialize (Hfind p i Hp Hi).
    apply gid_matches_true in Hg. congruence.
Qed.

(** X4. Lookup by GID on a table that satisfies the invariant. The
    answer is the invalid handle exactly when no open transaction
    carries the GID; when an open slot carries it, the answer is the
    index of that slot. *)
Theorem GTM_GIDToHandle_lookup (t : GTM_Transactions) (gid : string) :
  table_inv t →
  (GTM_GIDToHandle t gid = InvalidTransactionHandle ↔ ¬ gid_open t gid) ∧
  (∀ p i, p ∈ gt_open_transactions t → txninfo_at t p = Some i →
          gti_gid i = Some gid → GTM_GIDToHandle t gid = Z.of_nat p).
Proof.
  intros Hinv. split.
  - apply GTM_GIDToHandle_invalid, Hinv.
  - intros p i. by apply GTM_GIDToHandle_carrier.
Qed.

End Lookups.

(** After two begins and a GXID for the first, the state is reachable
    and well formed; GXID 3 is found at handle 0, GXID 9 is not found;
    session "S2" is found at handle 1; no GID is open. *)
Lemma reachable_table_wf_witness :
  0 < GTM_MAX_GLOBAL_TRANSACTIONS (GTM_Config := small) ∧
  reachable (cfg := small) (run_small [begin_on "S1"; ReqGetGXID false [0]; begin_on "S2"]) ∧
  table_wf (cfg := small)
    (GTMTransactions (run_small [begin_on "S1"; ReqGetGXID false [0]; begin_on "S2"])).
Proof.
  assert (HM : 0 < GTM_MAX_GLOBAL_TRANSACTIONS (GTM_Config := small)) by done.
  assert (Hr : reachable (cfg := small)
                 (run_small [begin_on "S1"; ReqGetGXID false [0]; begin_on "S2"])).
  { apply reachable_run_small. vm_compute. reflexivity. }
  split; [exact HM|]. split; [exact Hr|].
  exact (reachable_table_wf (cfg := small) _ HM Hr).
Defined.

Lemma GTM_GXIDToHandle_lookup_witness :
  table_wf (cfg := small)
    (GTMTransactions (run_small [begin_on "S1"; ReqGetGXID false [0]; begin_on "S2"])) ∧
  GTM_GXIDToHandle
    (GTMTransactions (run_small [begin_on "S1"; ReqGetGXID false [0]; begin_on "S2"])) 3 = 0 ∧
  ¬ gxid_open
    (GTMTransactions (run_small [begin_on "S1"; ReqGetGXID false [0]; begin_on "S2"])) 9.
Proof.
  assert (Hwf : table_wf (cfg := small)
    (GTMTransactions (run_small [begin_on "S1"; ReqGetGXID false [0]; begin_on "S2"]))).
  { apply table_wf_run_small. vm_compute. reflexivity. }
  split; [exact Hwf|]. split; [vm_compute; reflexivity|].
  apply (GTM_GXIDToHandle_lookup (cfg := small) _ 9 Hwf). vm_compute. reflexivity.
Defined.


Lemma GTM_GIDToHandle_lookup_witness :
  table_inv (cfg := small)
    (GTMTransactions (run_small [begin_on "S1"; begin_on "S2";
                                 ReqStartPrepared 1 "GID-1" "dn1"])) ∧
  GTM_GIDToHandle
    (GTMTransactions (run_small [begin_on "S1"; begin_on "S2";
                                 ReqStartPrepared 1 "GID-1" "dn1"])) "GID-1" = 1 ∧
  ¬ gid_open
    (GTMTransactions (run_small [begin_on "S1"; begin_on "S2";
                                 ReqStartPrepared 1 "GID-1" "dn1"])) "GID-2".
Proof.
  assert (Hinv : table_inv (cfg := small)
    (GTMTransactions (run_small [begin_on "S1"; begin_on "S2";
                                 ReqStartPrepared 1 "GID-1" "dn1"]))).
  { apply (reachable_table_inv (cfg := small)); [done|].
    apply reachable_run_small. vm_compute. reflexivity. }
  destruct (GTM_GIDToHandle_lookup (cfg := small) _ "GID-2" Hinv) as [Hmiss _].
  destruct (GTM_GIDToHandle_lookup (cfg := small) _ "GID-1" Hinv) as [_ Hhit].
  split; [exact Hinv|]. split.
  - eapply (Hhit 1%nat).
    + vm_compute. apply elem_of_cons. right. apply elem_of_cons. left. reflexivity.
    + vm_compute. reflexivity.
    + reflexivity.
  - apply Hmiss. vm_compute. reflexivity.
Defined.

(** ** Begin (C4) *)

Section Begin.
Context `{cfg : GTM_Config}.

Implicit Types (g : GTM_Globals) (t : GTM_Transactions) (p q : nat)
  (i j : GTM_TransactionInfo).

Abbreviation M := GTM_MAX_GLOBAL_TRANSACTIONS.

(** X5. Begin on a named session is idempotent. On a table that
    satisfies the invariant, once a begin on a session (a session id
    that is not empty and fits the buffer) has returned handle [h], a
    further begin on the same session, whatever its isolation level,
    read-only flag and client, returns the same handle [h] and leaves
    the globals as they are. *)
Theorem GTM_BeginTransaction_same_session (c iso : Z) (ro : bool) (sid : string)
    (g g1 : GTM_Globals) (h : GTM_TransactionHandle) (c' iso' : Z) (ro' : bool) :
  table_inv (GTMTransactions g) →
  sid ≠ "" → (String.length sid < GTM_MAX_SESSION_ID_LEN)%nat →
  GTM_BeginTransaction c iso ro (Some sid) g = Returned h g1 →
  GTM_BeginTransaction c' iso' ro' (Some sid) g1 = Returned h g1 ∧
  ∃ i, valid_handle (GTMTransactions g1) h i ∧ gti_global_session_id i = sid.
Proof.
  intros Hinv Hsid Hlen. unfold GTM_BeginTransaction, GTM_BeginTransactionMulti.
  destruct (begin_loop c _ g []) as [txns gb|gb|gb|] eqn:Hb; try done.
  intros [= <- <-].
  assert (∃ h0, txns = [h0]) as [h0 ->].
  { destruct (begin_loop_single _ _ _ _ _ Hb) as [(_ & -> & _)|(_ & ii & _ & -> & _)]; eauto. }
  destruct (begin_loop_single_session _ _ _ _ _ _ _ Hinv Hsid Hlen Hb)
    as (Hinvb & Hlook & p & i & -> & Hi & Hu & Hs).
  split.
  - rewrite (begin_loop_hit c' _ gb (Z.of_nat p) p); [done|done| |].
    + unfold InvalidTransactionHandle. lia.
    + apply (GTM_HandleToTransactionInfo_index _ p i); [apply Hinvb|done|done].
  - exists i. simpl. split; [|done].
    unfold valid_handle, txninfo_at. rewrite Nat2Z.id. split; [|done].
    apply lookup_lt_Some in Hi. destruct Hinvb as [Hwf _].
    pose proof (wf_length _ Hwf). lia.
Qed.

(** X6. A begin that does not reuse a session claims the first free
    slot in the cyclic order that starts after the cursor: when the
    slots at offsets [0 .. k-1] after the cursor are in use and the one
    at offset [k] is free, the begin returns the index [ii] of that
    slot, moves the cursor to it, appends the slot to the list of open
    transactions, and initialises it (in use, handle [ii], state
    [GTM_TXN_STARTING], no GXID, no GID, the client of the thread);
    no other slot is touched and the generator does not move. *)
Theorem GTM_BeginTransaction_first_free (c iso : Z) (ro : bool) (sid : option string)
    (g : GTM_Globals) (k : Z) (i : GTM_TransactionInfo) :
  let t := GTMTransactions g in
  let ii := (gt_lastslot t + 1 + k) mod M in
  0 < M → table_wf t →
  GTM_GlobalSessionIDToHandle t sid = InvalidTransactionHandle →
  0 ≤ k < M →
  (∀ d, 0 ≤ d < k →
     ∃ j, txninfo_at t (Z.to_nat ((gt_lastslot t + 1 + d) mod M)) = Some j ∧
          gti_in_use j = true) →
  txninfo_at t (Z.to_nat ii) = Some i → gti_in_use i = false →
  ∃ g', GTM_BeginTransaction c iso ro sid g = Returned ii g' ∧
    gt_lastslot (GTMTransactions g') = ii ∧
    gt_open_transactions (GTMTransactions g')
      = gt_open_transactions t ++ [Z.to_nat ii] ∧
    txninfo_at (GTMTransactions g') (Z.to_nat ii)
      = Some (fresh_txninfo i ii c iso ro sid) ∧
    gti_in_use (fresh_txninfo i ii c iso ro sid) = true ∧
    gti_handle (fresh_txninfo i ii c iso ro sid) = ii ∧
    gti_state (fresh_txninfo i ii c iso ro sid) = GTM_TXN_STARTING ∧
    gti_gxid (fresh_txninfo i ii c iso ro sid) = InvalidGlobalTransactionId ∧
    gti_gid (fresh_txninfo i ii c iso ro sid) = None ∧
    gti_client_id (fresh_txninfo i ii c iso ro sid) = c ∧
    (∀ q, q ≠ Z.to_nat ii →
          txninfo_at (GTMTransactions g') q = txninfo_at t q) ∧
    gt_nextXid (GTMTransactions g') = gt_nextXid t ∧
    table_wf (GTMTransactions g').
Proof.
  intros t ii HM Hwf Hmiss Hk Hbusy Hi Hu.
  pose proof (find_free_slot_first t k i HM (wf_lastslot _ Hwf) Hk Hbusy Hi Hu) as Hscan.
  fold ii in Hscan.
  set (r := {| br_isolevel := iso; br_readonly := ro;
               br_global_sessionid := sid; br_connid := -1 |}).
  exists (claim_slot c r ii g).
  assert (Hii : 0 ≤ ii < M) by (by apply Z.mod_pos_bound).
  split.
  { unfold GTM_BeginTransaction, GTM_BeginTransactionMulti. fold r. simpl.
    fold t. rewrite Hmiss. simpl. rewrite Hscan. done. }
  split; [done|]. split; [done|]. split.
  { unfold txninfo_at, claim_slot. simpl. rewrite list_lookup_alter_eq.
    unfold txninfo_at in Hi. fold t. rewrite Hi. done. }
  do 6 (split; [done|]). split.
  { intros q Hq. unfold txninfo_at, claim_slot. simpl.
    rewrite list_lookup_alter_ne; done. }
  split; [done|].
  (* well-formedness of the new table *)
  destruct Hwf as [H1 H2 H3 H4 H5].
  assert (Hp : Z.to_nat ii ∉ gt_open_transactions t).
  { intros Hp. destruct (H4 _ Hp) as (j & Hj & Huj & _). congruence. }
  assert (Harr : ∀ q, txninfo_at (GTMTransactions (claim_slot c r ii g)) q
            = if decide (Z.to_nat ii = q)
              then Some (fresh_txninfo i ii c iso ro sid) else txninfo_at t q).
  { intros q. unfold txninfo_at, claim_slot. simpl. rewrite list_lookup_alter.
    destruct (decide (Z.to_nat ii = q)) as [<-|]; [|done].
    unfold txninfo_at in Hi. fold t. rewrite Hi. done. }
  assert (Hopen : gt_open_transactions (GTMTransactions (claim_slot c r ii g))
            = gt_open_transactions t ++ [Z.to_nat ii]) by done.
  split.
  - unfold claim_slot. simpl. rewrite length_alter. done.
  - unfold claim_slot. simpl. lia.
  - rewrite Hopen.
    apply NoDup_app. split; [done|]. split; [|apply NoDup_singleton].
    intros q Hq ->%list_elem_of_singleton. done.
  - intros q. rewrite Hopen.
    rewrite elem_of_app, list_elem_of_singleton, Harr. intros [Hq| ->].
    + rewrite decide_False by (intros <-; done). auto.
    + rewrite decide_True by done. eexists. split; [done|]. simpl. split; [done|]. lia.
  - intros q j. rewrite Harr, Hopen.
    rewrite elem_of_app, list_elem_of_singleton.
    destruct (decide (Z.to_nat ii = q)) as [<-|]; [auto|].
    intros Hj Huj. left. by apply (H5 q j).
Qed.

(** *** The cursor once a transaction is open *)

Lemma cursor_set_ext t t' :
  gt_open_transactions t' = gt_open_transactions t →
  gt_lastslot t' = gt_lastslot t →
  cursor_set t → cursor_set t'.
Proof. unfold cursor_set. intros -> ->. done. Qed.

Lemma cursor_set_shrink t t' :
  (gt_open_transactions t = [] → gt_open_transactions t' = []) →
  gt_lastslot t' = gt_lastslot t →
  cursor_set t → cursor_set t'.
Proof. unfold cursor_set. intros Ho ->. intros [H|H]; auto. Qed.

Lemma leaves_begin_loop_cursor c reqs : ∀ g txns,
  0 < M → table_inv (GTMTransactions g) → cursor_set (GTMTransactions g) →
  leaves (λ g', cursor_set (GTMTransactions g')) (begin_loop c reqs g txns).
Proof.
  induction reqs as [|r reqs IH]; intros g txns HM Hinv Hc; simpl; [done|].
  destruct (negb _).
  - destruct (GTM_HandleToTransactionInfo _ _); [done| |done]. by apply IH.
  - destruct (find_free_slot (GTMTransactions g)) as [ii| | |] eqn:Hscan; [|done..].
    apply scan_slots_found in Hscan as (Hii & i & Hi & Hu); [|done|].
    2: { apply startslot_nonneg. destruct Hinv as [[_ [? _] _ _ _] _]. done. }
    apply IH; [done| |].
    + by eapply table_inv_claim_slot.
    + right. done.
Qed.

Lemma commit_loop_cursor txn waited : ∀ g rm st,
  cursor_set (GTMTransactions g) →
  leaves (λ g', cursor_set (GTMTransactions g')) (commit_loop txn waited g rm st).
Proof.
  induction txn as [|h txn IH]; intros g rm st Hc; simpl; [done|].
  destruct (GTM_HandleToTransactionInfo _ h) as [|p|]; [by apply IH| |done].
  destruct (waited_xid_running _ _); [by apply IH|]. by apply IH.
Qed.

Lemma rollback_loop_cursor txn : ∀ g ptrs st,
  cursor_set (GTMTransactions g) →
  leaves (λ g', cursor_set (GTMTransactions g')) (rollback_loop txn g ptrs st).
Proof.
  induction txn as [|h txn IH]; intros g ptrs st Hc; simpl; [done|].
  destruct (GTM_HandleToTransactionInfo _ h) as [|p|]; [by apply IH| |done].
  by apply IH.
Qed.

Lemma assign_gxids_cursor handles : ∀ g xid gx nh,
  cursor_set (GTMTransactions g) →
  leaves (λ g', cursor_set (GTMTransactions g')) (assign_gxids handles g xid gx nh).
Proof.
  induction handles as [|h handles IH]; intros g xid gx nh Hc; simpl; [done|].
  destruct (GTM_HandleToTransactionInfo _ h) as [|p|]; [done| |done].
  destruct (_ !! p) as [i|]; [|done].
  destruct (GlobalTransactionIdIsValid _); [by apply IH|].
  destruct (xid_stop _ _); [done|]. by apply IH.
Qed.

Lemma bkup_loop_cursor reqs : ∀ txn g xid,
  cursor_set (GTMTransactions g) →
  leaves (λ g', cursor_set (GTMTransactions g')) (bkup_loop reqs txn g xid).
Proof.
  induction reqs as [|r reqs IH]; intros txn g xid Hc; simpl; [done|].
  destruct txn as [|h txn]; [done|].
  destruct (GTM_HandleToTransactionInfo _ h) as [|p|]; [done| |done].
  apply IH. destruct (br_global_sessionid (bk_begin r)); exact Hc.
Qed.

Lemma gtm_list_delete_nil p : gtm_list_delete [] p = [].
Proof. done. Qed.

Lemma lastslot_remove_one p g :
  gt_lastslot (GTMTransactions (remove_one p g)) = gt_lastslot (GTMTransactions g).
Proof.
  unfold remove_one. simpl. destruct (_ !! p) as [i|]; [|done].
  unfold GTM_TransactionInfo_Clean. rewrite array_update_latest. simpl.
  destruct (_ !! p); unfold update_latestCompletedXid; destruct (_ && _); done.
Qed.

Lemma RemoveTransInfoMulti_cursor ptrs : ∀ g,
  cursor_set (GTMTransactions g) →
  cursor_set (GTMTransactions (GTM_RemoveTransInfoMulti ptrs g)).
Proof.
  induction ptrs as [|[p|] ptrs IH]; intros g Hc; simpl; [done| |auto].
  apply IH. revert Hc. apply cursor_set_shrink.
  - rewrite open_remove_one. intros ->. done.
  - apply lastslot_remove_one.
Qed.

Lemma RemoveAllTransInfos_cursor c b g :
  cursor_set (GTMTransactions g) →
  cursor_set (GTMTransactions (GTM_RemoveAllTransInfos c b g)).
Proof.
  unfold GTM_RemoveAllTransInfos.
  destruct (reap_cells c b _ g) as [kept g'] eqn:Hrec.
  destruct (reap_cells_frame _ _ _ _ _ _ Hrec) as [_ Hls].
  apply cursor_set_shrink; [|done]. simpl. intros Ho. rewrite Ho in Hrec.
  simpl in Hrec. by injection Hrec as <- _.
Qed.

Lemma cursor_set_serve r g g' :
  0 < M → table_inv (GTMTransactions g) → cursor_set (GTMTransactions g) →
  serve r g = Some g' → cursor_set (GTMTransactions g').
Proof.
  intros HM Hinv Hc. destruct r; simpl.
  - apply (leaves_left_behind (λ g', cursor_set (GTMTransactions g'))).
    by apply leaves_begin_loop_cursor.
  - apply (leaves_left_behind (λ g', cursor_set (GTMTransactions g'))).
    unfold GTM_GetGlobalTransactionIdMulti.
    destruct Recovery_IsStandby; [done|]. destruct (decide _); [done|].
    pose proof (assign_gxids_cursor handles g InvalidGlobalTransactionId [] [] Hc) as H.
    destruct (assign_gxids _ _ _ _ _) as [[[xid gx] nh] g1|g1|g1|]; simpl in *; try done.
    rewrite GTMTransactions_checkpoint_control. done.
  - apply (leaves_left_behind (λ g', cursor_set (GTMTransactions g'))).
    unfold GTM_BkupBeginTransactionGetGXIDMulti. destruct (_ <? _); [done|].
    unfold GTM_BeginTransactionMulti.
    pose proof (leaves_begin_loop_cursor thr_client_id (map bk_begin reqs) g [] HM Hinv Hc) as H.
    destruct (begin_loop _ _ _ _) as [txn g1|g1|g1|]; simpl in *; try done.
    pose proof (bkup_loop_cursor reqs txn g1 InvalidGlobalTransactionId H) as H'.
    destruct (bkup_loop _ _ _ _) as [xid g2|g2|g2|]; simpl in *; try done.
    rewrite GTMTransactions_checkpoint_control. done.
  - apply (leaves_left_behind (λ g', cursor_set (GTMTransactions g'))).
    unfold GTM_RollbackTransactionMulti.
    pose proof (rollback_loop_cursor txn g [] [] Hc) as H.
    destruct (rollback_loop _ _ _ _) as [[ptrs st] g1|g1|g1|]; simpl in *; try done.
    by apply RemoveTransInfoMulti_cursor.
  - apply (leaves_left_behind (λ g', cursor_set (GTMTransactions g'))).
    unfold GTM_CommitTransactionMulti.
    pose proof (commit_loop_cursor txn waited_xids g [] [] Hc) as H.
    destruct (commit_loop _ _ _ _ _) as [[rm st] g1|g1|g1|]; simpl in *; try done.
    by apply RemoveTransInfoMulti_cursor.
  - apply (leaves_left_behind (λ g', cursor_set (GTMTransactions g'))).
    unfold GTM_StartPreparedTransaction.
    destruct (GTM_HandleToTransactionInfo _ _) as [|p|]; [done| |done].
    destruct (negb (_ =? _)); [done|].
    destruct (negb (memcpy_fits _ _)); [done|].
    destruct (negb (memcpy_fits _ _)); done.
  - apply (leaves_left_behind (λ g', cursor_set (GTMTransactions g'))).
    unfold GTM_PrepareTransaction.
    destruct (GTM_HandleToTransactionInfo _ _) as [|p|]; [done| |done].
    destruct (_ !! p); [|done]. destruct (_ && _); done.
  - intros [= <-]. by apply RemoveAllTransInfos_cursor.
  - apply (leaves_left_behind (λ g', cursor_set (GTMTransactions g'))).
    unfold GTM_SetDoVacuum.
    destruct (GTM_HandleToTransactionInfo _ _) as [|p|]; done.
  - intros [= <-]. done.
  - intros [= <-]. done.
  - intros [= <-]. done.
Qed.

Lemma reachable_cursor_set g :
  0 < M → reachable g → cursor_set (GTMTransactions g).
Proof.
  intros HM Hr. induction Hr as [|r g g' Hr IH Hs].
  - left. done.
  - eapply cursor_set_serve; [done| |done|done]. by apply reachable_table_inv.
Qed.

(** X7. In every state the transaction manager reaches, when every
    slot is in use a begin that does not reuse a session raises the
    error "Max global transactions limit reached" and leaves the
    globals as they are: the cursor is an index of the array as soon as
    a transaction is open, so the search comes back to it. *)
Theorem GTM_BeginTransaction_full (c iso : Z) (ro : bool) (sid : option string)
    (g : GTM_Globals) :
  0 < M → reachable g →
  table_full (GTMTransactions g) →
  GTM_GlobalSessionIDToHandle (GTMTransactions g) sid = InvalidTransactionHandle →
  0 ≤ gt_lastslot (GTMTransactions g) ∧
  find_free_slot (GTMTransactions g) = ScanFull ∧
  GTM_BeginTransaction c iso ro sid g = Raised g.
Proof.
  intros HM Hr Hfull Hmiss.
  pose proof (reachable_table_inv g HM Hr) as [Hwf _].
  assert (Hls : 0 ≤ gt_lastslot (GTMTransactions g)).
  { destruct (reachable_cursor_set g HM Hr) as [Ho|Hl]; [|done]. exfalso.
    destruct (Hfull 0 ltac:(lia)) as (i & Hi & Hu).
    pose proof (wf_in_use _ Hwf _ _ Hi Hu) as Hin. rewrite Ho in Hin.
    by apply elem_of_nil in Hin. }
  assert (Hscan : find_free_slot (GTMTransactions g) = ScanFull).
  { apply find_free_slot_full; [done| |exact Hfull].
    pose proof (wf_lastslot _ Hwf). lia. }
  split; [done|]. split; [done|].
  unfold GTM_BeginTransaction, GTM_BeginTransactionMulti. simpl.
  rewrite Hmiss. simpl. rewrite Hscan. done.
Qed.

(** On a well-formed table every slot is in use or one is free. *)
Lemma table_full_or_free t :
  table_wf t →
  table_full t ∨ ∃ p i, gt_transactions_array t !! p = Some i ∧ gti_in_use i = false.
Proof.
  intros Hwf.
  destruct (decide (Forall (λ i, gti_in_use i = true) (gt_transactions_array t)))
    as [Hall|Hnot].
  - left. intros ii Hii.
    destruct (lookup_lt_is_Some_2 (gt_transactions_array t) (Z.to_nat ii)) as [i Hi].
    { pose proof (wf_length _ Hwf). lia. }
    exists i. split; [done|]. by apply (Forall_lookup_1 _ _ _ _ Hall Hi).
  - right. apply not_Forall_Exists in Hnot; [|apply _].
    apply Exists_exists in Hnot as (i & Hin & Hu).
    apply list_elem_of_lookup_1 in Hin as [p Hp]. exists p, i. split; [done|].
    simpl in Hu. by destruct (gti_in_use i).
Qed.

(** C4. The search for a free slot, in every state the transaction
    manager reaches. The cursor [gt_lastslot] is [-1] or an index, and
    it is an index as soon as a slot is in use. When every slot is in
    use, the search, started after the cursor, comes back to the
    cursor and ends with the error "Max global transactions limit
    reached": a begin that needs a new slot raises it and leaves the
    globals as they are; no slot is claimed and the begin does not go
    on without a slot. When a slot is free, the search stops at the
    first free slot in the cyclic order that starts after the cursor;
    the begin returns its index, moves the cursor to it, appends it to
    the list of open transactions and leaves it in use. One of the two
    cases always applies. The search starts at
    [(gt_lastslot + 1) mod GTM_MAX_GLOBAL_TRANSACTIONS] and makes at
    most [GTM_MAX_GLOBAL_TRANSACTIONS] steps. *)
Theorem GTM_BeginTransactionMulti_allocation (g : GTM_Globals) :
  0 < GTM_MAX_GLOBAL_TRANSACTIONS → reachable g →
  let t := GTMTransactions g in
  -1 ≤ gt_lastslot t < GTM_MAX_GLOBAL_TRANSACTIONS ∧
  (gt_open_transactions t ≠ [] → 0 ≤ gt_lastslot t) ∧
  startslot t = (gt_lastslot t + 1) mod M ∧
  (table_full t →
     find_free_slot t = ScanFull ∧
     ∀ c r rest txns,
       GTM_GlobalSessionIDToHandle t (br_global_sessionid r) = InvalidTransactionHandle →
       begin_loop c (r :: rest) g txns = Raised g) ∧
  ((∃ p i, txninfo_at t p = Some i ∧ gti_in_use i = false) →
     ∃ k i,
       0 ≤ k < GTM_MAX_GLOBAL_TRANSACTIONS ∧
       (∀ d, 0 ≤ d < k →
          ∃ j, txninfo_at t (Z.to_nat ((gt_lastslot t + 1 + d) mod M)) = Some j ∧
               gti_in_use j = true) ∧
       txninfo_at t (Z.to_nat ((gt_lastslot t + 1 + k) mod M)) = Some i ∧
       gti_in_use i = false ∧
       find_free_slot t = ScanFound ((gt_lastslot t + 1 + k) mod M) ∧
       ∀ c r,
         GTM_GlobalSessionIDToHandle t (br_global_sessionid r) = InvalidTransactionHandle →
         ∃ g' j,
           GTM_BeginTransactionMulti c [r] g
             = Returned [(gt_lastslot t + 1 + k) mod M] g' ∧
           gt_lastslot (GTMTransactions g') = (gt_lastslot t + 1 + k) mod M ∧
           gt_open_transactions (GTMTransactions g')
             = gt_open_transactions t ++ [Z.to_nat ((gt_lastslot t + 1 + k) mod M)] ∧
           txninfo_at (GTMTransactions g') (Z.to_nat ((gt_lastslot t + 1 + k) mod M))
             = Some j ∧
           gti_in_use j = true ∧
           gti_handle j = (gt_lastslot t + 1 + k) mod M ∧
           gti_state j = GTM_TXN_STARTING ∧
           ∀ q, q ≠ Z.to_nat ((gt_lastslot t + 1 + k) mod M) →
                txninfo_at (GTMTransactions g') q = txninfo_at t q) ∧
  (table_full t ∨ ∃ p i, txninfo_at t p = Some i ∧ gti_in_use i = false).
Proof.
  intros HM Hr t.
  pose proof (reachable_table_inv g HM Hr) as [Hwf _]. fold t in Hwf.
  pose proof (reachable_cursor_set g HM Hr) as Hc. fold t in Hc.
  split; [apply Hwf|]. split; [by destruct Hc|].
  split; [apply startslot_mod; [done|apply Hwf]|]. split; [|split].
  - intros Hfull.
    assert (Hls : 0 ≤ gt_lastslot t).
    { destruct Hc as [Ho|Hl]; [|done]. exfalso.
      destruct (Hfull 0 ltac:(lia)) as (i & Hi & Hu).
      pose proof (wf_in_use _ Hwf _ _ Hi Hu) as Hin. rewrite Ho in Hin.
      by apply elem_of_nil in Hin. }
    assert (Hscan : find_free_slot t = ScanFull).
    { apply find_free_slot_full; [done| |exact Hfull].
      pose proof (wf_lastslot _ Hwf). lia. }
    split; [done|]. intros c r rest txns Hmiss.
    cbn [begin_loop]. fold t. rewrite Hmiss, Hscan. done.
  - intros Hfree.
    destruct (find_free_slot_finds t HM (wf_length _ Hwf) (wf_lastslot _ Hwf) Hfree)
      as (k & i & Hk & Hi & Hu & Hbusy & Hscan).
    exists k, i. split; [done|]. split; [exact Hbusy|]. split; [exact Hi|].
    split; [done|]. split; [done|]. intros c r Hmiss.
    set (ii := (gt_lastslot t + 1 + k) mod M) in *.
    exists (claim_slot c r ii g),
      (GTM_TransactionInfo_Init i ii (br_isolevel r) c (br_connid r)
         (br_global_sessionid r) (br_readonly r)).
    split.
    { unfold GTM_BeginTransactionMulti. cbn [begin_loop]. fold t.
      rewrite Hmiss, Hscan. done. }
    split; [done|]. split; [done|]. split.
    { unfold txninfo_at, claim_slot. simpl. rewrite list_lookup_alter_eq.
      fold t. rewrite Hi. done. }
    do 3 (split; [done|]).
    intros q Hq. unfold txninfo_at, claim_slot. simpl.
    rewrite list_lookup_alter_ne; done.
  - by apply table_full_or_free.
Qed.

End Begin.

Lemma GTM_BeginTransaction_same_session_witness :
  table_inv (cfg := small) (GTMTransactions (run_small [begin_on "S1"])) ∧
  "S2" ≠ "" ∧
  (String.length "S2" < GTM_MAX_SESSION_ID_LEN (GTM_Config := small))%nat ∧
  ∃ g1, GTM_BeginTransaction (cfg := small) 7 2 false (Some "S2")
          (run_small [begin_on "S1"]) = Returned 1 g1 ∧
        GTM_BeginTransaction (cfg := small) 8 1 true (Some "S2") g1 = Returned 1 g1.
Proof.
  assert (Hinv : table_inv (cfg := small) (GTMTransactions (run_small [begin_on "S1"]))).
  { apply (reachable_table_inv (cfg := small)); [done|].
    apply reachable_run_small. vm_compute. reflexivity. }
  assert (Hsid : "S2" ≠ "") by discriminate.
  assert (Hlen : (String.length "S2" < GTM_MAX_SESSION_ID_LEN (GTM_Config := small))%nat)
    by (cbn; lia).
  split; [exact Hinv|]. split; [exact Hsid|]. split; [exact Hlen|].
  eexists. split; [vm_compute; reflexivity|].
  eapply (proj1 (GTM_BeginTransaction_same_session (cfg := small) 7 2 false "S2"
                   (run_small [begin_on "S1"]) _ 1 8 1 true Hinv Hsid Hlen _)).
  Unshelve. vm_compute. reflexivity.
Defined.

(** Slots 0 and 1 are open, slot 0 is committed, the cursor is at 1:
    the next begin takes slot 2 (offset 0 after the cursor), not the
    slot that was just freed. *)
Lemma GTM_BeginTransaction_first_free_witness :
  0 < GTM_MAX_GLOBAL_TRANSACTIONS (GTM_Config := small) ∧
  table_wf (cfg := small)
    (GTMTransactions (run_small [begin_on "S1"; begin_on "S2"; ReqCommit [0] []])) ∧
  ∃ g', GTM_BeginTransaction (cfg := small) 7 2 false (Some "S3")
          (run_small [begin_on "S1"; begin_on "S2"; ReqCommit [0] []]) = Returned 2 g' ∧
        gt_open_transactions (GTMTransactions g') = [1%nat; 2%nat].
Proof.
  assert (HM : 0 < GTM_MAX_GLOBAL_TRANSACTIONS (GTM_Config := small)) by done.
  assert (Hwf : table_wf (cfg := small)
    (GTMTransactions (run_small [begin_on "S1"; begin_on "S2"; ReqCommit [0] []]))).
  { apply table_wf_run_small. vm_compute. reflexivity. }
  split; [exact HM|]. split; [exact Hwf|].
  destruct (GTM_BeginTransaction_first_free (cfg := small) 7 2 false (Some "S3")
              (run_small [begin_on "S1"; begin_on "S2"; ReqCommit [0] []]) 0 zero_txninfo)
    as (g' & Hret & _ & Hopen & _);
    [exact HM | exact Hwf | vm_compute; reflexivity | cbn; lia
    | intros d Hd; lia | vm_compute; reflexivity | reflexivity | ].
  exists g'. split; [exact Hret|]. rewrite Hopen. vm_compute. reflexivity.
Defined.

(** Four transactions fill the table of four slots: the cursor is at
    slot 3, the search ends with the error and a fifth begin raises it
    and changes nothing. After the first transaction has committed the
    search finds slot 0. *)
Lemma GTM_BeginTransactionMulti_allocation_witness :
  0 < GTM_MAX_GLOBAL_TRANSACTIONS (GTM_Config := small) ∧
  reachable (cfg := small)
    (run_small [begin_on "S1"; begin_on "S2"; begin_on "S3"; begin_on "S4"]) ∧
  table_full (cfg := small)
    (GTMTransactions (run_small [begin_on "S1"; begin_on "S2"; begin_on "S3"; begin_on "S4"])) ∧
  gt_lastslot
    (GTMTransactions (run_small [begin_on "S1"; begin_on "S2"; begin_on "S3"; begin_on "S4"]))
  = 3 ∧
  find_free_slot (cfg := small)
    (GTMTransactions (run_small [begin_on "S1"; begin_on "S2"; begin_on "S3"; begin_on "S4"]))
  = ScanFull ∧
  GTM_BeginTransactionMulti (cfg := small) 7
    [{| br_isolevel := 2; br_readonly := false;
        br_global_sessionid := Some "S5"; br_connid := -1 |}]
    (run_small [begin_on "S1"; begin_on "S2"; begin_on "S3"; begin_on "S4"])
  = Raised (run_small [begin_on "S1"; begin_on "S2"; begin_on "S3"; begin_on "S4"]) ∧
  find_free_slot (cfg := small)
    (GTMTransactions
       (run_small [begin_on "S1"; begin_on "S2"; begin_on "S3"; begin_on "S4";
                   ReqCommit [0] []]))
  = ScanFound 0.
Proof.
  assert (HM : 0 < GTM_MAX_GLOBAL_TRANSACTIONS (GTM_Config := small)) by done.
  assert (Hr : reachable (cfg := small)
    (run_small [begin_on "S1"; begin_on "S2"; begin_on "S3"; begin_on "S4"])).
  { apply reachable_run_small. vm_compute. reflexivity. }
  assert (Hfull : table_full (cfg := small)
    (GTMTransactions (run_small [begin_on "S1"; begin_on "S2"; begin_on "S3"; begin_on "S4"]))).
  { intros ii Hii.
    assert (ii = 0 ∨ ii = 1 ∨ ii = 2 ∨ ii = 3) as [-> | [-> | [-> | ->]]] by (cbn in Hii; lia);
      (eexists; split; [vm_compute; reflexivity|reflexivity]). }
  destruct (GTM_BeginTransactionMulti_allocation (cfg := small) _ HM Hr)
    as (_ & _ & _ & Hcase & _).
  destruct (Hcase Hfull) as [Hscan Hraise].
  split; [exact HM|]. split; [exact Hr|]. split; [exact Hfull|].
  split; [vm_compute; reflexivity|]. split; [exact Hscan|]. split.
  - apply (Hraise 7 _ [] []). vm_compute. reflexivity.
  - vm_compute. reflexivity.
Defined.

(** Scenario: four transactions fill the table of four slots; the fifth
    begin raises the error and changes nothing. *)
Lemma GTM_BeginTransaction_full_witness :
  0 < GTM_MAX_GLOBAL_TRANSACTIONS (GTM_Config := small) ∧
  reachable (cfg := small)
    (run_small [begin_on "S1"; begin_on "S2"; begin_on "S3"; begin_on "S4"]) ∧
  table_full (cfg := small)
    (GTMTransactions (run_small [begin_on "S1"; begin_on "S2"; begin_on "S3"; begin_on "S4"])) ∧
  GTM_BeginTransaction (cfg := small) 7 2 false (Some "S5")
    (run_small [begin_on "S1"; begin_on "S2"; begin_on "S3"; begin_on "S4"])
  = Raised (run_small [begin_on "S1"; begin_on "S2"; begin_on "S3"; begin_on "S4"]).
Proof.
  assert (HM : 0 < GTM_MAX_GLOBAL_TRANSACTIONS (GTM_Config := small)) by done.
  assert (Hr : reachable (cfg := small)
    (run_small [begin_on "S1"; begin_on "S2"; begin_on "S3"; begin_on "S4"])).
  { apply reachable_run_small. vm_compute. reflexivity. }
  assert (Hfull : table_full (cfg := small)
    (GTMTransactions (run_small [begin_on "S1"; begin_on "S2"; begin_on "S3"; begin_on "S4"]))).
  { intros ii Hii.
    assert (ii = 0 ∨ ii = 1 ∨ ii = 2 ∨ ii = 3) as [-> | [-> | [-> | ->]]] by (cbn in Hii; lia);
      (eexists; split; [vm_compute; reflexivity|reflexivity]). }
  split; [exact HM|]. split; [exact Hr|]. split; [exact Hfull|].
  apply (GTM_BeginTransaction_full (cfg := small) 7 2 false (Some "S5") _ HM Hr Hfull).
  vm_compute. reflexivity.
Defined.

(** ** The end of a transaction *)

Section Finish.
Context `{cfg : GTM_Config}.

Implicit Types (g : GTM_Globals) (t : GTM_Transactions) (p q : nat)
  (i j : GTM_TransactionInfo).

Lemma seq_calls_remove_one p g i :
  gt_transactions_array (GTMTransactions g) !! p = Some i →
  seq_calls (remove_one p g) = seq_calls g ++ clean_seq_calls i.
Proof.
  intros Hi. unfold remove_one. simpl. rewrite Hi.
  unfold GTM_TransactionInfo_Clean. rewrite array_update_latest. simpl. rewrite Hi.
  simpl. unfold update_latestCompletedXid. destruct (_ && _); done.
Qed.

Lemma nextXid_remove_one p g :
  gt_nextXid (GTMTransactions (remove_one p g)) = gt_nextXid (GTMTransactions g).
Proof.
  unfold remove_one. simpl. destruct (_ !! p) as [i|]; [|done].
  unfold GTM_TransactionInfo_Clean. rewrite array_update_latest. simpl.
  destruct (_ !! p); unfold update_latestCompletedXid; destruct (_ && _); done.
Qed.

(** What the two ways of ending a transaction share: the slot is put in
    state [st], unlinked from the list of open transactions and
    cleaned. *)
Lemma remove_one_set_state st p i g :
  table_inv (GTMTransactions g) →
  txninfo_at (GTMTransactions g) p = Some i → gti_in_use i = true →
  let g' := remove_one p (store_txninfo p (set_gti_state st) g) in
  gt_open_transactions (GTMTransactions g')
    = gtm_list_delete (gt_open_transactions (GTMTransactions g)) p ∧
  (p ∉ gt_open_transactions (GTMTransactions g')) ∧
  txninfo_at (GTMTransactions g') p = Some (cleaned (set_gti_state st i)) ∧
  (∀ q, q ≠ p → txninfo_at (GTMTransactions g') q = txninfo_at (GTMTransactions g) q) ∧
  seq_calls g' = seq_calls g ++ clean_seq_calls (set_gti_state st i) ∧
  gt_nextXid (GTMTransactions g') = gt_nextXid (GTMTransactions g) ∧
  table_inv (GTMTransactions g') ∧
  GTM_HandleToTransactionInfo (GTMTransactions g') (Z.of_nat p) = TxnNull.
Proof.
  intros Hinv Hi Hu g'. unfold txninfo_at in *.
  assert (Hi1 : gt_transactions_array (GTMTransactions (store_txninfo p (set_gti_state st) g)) !! p
                = Some (set_gti_state st i)).
  { rewrite array_store_eq, Hi. done. }
  assert (Hp : gt_transactions_array (GTMTransactions g') !! p
               = Some (cleaned (set_gti_state st i))).
  { unfold g'. rewrite array_remove_one, decide_True by done. rewrite Hi1. done. }
  assert (Hopen : gt_open_transactions (GTMTransactions g')
            = gtm_list_delete (gt_open_transactions (GTMTransactions g)) p).
  { unfold g'. rewrite open_remove_one. done. }
  split; [done|]. split.
  { rewrite Hopen. intros [_ Hne]%elem_of_gtm_list_delete; [done|].
    destruct Hinv as [[_ _ Hnd _ _] _]. done. }
  split; [done|]. split.
  { intros q Hq. unfold g'. rewrite array_remove_one, decide_False by done.
    rewrite array_store_ne; done. }
  split.
  { unfold g'. rewrite (seq_calls_remove_one _ _ _ Hi1). done. }
  split.
  { unfold g'. rewrite nextXid_remove_one. done. }
  split.
  { apply table_inv_remove_one, table_inv_store; [|done]. intros j. done. }
  apply GTM_HandleToTransactionInfo_null. right. right. split; [lia|].
  rewrite Nat2Z.id. eexists. split; [exact Hp|done].
Qed.

(** X8. Rollback of a transaction. For a handle that designates a slot
    in use, [GTM_RollbackTransaction] returns [STATUS_OK]; the slot is
    unlinked from the list of open transactions (the other cells keep
    their order) and left not in use, in state [GTM_TXN_ABORTED],
    without GID, node string or tracked sequences; the sequence module
    is called, in this order, to remove the sequences the transaction
    created, to restore those it dropped and to restore those it
    altered; no other slot is touched, the generator does not move, the
    invariant of the table holds, and the handle no longer designates a
    transaction. *)
Theorem GTM_RollbackTransaction_valid (h : GTM_TransactionHandle)
    (i : GTM_TransactionInfo) (g : GTM_Globals) :
  let t := GTMTransactions g in
  table_inv t → valid_handle t h i →
  ∃ g' j, GTM_RollbackTransaction h g = Returned STATUS_OK g' ∧
    let t' := GTMTransactions g' in
    gt_open_transactions t' = gtm_list_delete (gt_open_transactions t) (Z.to_nat h) ∧
    (Z.to_nat h ∉ gt_open_transactions t') ∧
    txninfo_at t' (Z.to_nat h) = Some j ∧
    gti_in_use j = false ∧ gti_state j = GTM_TXN_ABORTED ∧
    gti_gid j = None ∧ nodestring j = None ∧ gti_gxid j = gti_gxid i ∧
    gti_created_seqs j = [] ∧ gti_dropped_seqs j = [] ∧ gti_altered_seqs j = [] ∧
    (∀ q, q ≠ Z.to_nat h → txninfo_at t' q = txninfo_at t q) ∧
    seq_calls g' = seq_calls g
      ++ map GTM_SeqRemoveCreated (gti_created_seqs i)
      ++ map GTM_SeqRestoreDropped (gti_dropped_seqs i)
      ++ map GTM_SeqRestoreAltered (gti_altered_seqs i) ∧
    gt_nextXid t' = gt_nextXid t ∧
    table_inv t' ∧
    GTM_HandleToTransactionInfo t' h = TxnNull.
Proof.
  intros t Hinv Hv. pose proof (valid_handle_ptr _ _ _ Hv) as Hptr.
  destruct Hv as (Hh & Hi & Hu).
  destruct (remove_one_set_state GTM_TXN_ABORT_IN_PROGRESS (Z.to_nat h) i g Hinv Hi Hu)
    as (H1 & H2 & H3 & H4 & H5 & H6 & H7 & H8).
  rewrite Z2Nat.id in H8 by lia.
  eexists _, (cleaned (set_gti_state GTM_TXN_ABORT_IN_PROGRESS i)). split.
  { unfold GTM_RollbackTransaction, GTM_RollbackTransactionMulti.
    cbn [rollback_loop]. fold t. rewrite Hptr. reflexivity. }
  cbn [GTM_RemoveTransInfoMulti app].
  split_and!; try done.
Qed.

(** X9. Commit of a transaction that waits for nothing still running.
    For a handle that designates a slot in use,
    [GTM_CommitTransaction] returns [STATUS_OK]; the slot is unlinked
    and cleaned as by a rollback, but the sequence module is called
    only to remove for good the sequences the transaction dropped and
    the old copies of those it altered: the sequences it created get
    no call. *)
Theorem GTM_CommitTransaction_valid (h : GTM_TransactionHandle)
    (waited_xids : list GlobalTransactionId)
    (i : GTM_TransactionInfo) (g : GTM_Globals) :
  let t := GTMTransactions g in
  table_inv t → valid_handle t h i →
  waited_xid_running t waited_xids = false →
  ∃ g' j, GTM_CommitTransaction h waited_xids g = Returned STATUS_OK g' ∧
    let t' := GTMTransactions g' in
    gt_open_transactions t' = gtm_list_delete (gt_open_transactions t) (Z.to_nat h) ∧
    (Z.to_nat h ∉ gt_open_transactions t') ∧
    txninfo_at t' (Z.to_nat h) = Some j ∧
    gti_in_use j = false ∧ gti_state j = GTM_TXN_ABORTED ∧
    gti_gid j = None ∧ nodestring j = None ∧ gti_gxid j = gti_gxid i ∧
    gti_created_seqs j = [] ∧ gti_dropped_seqs j = [] ∧ gti_altered_seqs j = [] ∧
    (∀ q, q ≠ Z.to_nat h → txninfo_at t' q = txninfo_at t q) ∧
    seq_calls g' = seq_calls g
      ++ map GTM_SeqRemoveDropped (gti_dropped_seqs i)
      ++ map GTM_SeqRemoveAltered (gti_altered_seqs i) ∧
    gt_nextXid t' = gt_nextXid t ∧
    table_inv t' ∧
    GTM_HandleToTransactionInfo t' h = TxnNull.
Proof.
  intros t Hinv Hv Hw. pose proof (valid_handle_ptr _ _ _ Hv) as Hptr.
  destruct Hv as (Hh & Hi & Hu).
  destruct (remove_one_set_state GTM_TXN_COMMIT_IN_PROGRESS (Z.to_nat h) i g Hinv Hi Hu)
    as (H1 & H2 & H3 & H4 & H5 & H6 & H7 & H8).
  rewrite Z2Nat.id in H8 by lia.
  eexists _, (cleaned (set_gti_state GTM_TXN_COMMIT_IN_PROGRESS i)). split.
  { unfold GTM_CommitTransaction, GTM_CommitTransactionMulti.
    cbn [commit_loop]. fold t. rewrite Hptr, Hw. reflexivity. }
  cbn [GTM_RemoveTransInfoMulti app map].
  split_and!; try done.
Qed.

(** X10. A handle that designates no transaction (it is negative, or
    beyond the size of the array, or its slot is not in use) is
    refused everywhere and the globals stay as they are: commit,
    rollback, prepare and start-prepare return [STATUS_ERROR],
    [GTM_GetGIDData] returns [STATUS_ERROR] without writing its
    outputs, and [GTM_SetDoVacuum] raises an error. *)
Theorem GTM_stale_handle (h : GTM_TransactionHandle) (g : GTM_Globals) :
  h < 0 ∨ GTM_MAX_GLOBAL_TRANSACTIONS < h ∨
  (0 ≤ h ∧ ∃ i, txninfo_at (GTMTransactions g) (Z.to_nat h) = Some i ∧
                gti_in_use i = false) →
  (∀ w, GTM_CommitTransaction h w g = Returned STATUS_ERROR g) ∧
  GTM_RollbackTransaction h g = Returned STATUS_ERROR g ∧
  (∀ chk, GTM_PrepareTransaction chk h g = Returned STATUS_ERROR g) ∧
  (∀ gid ns, GTM_StartPreparedTransaction h gid ns g = Returned STATUS_ERROR g) ∧
  GTM_GetGIDData h g = Returned (STATUS_ERROR, None) g ∧
  GTM_SetDoVacuum h g = Raised g.
Proof.
  intros Hh. apply GTM_HandleToTransactionInfo_null in Hh.
  split_and!.
  - intros w. unfold GTM_CommitTransaction, GTM_CommitTransactionMulti.
    cbn [commit_loop]. rewrite Hh. reflexivity.
  - unfold GTM_RollbackTransaction, GTM_RollbackTransactionMulti.
    cbn [rollback_loop]. rewrite Hh. reflexivity.
  - intros chk. unfold GTM_PrepareTransaction. rewrite Hh. done.
  - intros gid ns. unfold GTM_StartPreparedTransaction. rewrite Hh. done.
  - unfold GTM_GetGIDData. rewrite Hh. done.
  - unfold GTM_SetDoVacuum. rewrite Hh. done.
Qed.

(** *** The GID of a prepared transaction *)

(** X11. For a GID and a node string that fit their buffers (fewer
    than [GTM_MAX_GID_LEN] and [GTM_MAX_NODESTRING_LEN] characters) and
    a GID that no open transaction carries,
    [GTM_StartPreparedTransaction] succeeds for a transaction in use;
    from then on [GTM_GIDToHandle] maps the GID back to its handle and
    [GTM_GetGIDData] returns, with [STATUS_OK], the GXID of the
    transaction and the node string it was given;
    [GTM_PrepareTransaction] then returns [STATUS_OK], with or without
    assertions compiled in, and both answers still hold once it has
    moved the transaction to [GTM_TXN_PREPARED]. *)
Theorem GTM_StartPreparedTransaction_lookup (h : GTM_TransactionHandle)
    (gid ns : string) (i : GTM_TransactionInfo) (g : GTM_Globals) :
  let t := GTMTransactions g in
  table_inv t → valid_handle t h i → ¬ gid_open t gid →
  (String.length gid < GTM_MAX_GID_LEN)%nat →
  (String.length ns < GTM_MAX_NODESTRING_LEN)%nat →
  ∃ g1 g2,
    GTM_StartPreparedTransaction h gid ns g = Returned STATUS_OK g1 ∧
    GTM_GIDToHandle (GTMTransactions g1) gid = h ∧
    GTM_GetGIDData h g1 = Returned (STATUS_OK, Some (gti_gxid i, Some ns)) g1 ∧
    (∀ chk, GTM_PrepareTransaction chk h g1 = Returned STATUS_OK g2) ∧
    GTM_GIDToHandle (GTMTransactions g2) gid = h ∧
    GTM_GetGIDData h g2 = Returned (STATUS_OK, Some (gti_gxid i, Some ns)) g2.
Proof.
  intros t Hinv Hv Hfree Hlg Hln. pose proof (valid_handle_ptr _ _ _ Hv) as Hptr.
  destruct Hv as (Hh & Hi & Hu). set (p := Z.to_nat h) in *.
  assert (Hp : p ∈ gt_open_transactions t).
  { destruct Hinv as [Hwf _]. by apply (wf_in_use _ Hwf p i). }
  assert (Hgid : GTM_GIDToHandle t gid = InvalidTransactionHandle).
  { apply GTM_GIDToHandle_invalid; [apply Hinv|done]. }
  set (g1 := store_txninfo p (set_prepare_data gid ns) g).
  set (g2 := store_txninfo p (set_gti_state GTM_TXN_PREPARED) g1).
  assert (Hstart : GTM_StartPreparedTransaction h gid ns g = Returned STATUS_OK g1).
  { unfold GTM_StartPreparedTransaction. fold t. rewrite Hptr, Hgid.
    apply memcpy_fits_true in Hlg, Hln. rewrite Hlg, Hln. done. }
  assert (Hinv1 : table_inv (GTMTransactions g1)).
  { pose proof (table_inv_StartPrepared h gid ns g Hinv) as H.
    rewrite Hstart in H. exact H. }
  assert (Hi1 : txninfo_at (GTMTransactions g1) p = Some (set_prepare_data gid ns i)).
  { unfold txninfo_at, g1. rewrite array_store_eq. unfold txninfo_at in Hi.
    fold t. rewrite Hi. done. }
  assert (Hptr1 : GTM_HandleToTransactionInfo (GTMTransactions g1) h = TxnPtr p).
  { apply (valid_handle_ptr _ _ (set_prepare_data gid ns i)). split; [done|]. done. }
  assert (Hinv2 : table_inv (GTMTransactions g2)).
  { apply table_inv_store; [|done]. intros j. done. }
  assert (Hi2 : txninfo_at (GTMTransactions g2) p
                = Some (set_gti_state GTM_TXN_PREPARED (set_prepare_data gid ns i))).
  { unfold txninfo_at, g2. rewrite array_store_eq. unfold txninfo_at in Hi1.
    rewrite Hi1. done. }
  assert (Hptr2 : GTM_HandleToTransactionInfo (GTMTransactions g2) h = TxnPtr p).
  { unfold g2. rewrite GTM_HandleToTransactionInfo_set_state. done. }
  assert (Hhp : Z.of_nat p = h) by (unfold p; lia).
  exists g1, g2. split_and!.
  - done.
  - rewrite <- Hhp. by apply (GTM_GIDToHandle_carrier _ gid p (set_prepare_data gid ns i)).
  - unfold GTM_GetGIDData. rewrite Hptr1. unfold txninfo_at in Hi1. rewrite Hi1. done.
  - intros chk. unfold GTM_PrepareTransaction. rewrite Hptr1. unfold txninfo_at in Hi1.
    rewrite Hi1. cbv zeta. simpl gti_state.
    rewrite bool_decide_eq_true_2 by done. rewrite andb_false_r. done.
  - rewrite <- Hhp.
    by apply (GTM_GIDToHandle_carrier _ gid p
                (set_gti_state GTM_TXN_PREPARED (set_prepare_data gid ns i))).
  - unfold GTM_GetGIDData. rewrite Hptr2. unfold txninfo_at in Hi2. rewrite Hi2. done.
Qed.

(** X12. The end of a transaction releases its GID: after the rollback
    of the transaction that carries [gid], or after its commit, no open
    transaction carries [gid] and [GTM_GIDToHandle] returns
    [InvalidTransactionHandle] for it. *)
Theorem GTM_GIDToHandle_released (h : GTM_TransactionHandle) (gid : string)
    (waited_xids : list GlobalTransactionId)
    (i : GTM_TransactionInfo) (g : GTM_Globals) :
  let t := GTMTransactions g in
  table_inv t → valid_handle t h i → gti_gid i = Some gid →
  (∃ g', GTM_RollbackTransaction h g = Returned STATUS_OK g' ∧
         GTM_GIDToHandle (GTMTransactions g') gid = InvalidTransactionHandle) ∧
  (waited_xid_running t waited_xids = false →
   ∃ g', GTM_CommitTransaction h waited_xids g = Returned STATUS_OK g' ∧
         GTM_GIDToHandle (GTMTransactions g') gid = InvalidTransactionHandle).
Proof.
  intros t Hinv Hv Hgid. pose proof (valid_handle_ptr _ _ _ Hv) as Hptr.
  destruct Hv as (Hh & Hi & Hu). set (p := Z.to_nat h) in *.
  assert (Hp : p ∈ gt_open_transactions t).
  { destruct Hinv as [Hwf _]. by apply (wf_in_use _ Hwf p i). }
  assert (Hrel : ∀ st,
    GTM_GIDToHandle (GTMTransactions (remove_one p (store_txninfo p (set_gti_state st) g))) gid
    = InvalidTransactionHandle).
  { intros st.
    destruct (remove_one_set_state st p i g Hinv Hi Hu)
      as (H1 & H2 & H3 & H4 & _ & _ & H7 & _).
    apply GTM_GIDToHandle_invalid; [apply H7|].
    intros (q & j & Hq & Hj & Hgj).
    assert (Hne : q ≠ p) by (intros ->; done).
    rewrite H4 in Hj by done.
    rewrite H1 in Hq. apply elem_of_gtm_list_delete in Hq as [Hq _].
    2: { destruct Hinv as [[_ _ Hnd _ _] _]. done. }
    destruct Hinv as [_ Huniq]. apply Hne.
    by apply (Huniq q p j i gid). }
  split.
  - eexists. split; [|apply (Hrel GTM_TXN_ABORT_IN_PROGRESS)].
    unfold GTM_RollbackTransaction, GTM_RollbackTransactionMulti.
    cbn [rollback_loop]. fold t. rewrite Hptr. reflexivity.
  - intros Hw. eexists. split; [|apply (Hrel GTM_TXN_COMMIT_IN_PROGRESS)].
    unfold GTM_CommitTransaction, GTM_CommitTransactionMulti.
    cbn [commit_loop]. fold t. rewrite Hptr, Hw. reflexivity.
Qed.

End Finish.

(** Two transactions are open; the first is rolled back: the list of
    open transactions is left with the second. *)
Lemma GTM_RollbackTransaction_valid_witness :
  table_inv (cfg := small) (GTMTransactions (run_small [begin_on "S1"; begin_on "S2"])) ∧
  valid_handle (cfg := small)
    (GTMTransactions (run_small [begin_on "S1"; begin_on "S2"])) 0 slot_S1 ∧
  ∃ g', GTM_RollbackTransaction (cfg := small) 0 (run_small [begin_on "S1"; begin_on "S2"])
          = Returned STATUS_OK g' ∧
        gt_open_transactions (GTMTransactions g') = [1%nat].
Proof.
  assert (Hinv : table_inv (cfg := small)
            (GTMTransactions (run_small [begin_on "S1"; begin_on "S2"]))).
  { apply (reachable_table_inv (cfg := small)); [done|].
    apply reachable_run_small. vm_compute. reflexivity. }
  assert (Hv : valid_handle (cfg := small)
            (GTMTransactions (run_small [begin_on "S1"; begin_on "S2"])) 0 slot_S1).
  { split_and!; [cbn; lia|cbn; lia|vm_compute; reflexivity|reflexivity]. }
  split; [exact Hinv|]. split; [exact Hv|].
  destruct (GTM_RollbackTransaction_valid (cfg := small) 0 slot_S1 _ Hinv Hv)
    as (g' & j & Hret & Hrest).
  cbv zeta in Hrest. destruct Hrest as (Hopen & _).
  exists g'. split; [exact Hret|]. rewrite Hopen. vm_compute. reflexivity.
Defined.

Lemma GTM_CommitTransaction_valid_witness :
  table_inv (cfg := small) (GTMTransactions (run_small [begin_on "S1"; begin_on "S2"])) ∧
  valid_handle (cfg := small)
    (GTMTransactions (run_small [begin_on "S1"; begin_on "S2"])) 0 slot_S1 ∧
  waited_xid_running
    (GTMTransactions (run_small [begin_on "S1"; begin_on "S2"])) [] = false ∧
  ∃ g', GTM_CommitTransaction (cfg := small) 0 [] (run_small [begin_on "S1"; begin_on "S2"])
          = Returned STATUS_OK g' ∧
        gt_open_transactions (GTMTransactions g') = [1%nat].
Proof.
  assert (Hinv : table_inv (cfg := small)
            (GTMTransactions (run_small [begin_on "S1"; begin_on "S2"]))).
  { apply (reachable_table_inv (cfg := small)); [done|].
    apply reachable_run_small. vm_compute. reflexivity. }
  assert (Hv : valid_handle (cfg := small)
            (GTMTransactions (run_small [begin_on "S1"; begin_on "S2"])) 0 slot_S1).
  { split_and!; [cbn; lia|cbn; lia|vm_compute; reflexivity|reflexivity]. }
  assert (Hw : waited_xid_running
            (GTMTransactions (run_small [begin_on "S1"; begin_on "S2"])) [] = false)
    by reflexivity.
  split; [exact Hinv|]. split; [exact Hv|]. split; [exact Hw|].
  destruct (GTM_CommitTransaction_valid (cfg := small) 0 [] slot_S1 _ Hinv Hv Hw)
    as (g' & j & Hret & Hrest).
  cbv zeta in Hrest. destruct Hrest as (Hopen & _).
  exists g'. split; [exact Hret|]. rewrite Hopen. vm_compute. reflexivity.
Defined.

(** At start-up handle 0 designates no transaction. *)
Lemma GTM_stale_handle_witness :
  (0 < 0 ∨ GTM_MAX_GLOBAL_TRANSACTIONS (GTM_Config := small) < 0 ∨
   (0 ≤ 0 ∧ ∃ i, txninfo_at (GTMTransactions (GTM_InitTxnManager (cfg := small)))
                   (Z.to_nat 0) = Some i ∧ gti_in_use i = false)) ∧
  GTM_RollbackTransaction (cfg := small) 0 (GTM_InitTxnManager (cfg := small))
  = Returned STATUS_ERROR (GTM_InitTxnManager (cfg := small)).
Proof.
  assert (H : 0 < 0 ∨ GTM_MAX_GLOBAL_TRANSACTIONS (GTM_Config := small) < 0 ∨
    (0 ≤ 0 ∧ ∃ i, txninfo_at (GTMTransactions (GTM_InitTxnManager (cfg := small)))
                    (Z.to_nat 0) = Some i ∧ gti_in_use i = false)).
  { right. right. split; [lia|]. exists zero_txninfo. split; reflexivity. }
  split; [exact H|].
  exact (proj1 (proj2 (GTM_stale_handle (cfg := small) 0 _ H))).
Defined.

(** A transaction with GXID 3 starts its prepare under the GID "T1". *)
Lemma GTM_StartPreparedTransaction_lookup_witness :
  table_inv (cfg := small)
    (GTMTransactions (run_small [begin_on "S1"; ReqGetGXID false [0]])) ∧
  valid_handle (cfg := small)
    (GTMTransactions (run_small [begin_on "S1"; ReqGetGXID false [0]])) 0
    (set_gti_gxid 3 slot_S1) ∧
  ¬ gid_open (GTMTransactions (run_small [begin_on "S1"; ReqGetGXID false [0]])) "T1" ∧
  (String.length "T1" < GTM_MAX_GID_LEN (GTM_Config := small))%nat ∧
  (String.length "dn1" < GTM_MAX_NODESTRING_LEN (GTM_Config := small))%nat ∧
  ∃ g1, GTM_StartPreparedTransaction (cfg := small) 0 "T1" "dn1"
          (run_small [begin_on "S1"; ReqGetGXID false [0]]) = Returned STATUS_OK g1 ∧
        GTM_GIDToHandle (GTMTransactions g1) "T1" = 0 ∧
        GTM_GetGIDData (cfg := small) 0 g1 = Returned (STATUS_OK, Some (3, Some "dn1")) g1.
Proof.
  assert (Hinv : table_inv (cfg := small)
            (GTMTransactions (run_small [begin_on "S1"; ReqGetGXID false [0]]))).
  { apply (reachable_table_inv (cfg := small)); [done|].
    apply reachable_run_small. vm_compute. reflexivity. }
  assert (Hv : valid_handle (cfg := small)
            (GTMTransactions (run_small [begin_on "S1"; ReqGetGXID false [0]])) 0
            (set_gti_gxid 3 slot_S1)).
  { split_and!; [cbn; lia|cbn; lia|vm_compute; reflexivity|reflexivity]. }
  assert (Hfree : ¬ gid_open
            (GTMTransactions (run_small [begin_on "S1"; ReqGetGXID false [0]])) "T1").
  { apply (GTM_GIDToHandle_invalid (cfg := small)); [apply Hinv|]. vm_compute. reflexivity. }
  split; [exact Hinv|]. split; [exact Hv|]. split; [exact Hfree|].
  split; [cbn; lia|]. split; [cbn; lia|].
  destruct (GTM_StartPreparedTransaction_lookup (cfg := small) 0 "T1" "dn1"
              (set_gti_gxid 3 slot_S1) _ Hinv Hv Hfree ltac:(cbn; lia) ltac:(cbn; lia))
    as (g1 & g2 & Hstart & Hgid & Hdata & _).
  exists g1. split; [exact Hstart|]. split; [exact Hgid|]. exact Hdata.
Defined.

(** The prepared transaction "T1" is rolled back: its GID is free
    again. *)
Lemma GTM_GIDToHandle_released_witness :
  table_inv (cfg := small)
    (GTMTransactions
       (run_small [begin_on "S1"; ReqGetGXID false [0]; ReqStartPrepared 0 "T1" "dn1"])) ∧
  valid_handle (cfg := small)
    (GTMTransactions
       (run_small [begin_on "S1"; ReqGetGXID false [0]; ReqStartPrepared 0 "T1" "dn1"])) 0
    (set_prepare_data "T1" "dn1" (set_gti_gxid 3 slot_S1)) ∧
  gti_gid (set_prepare_data "T1" "dn1" (set_gti_gxid 3 slot_S1)) = Some "T1" ∧
  ∃ g', GTM_RollbackTransaction (cfg := small) 0
          (run_small [begin_on "S1"; ReqGetGXID false [0]; ReqStartPrepared 0 "T1" "dn1"])
        = Returned STATUS_OK g' ∧
        GTM_GIDToHandle (GTMTransactions g') "T1" = InvalidTransactionHandle.
Proof.
  assert (Hinv : table_inv (cfg := small)
    (GTMTransactions
       (run_small [begin_on "S1"; ReqGetGXID false [0]; ReqStartPrepared 0 "T1" "dn1"]))).
  { apply (reachable_table_inv (cfg := small)); [done|].
    apply reachable_run_small. vm_compute. reflexivity. }
  assert (Hv : valid_handle (cfg := small)
    (GTMTransactions
       (run_small [begin_on "S1"; ReqGetGXID false [0]; ReqStartPrepared 0 "T1" "dn1"])) 0
    (set_prepare_data "T1" "dn1" (set_gti_gxid 3 slot_S1))).
  { split_and!; [cbn; lia|cbn; lia|vm_compute; reflexivity|reflexivity]. }
  assert (Hgid : gti_gid (set_prepare_data "T1" "dn1" (set_gti_gxid 3 slot_S1)) = Some "T1")
    by reflexivity.
  split; [exact Hinv|]. split; [exact Hv|]. split; [exact Hgid|].
  exact (proj1 (GTM_GIDToHandle_released (cfg := small) 0 "T1" [] _ _ Hinv Hv Hgid)).
Defined.

(** ** Sequences tracked by a transaction *)

Section Sequences.
Context `{cfg : GTM_Config}.

Implicit Types (g : GTM_Globals) (t : GTM_Transactions) (p q : nat)
  (i j : GTM_TransactionInfo).

Lemma track_sequence_not_open x f g :
  table_wf (GTMTransactions g) → ¬ gxid_open (GTMTransactions g) x →
  track_sequence x f g = Returned tt g.
Proof.
  intros Hwf Hn. unfold track_sequence, GTM_GXIDToHandle.
  destruct (GTM_GXIDToHandle_Internal_spec _ x Hwf) as [[-> _]|(_ & _ & _ & _ & Ho)];
    done.
Qed.

Lemma track_sequence_open x f g :
  table_inv (GTMTransactions g) → gxid_open (GTMTransactions g) x →
  (∀ i, gti_in_use (f i) = gti_in_use i ∧ gti_handle (f i) = gti_handle i ∧
        gti_gid (f i) = gti_gid i) →
  let h := GTM_GXIDToHandle (GTMTransactions g) x in
  let g1 := store_txninfo (Z.to_nat h) f g in
  ∃ i, valid_handle (GTMTransactions g) h i ∧ gti_gxid i = x ∧
       track_sequence x f g = Returned tt g1 ∧
       table_inv (GTMTransactions g1) ∧
       valid_handle (GTMTransactions g1) h (f i) ∧
       (∀ q, q ≠ Z.to_nat h →
             txninfo_at (GTMTransactions g1) q = txninfo_at (GTMTransactions g) q).
Proof.
  intros Hinv Ho Hf h g1. unfold GTM_GXIDToHandle in h.
  destruct (GTM_GXIDToHandle_Internal_spec _ x (proj1 Hinv))
    as [[_ Hn]|(i & Hv & Hx & Hin & _)]; [done|].
  fold h in Hv, Hin. exists i. split; [done|]. split; [done|].
  pose proof (valid_handle_ptr _ _ _ Hv) as Hptr.
  destruct Hv as (Hh & Hi & Hu).
  split.
  { unfold track_sequence, GTM_GXIDToHandle. fold h.
    assert ((h =? InvalidTransactionHandle) = false) as ->.
    { apply Z.eqb_neq. unfold InvalidTransactionHandle. lia. }
    rewrite Hptr. done. }
  split; [by apply table_inv_store|].
  split.
  { split; [done|]. unfold txninfo_at, g1. rewrite array_store_eq.
    unfold txninfo_at in Hi. rewrite Hi. simpl. split; [done|].
    destruct (Hf i) as (-> & _). done. }
  intros q Hq. unfold txninfo_at, g1. rewrite array_store_ne; done.
Qed.

(** X13. A sequence a transaction has created, dropped or altered is
    remembered in the slot of the open transaction that carries the
    GXID, and the end of the transaction acts on it. After
    [GTM_RememberCreatedSequence] a rollback ends with the call
    [GTM_SeqRemoveCreated] for the sequence, after the calls for the
    sequences created before; a commit makes no call for it. After
    [GTM_RememberDroppedSequence] a rollback restores the sequence and
    a commit removes it for good, after those dropped before. After
    [GTM_RememberAlteredSequence] the sequence is handled first among
    the altered ones, the list being built at its head. *)
Theorem GTM_Remember_sequence_finish (x : GlobalTransactionId) (seq : Z)
    (g : GTM_Globals) :
  let t := GTMTransactions g in
  let h := GTM_GXIDToHandle t x in
  table_inv t → gxid_open t x →
  ∃ i, valid_handle t h i ∧ gti_gxid i = x ∧
    (∃ g1 g2 g3,
       GTM_RememberCreatedSequence x seq g = Returned tt g1 ∧
       GTM_RollbackTransaction h g1 = Returned STATUS_OK g2 ∧
       seq_calls g2 = seq_calls g
         ++ map GTM_SeqRemoveCreated (gti_created_seqs i ++ [seq])
         ++ map GTM_SeqRestoreDropped (gti_dropped_seqs i)
         ++ map GTM_SeqRestoreAltered (gti_altered_seqs i) ∧
       GTM_CommitTransaction h [] g1 = Returned STATUS_OK g3 ∧
       seq_calls g3 = seq_calls g
         ++ map GTM_SeqRemoveDropped (gti_dropped_seqs i)
         ++ map GTM_SeqRemoveAltered (gti_altered_seqs i)) ∧
    (∃ g1 g2 g3,
       GTM_RememberDroppedSequence x seq g = Returned tt g1 ∧
       GTM_RollbackTransaction h g1 = Returned STATUS_OK g2 ∧
       seq_calls g2 = seq_calls g
         ++ map GTM_SeqRemoveCreated (gti_created_seqs i)
         ++ map GTM_SeqRestoreDropped (gti_dropped_seqs i ++ [seq])
         ++ map GTM_SeqRestoreAltered (gti_altered_seqs i) ∧
       GTM_CommitTransaction h [] g1 = Returned STATUS_OK g3 ∧
       seq_calls g3 = seq_calls g
         ++ map GTM_SeqRemoveDropped (gti_dropped_seqs i ++ [seq])
         ++ map GTM_SeqRemoveAltered (gti_altered_seqs i)) ∧
    (∃ g1 g2 g3,
       GTM_RememberAlteredSequence x seq g = Returned tt g1 ∧
       GTM_RollbackTransaction h g1 = Returned STATUS_OK g2 ∧
       seq_calls g2 = seq_calls g
         ++ map GTM_SeqRemoveCreated (gti_created_seqs i)
         ++ map GTM_SeqRestoreDropped (gti_dropped_seqs i)
         ++ map GTM_SeqRestoreAltered (seq :: gti_altered_seqs i) ∧
       GTM_CommitTransaction h [] g1 = Returned STATUS_OK g3 ∧
       seq_calls g3 = seq_calls g
         ++ map GTM_SeqRemoveDropped (gti_dropped_seqs i)
         ++ map GTM_SeqRemoveAltered (seq :: gti_altered_seqs i)).
Proof.
  intros t h Hinv Ho.
  assert (Hgen : ∀ f,
    (∀ i, gti_in_use (f i) = gti_in_use i ∧ gti_handle (f i) = gti_handle i ∧
          gti_gid (f i) = gti_gid i) →
    ∃ i, valid_handle t h i ∧ gti_gxid i = x ∧
      ∃ g1 g2 g3, track_sequence x f g = Returned tt g1 ∧
        GTM_RollbackTransaction h g1 = Returned STATUS_OK g2 ∧
        seq_calls g2 = seq_calls g
          ++ clean_seq_calls (set_gti_state GTM_TXN_ABORT_IN_PROGRESS (f i)) ∧
        GTM_CommitTransaction h [] g1 = Returned STATUS_OK g3 ∧
        seq_calls g3 = seq_calls g
          ++ clean_seq_calls (set_gti_state GTM_TXN_COMMIT_IN_PROGRESS (f i))).
  { intros f Hf.
    destruct (track_sequence_open x f g Hinv Ho Hf)
      as (i & Hv & Hx & Htrack & Hinv1 & Hv1 & _).
    fold t h in Hv, Htrack, Hinv1, Hv1. exists i. split; [done|]. split; [done|].
    pose proof (valid_handle_ptr _ _ _ Hv1) as Hptr.
    destruct Hv1 as (Hh & Hi1 & Hu1).
    set (g1 := store_txninfo (Z.to_nat h) f g) in *.
    destruct (remove_one_set_state GTM_TXN_ABORT_IN_PROGRESS _ _ g1 Hinv1 Hi1 Hu1)
      as (_ & _ & _ & _ & Hr & _).
    destruct (remove_one_set_state GTM_TXN_COMMIT_IN_PROGRESS _ _ g1 Hinv1 Hi1 Hu1)
      as (_ & _ & _ & _ & Hc & _).
    eexists g1, _, _. split; [done|]. split.
    { unfold GTM_RollbackTransaction, GTM_RollbackTransactionMulti.
      cbn [rollback_loop]. rewrite Hptr. reflexivity. }
    split; [exact Hr|]. split.
    { unfold GTM_CommitTransaction, GTM_CommitTransactionMulti.
      cbn [commit_loop waited_xid_running existsb]. rewrite Hptr. reflexivity. }
    exact Hc. }
  destruct (Hgen (λ i, set_gti_created_seqs (gti_created_seqs i ++ [seq]) i)
              ltac:(done)) as (i & Hv & Hx & H1).
  destruct (Hgen (λ i, set_gti_dropped_seqs (gti_dropped_seqs i ++ [seq]) i)
              ltac:(done)) as (i2 & Hv2 & _ & H2).
  destruct (Hgen (λ i, set_gti_altered_seqs (seq :: gti_altered_seqs i) i)
              ltac:(done)) as (i3 & Hv3 & _ & H3).
  assert (i2 = i) as -> by (destruct Hv as (_ & ? & _), Hv2 as (_ & ? & _); congruence).
  assert (i3 = i) as -> by (destruct Hv as (_ & ? & _), Hv3 as (_ & ? & _); congruence).
  exists i. split; [done|]. split; [done|].
  split_and!; [exact H1|exact H2|exact H3].
Qed.

Lemma set_gti_created_seqs_id i :
  set_gti_created_seqs (gti_created_seqs i) i = i.
Proof. destruct i. reflexivity. Qed.

Lemma gtm_list_delete_seq_app_fresh (l : list Z) seq :
  seq ∉ l → gtm_list_delete_seq (l ++ [seq]) seq = l.
Proof.
  induction l as [|c l IH]; intros Hn; simpl.
  - rewrite decide_True; done.
  - rewrite decide_False.
    + rewrite IH; [done|]. intros H. apply Hn. by apply elem_of_cons; right.
    + intros ->. apply Hn. by apply elem_of_cons; left.
Qed.

(** X14. [GTM_ForgetCreatedSequence] undoes
    [GTM_RememberCreatedSequence]: for a sequence the open transaction
    did not track yet, remembering it and then forgetting it leaves
    every slot as it was, so that the end of the transaction makes no
    call for it. *)
Theorem GTM_ForgetCreatedSequence_undoes (x : GlobalTransactionId) (seq : Z)
    (g : GTM_Globals) (i : GTM_TransactionInfo) :
  let t := GTMTransactions g in
  table_inv t → gxid_open t x →
  valid_handle t (GTM_GXIDToHandle t x) i → seq ∉ gti_created_seqs i →
  ∃ g1 g2,
    GTM_RememberCreatedSequence x seq g = Returned tt g1 ∧
    txninfo_at (GTMTransactions g1) (Z.to_nat (GTM_GXIDToHandle t x))
      = Some (set_gti_created_seqs (gti_created_seqs i ++ [seq]) i) ∧
    (∃ j, txninfo_at (GTMTransactions g1) (Z.to_nat (GTM_GXIDToHandle t x)) = Some j ∧
          gti_created_seqs j = gti_created_seqs i ++ [seq] ∧
          gti_dropped_seqs j = gti_dropped_seqs i ∧
          gti_altered_seqs j = gti_altered_seqs i ∧
          gti_in_use j = true ∧ gti_gxid j = gti_gxid i ∧
          gti_state j = gti_state i) ∧
    GTM_ForgetCreatedSequence x seq g1 = Returned tt g2 ∧
    (∀ q, txninfo_at (GTMTransactions g2) q = txninfo_at t q) ∧
    gt_open_transactions (GTMTransactions g2) = gt_open_transactions t ∧
    seq_calls g2 = seq_calls g.
Proof.
  intros t Hinv Ho Hv Hfresh. set (h := GTM_GXIDToHandle t x) in *.
  set (f1 := λ i, set_gti_created_seqs (gti_created_seqs i ++ [seq]) i).
  set (f2 := λ i, set_gti_created_seqs (gtm_list_delete_seq (gti_created_seqs i) seq) i).
  destruct (track_sequence_open x f1 g Hinv Ho ltac:(done))
    as (i' & Hv' & Hx & Htrack & Hinv1 & Hv1 & Hq1).
  fold t h in Hv', Htrack, Hinv1, Hv1, Hq1.
  assert (i' = i) as -> by (destruct Hv as (_ & ? & _), Hv' as (_ & ? & _); congruence).
  set (g1 := store_txninfo (Z.to_nat h) f1 g) in *.
  (* the GXID is found at the same handle in [g1] *)
  assert (Hsame : GTM_GXIDToHandle (GTMTransactions g1) x = h).
  { unfold h, GTM_GXIDToHandle, GTM_GXIDToHandle_Internal, open_find, g1. simpl.
    destruct (negb (GlobalTransactionIdIsValid x)); [done|].
    pose proof (gtm_foreach_find_alter (λ i, GlobalTransactionIdEquals (gti_gxid i) x)
                  f1 (gt_transactions_array t) (Z.to_nat (GTM_GXIDToHandle_Internal t x))
                  (gt_open_transactions t) (λ i, conj eq_refl eq_refl)) as H.
    fold t.
    destruct (gtm_foreach_find _ (alter _ _ _) _), (gtm_foreach_find _ _ _);
      simpl in H; try done.
    by injection H as ->. }
  pose proof (valid_handle_ptr _ _ _ Hv1) as Hptr.
  destruct Hv as (Hh & Hi & Hu). destruct Hv1 as (_ & Hi1 & _).
  exists g1, (store_txninfo (Z.to_nat h) f2 g1). split; [done|]. split; [done|].
  split.
  { exists (f1 i). split; [done|]. done. }
  split.
  { unfold GTM_ForgetCreatedSequence, track_sequence. rewrite Hsame.
    assert ((h =? InvalidTransactionHandle) = false) as ->.
    { apply Z.eqb_neq. unfold InvalidTransactionHandle. lia. }
    rewrite Hptr. done. }
  split; [|done].
  intros q. unfold txninfo_at. rewrite array_store.
  destruct (decide (Z.to_nat h = q)) as [<-|Hne].
  - unfold txninfo_at in Hi1, Hi. rewrite Hi1, Hi. simpl. f_equal.
    unfold f2, f1. simpl. rewrite gtm_list_delete_seq_app_fresh by done.
    destruct i. reflexivity.
  - apply Hq1. done.
Qed.

(** X15. For a GXID that no open transaction carries (the invalid GXID
    among them) the four functions that track a sequence return at once
    and leave the globals as they are. *)
Theorem GTM_Remember_sequence_not_open (x : GlobalTransactionId) (seq : Z)
    (g : GTM_Globals) :
  table_wf (GTMTransactions g) → ¬ gxid_open (GTMTransactions g) x →
  GTM_RememberCreatedSequence x seq g = Returned tt g ∧
  GTM_ForgetCreatedSequence x seq g = Returned tt g ∧
  GTM_RememberDroppedSequence x seq g = Returned tt g ∧
  GTM_RememberAlteredSequence x seq g = Returned tt g.
Proof.
  intros Hwf Hn.
  split_and!; apply track_sequence_not_open; done.
Qed.

End Sequences.

(** One transaction with GXID 3 is open; it remembers sequence 42 as
    created and is rolled back: the sequence module is asked to remove
    sequence 42. *)
Lemma GTM_Remember_sequence_finish_witness :
  table_inv (cfg := small)
    (GTMTransactions (run_small [begin_on "S1"; ReqGetGXID false [0]])) ∧
  gxid_open (GTMTransactions (run_small [begin_on "S1"; ReqGetGXID false [0]])) 3 ∧
  ∃ g1 g2,
    GTM_RememberCreatedSequence (cfg := small) 3 42
      (run_small [begin_on "S1"; ReqGetGXID false [0]]) = Returned tt g1 ∧
    GTM_RollbackTransaction (cfg := small) 0 g1 = Returned STATUS_OK g2 ∧
    seq_calls g2 = [GTM_SeqRemoveCreated 42].
Proof.
  assert (Hinv : table_inv (cfg := small)
            (GTMTransactions (run_small [begin_on "S1"; ReqGetGXID false [0]]))).
  { apply (reachable_table_inv (cfg := small)); [done|].
    apply reachable_run_small. vm_compute. reflexivity. }
  assert (Ho : gxid_open
            (GTMTransactions (run_small [begin_on "S1"; ReqGetGXID false [0]])) 3).
  { apply (GTM_IsGXIDInProgress_spec (cfg := small)); [apply Hinv|].
    vm_compute. reflexivity. }
  assert (Hh : GTM_GXIDToHandle
            (GTMTransactions (run_small [begin_on "S1"; ReqGetGXID false [0]])) 3 = 0).
  { vm_compute. reflexivity. }
  split; [exact Hinv|]. split; [exact Ho|].
  destruct (GTM_Remember_sequence_finish (cfg := small) 3 42 _ Hinv Ho)
    as (i & Hv & _ & (g1 & g2 & g3 & Hrem & Hroll & Hcalls & _) & _).
  rewrite Hh in Hv, Hroll.
  destruct Hv as (_ & Hi & _). vm_compute in Hi. injection Hi as <-.
  exists g1, g2. split; [exact Hrem|]. split; [exact Hroll|].
  rewrite Hcalls. vm_compute. reflexivity.
Defined.

Lemma GTM_ForgetCreatedSequence_undoes_witness :
  table_inv (cfg := small)
    (GTMTransactions (run_small [begin_on "S1"; ReqGetGXID false [0]])) ∧
  gxid_open (GTMTransactions (run_small [begin_on "S1"; ReqGetGXID false [0]])) 3 ∧
  valid_handle (cfg := small)
    (GTMTransactions (run_small [begin_on "S1"; ReqGetGXID false [0]]))
    (GTM_GXIDToHandle
       (GTMTransactions (run_small [begin_on "S1"; ReqGetGXID false [0]])) 3)
    (set_gti_gxid 3 slot_S1) ∧
  (42 ∉ gti_created_seqs (set_gti_gxid 3 slot_S1)) ∧
  ∃ g1 g2,
    GTM_RememberCreatedSequence (cfg := small) 3 42
      (run_small [begin_on "S1"; ReqGetGXID false [0]]) = Returned tt g1 ∧
    GTM_ForgetCreatedSequence (cfg := small) 3 42 g1 = Returned tt g2 ∧
    txninfo_at (GTMTransactions g2) 0 = Some (set_gti_gxid 3 slot_S1).
Proof.
  assert (Hinv : table_inv (cfg := small)
            (GTMTransactions (run_small [begin_on "S1"; ReqGetGXID false [0]]))).
  { apply (reachable_table_inv (cfg := small)); [done|].
    apply reachable_run_small. vm_compute. reflexivity. }
  assert (Ho : gxid_open
            (GTMTransactions (run_small [begin_on "S1"; ReqGetGXID false [0]])) 3).
  { apply (GTM_IsGXIDInProgress_spec (cfg := small)); [apply Hinv|].
    vm_compute. reflexivity. }
  assert (Hh : GTM_GXIDToHandle
            (GTMTransactions (run_small [begin_on "S1"; ReqGetGXID false [0]])) 3 = 0).
  { vm_compute. reflexivity. }
  assert (Hv : valid_handle (cfg := small)
    (GTMTransactions (run_small [begin_on "S1"; ReqGetGXID false [0]]))
    (GTM_GXIDToHandle
       (GTMTransactions (run_small [begin_on "S1"; ReqGetGXID false [0]])) 3)
    (set_gti_gxid 3 slot_S1)).
  { rewrite Hh. split_and!; [cbn; lia|cbn; lia|vm_compute; reflexivity|reflexivity]. }
  assert (Hfresh : 42 ∉ gti_created_seqs (set_gti_gxid 3 slot_S1)).
  { apply not_elem_of_nil. }
  split; [exact Hinv|]. split; [exact Ho|]. split; [exact Hv|]. split; [exact Hfresh|].
  destruct (GTM_ForgetCreatedSequence_undoes (cfg := small) 3 42 _ _ Hinv Ho Hv Hfresh)
    as (g1 & g2 & Hrem & _ & _ & Hforget & Hslots & _).
  exists g1, g2. split; [exact Hrem|]. split; [exact Hforget|].
  rewrite Hslots. vm_compute. reflexivity.
Defined.

Lemma GTM_Remember_sequence_not_open_witness :
  table_wf (cfg := small)
    (GTMTransactions (run_small [begin_on "S1"; ReqGetGXID false [0]])) ∧
  ¬ gxid_open (GTMTransactions (run_small [begin_on "S1"; ReqGetGXID false [0]])) 9 ∧
  GTM_RememberCreatedSequence (cfg := small) 9 42
    (run_small [begin_on "S1"; ReqGetGXID false [0]])
  = Returned tt (run_small [begin_on "S1"; ReqGetGXID false [0]]).
Proof.
  assert (Hwf : table_wf (cfg := small)
            (GTMTransactions (run_small [begin_on "S1"; ReqGetGXID false [0]]))).
  { apply table_wf_run_small. vm_compute. reflexivity. }
  assert (Hn : ¬ gxid_open
            (GTMTransactions (run_small [begin_on "S1"; ReqGetGXID false [0]])) 9).
  { intros Ho. apply (GTM_IsGXIDInProgress_spec (cfg := small)) in Ho; [|exact Hwf].
    vm_compute in Ho. discriminate Ho. }
  split; [exact Hwf|]. split; [exact Hn|].
  exact (proj1 (GTM_Remember_sequence_not_open (cfg := small) 9 42 _ Hwf Hn)).
Defined.

(** ** The GXID generator *)

Section Generator.
Context `{cfg : GTM_Config}.

Implicit Types (g : GTM_Globals) (t : GTM_Transactions) (p q : nat)
  (i j : GTM_TransactionInfo).

Lemma assign_gxids_assigned hs : ∀ g xid gx nh,
  Forall (λ h, ∃ i, valid_handle (GTMTransactions g) h i ∧
                    gti_gxid i ≠ InvalidGlobalTransactionId) hs →
  ∃ gx', assign_gxids hs g xid gx nh = Returned (xid, gx ++ gx', nh) g ∧
    Forall2 (λ h x, ∃ i, valid_handle (GTMTransactions g) h i ∧ gti_gxid i = x) hs gx'.
Proof.
  induction hs as [|h hs IH]; intros g xid gx nh Hall.
  { exists []. rewrite app_nil_r. split; [done|constructor]. }
  apply Forall_cons in Hall as [(i & Hv & Hx) Hall].
  destruct (IH g xid (gx ++ [gti_gxid i]) nh Hall) as (gx' & Hrun & Hall2).
  exists (gti_gxid i :: gx'). split.
  - cbn [assign_gxids]. rewrite (valid_handle_ptr _ _ _ Hv).
    destruct Hv as (_ & Hi & _). unfold txninfo_at in Hi. rewrite Hi.
    assert (GlobalTransactionIdIsValid (gti_gxid i) = true) as ->.
    { unfold GlobalTransactionIdIsValid. apply negb_true_iff, Z.eqb_neq. done. }
    rewrite Hrun, <- app_assoc. done.
  - constructor; [|done]. exists i. done.
Qed.

(** X16. Asking again for the GXID of transactions that have one
    returns the GXIDs they carry, in the order of the handles, reports
    no new handle and leaves the table, the control GXID and the
    control file as they are. *)
Theorem GTM_GetGlobalTransactionIdMulti_assigned
    (hs : list GTM_TransactionHandle) (g : GTM_Globals) :
  let t := GTMTransactions g in
  gt_gtm_state t ≠ GTM_SHUTTING_DOWN →
  Forall (λ h, ∃ i, valid_handle t h i ∧ gti_gxid i ≠ InvalidGlobalTransactionId) hs →
  ∃ gxids g',
    GTM_GetGlobalTransactionIdMulti false hs g = Returned (gxids, []) g' ∧
    Forall2 (λ h x, ∃ i, valid_handle t h i ∧ gti_gxid i = x) hs gxids ∧
    GTMTransactions g' = t ∧ ControlXid g' = ControlXid g ∧
    control_file g' = control_file g ∧ seq_calls g' = seq_calls g.
Proof.
  intros t Hst Hall.
  destruct (assign_gxids_assigned hs g InvalidGlobalTransactionId [] [] Hall)
    as (gx' & Hrun & Hall2).
  exists gx', (checkpoint_control InvalidGlobalTransactionId true g). split.
  { unfold GTM_GetGlobalTransactionIdMulti. rewrite decide_False by done.
    rewrite Hrun. done. }
  split; [done|]. split; [apply GTMTransactions_checkpoint_control|].
  unfold checkpoint_control, save_control_due. simpl.
  destruct (GTM_NeedXidRestoreUpdate g); done.
Qed.

Lemma assign_gxids_fresh hs : ∀ g xid gx nh,
  gt_xidVacLimit (GTMTransactions g) = InvalidGlobalTransactionId →
  NoDup hs →
  Forall (λ h, ∃ i, valid_handle (GTMTransactions g) h i ∧
                    gti_gxid i = InvalidGlobalTransactionId ∧ gti_handle i = h) hs →
  ∃ xid' g',
    assign_gxids hs g xid gx nh
      = Returned (xid', gx ++ consecutive_gxids (gt_nextXid (GTMTransactions g)) (length hs),
                  nh ++ hs) g' ∧
    gt_nextXid (GTMTransactions g')
      = Nat.iter (length hs) GlobalTransactionIdAdvance (gt_nextXid (GTMTransactions g)) ∧
    gt_open_transactions (GTMTransactions g') = gt_open_transactions (GTMTransactions g) ∧
    gt_lastslot (GTMTransactions g') = gt_lastslot (GTMTransactions g) ∧
    length (gt_transactions_array (GTMTransactions g'))
      = length (gt_transactions_array (GTMTransactions g)) ∧
    (∀ k h, hs !! k = Some h →
       ∃ i x, txninfo_at (GTMTransactions g) (Z.to_nat h) = Some i ∧
              consecutive_gxids (gt_nextXid (GTMTransactions g)) (length hs) !! k = Some x ∧
              txninfo_at (GTMTransactions g') (Z.to_nat h) = Some (set_gti_gxid x i)) ∧
    (∀ q, (∀ h, h ∈ hs → q ≠ Z.to_nat h) →
          txninfo_at (GTMTransactions g') q = txninfo_at (GTMTransactions g) q).
Proof.
  induction hs as [|h hs IH]; intros g xid gx nh Hvac Hnd Hall.
  { exists xid, g. rewrite !app_nil_r. split; [done|]. split_and!; done. }
  apply NoDup_cons in Hnd as [Hnin Hnd].
  apply Forall_cons in Hall as [(i & Hv & Hx & Hhd) Hall].
  pose proof (valid_handle_ptr _ _ _ Hv) as Hptr.
  destruct Hv as (Hh & Hi & Hu).
  set (x := gt_nextXid (GTMTransactions g)).
  set (g1 := set_GTMTransactions
               (set_gt_nextXid (GlobalTransactionIdAdvance x) (GTMTransactions g)) g).
  set (g2 := store_txninfo (Z.to_nat h) (set_gti_gxid x) g1).
  assert (Harr2 : ∀ q, txninfo_at (GTMTransactions g2) q
            = if decide (Z.to_nat h = q) then Some (set_gti_gxid x i)
              else txninfo_at (GTMTransactions g) q).
  { intros q. unfold txninfo_at, g2. rewrite array_store.
    destruct (decide (Z.to_nat h = q)) as [<-|]; [|done].
    unfold txninfo_at in Hi. simpl. rewrite Hi. done. }
  assert (Hall2 : Forall (λ h', ∃ i', valid_handle (GTMTransactions g2) h' i' ∧
             gti_gxid i' = InvalidGlobalTransactionId ∧ gti_handle i' = h') hs).
  { apply Forall_forall. intros h' Hh'.
    rewrite Forall_forall in Hall. destruct (Hall h' Hh') as (i' & (Hr' & Hi' & Hu') & Hx' & Hd').
    exists i'. split; [|done]. split; [done|]. split; [|done].
    rewrite Harr2, decide_False; [done|].
    intros He. apply Hnin. assert (h = h') as -> by lia. done. }
  destruct (IH g2 x (gx ++ [x]) (nh ++ [gti_handle i]) Hvac Hnd Hall2)
    as (xid' & g' & Hrun & Hnext & Hopen & Hls & Hlen & Hslots & Hother).
  exists xid', g'. split.
  { cbn [assign_gxids]. rewrite Hptr. unfold txninfo_at in Hi. rewrite Hi.
    assert (GlobalTransactionIdIsValid (gti_gxid i) = false) as -> by (rewrite Hx; done).
    assert (xid_stop (GTMTransactions g) (gt_nextXid (GTMTransactions g)) = false) as ->.
    { unfold xid_stop. rewrite Hvac. simpl. rewrite andb_false_r. done. }
    fold x. fold g1. fold g2. rewrite Hrun. rewrite Hhd. simpl.
    rewrite <- !app_assoc. done. }
  split.
  { rewrite Hnext. simpl length. rewrite Nat.iter_succ_r. done. }
  split; [by rewrite Hopen|]. split; [by rewrite Hls|].
  split.
  { rewrite Hlen. unfold g2. rewrite length_store. done. }
  split.
  - intros [|k] h' Hk; simpl in Hk.
    + injection Hk as <-. exists i, x. split; [done|]. split; [done|].
      rewrite Hother.
      * rewrite Harr2, decide_True; done.
      * intros h' Hh' He. apply Hnin. assert (h = h') as -> by
          (rewrite Forall_forall in Hall2;
           destruct (Hall2 h' Hh') as (? & ((? & ?) & _) & _); lia).
        done.
    + destruct (Hslots k h' Hk) as (i' & x' & Hi' & Hx' & Hs').
      exists i', x'. split; [|done].
      rewrite Harr2, decide_False in Hi'; [done|].
      intros He. apply Hnin. apply list_elem_of_lookup_2 in Hk.
      assert (h = h') as -> by
        (rewrite Forall_forall in Hall2;
         destruct (Hall2 h' Hk) as (? & ((? & ?) & _) & _); lia).
      done.
  - intros q Hq. rewrite Hother.
    + rewrite Harr2, decide_False; [done|].
      intros <-. apply (Hq h); [|done]. apply elem_of_cons. by left.
    + intros h' Hh'. apply Hq. apply elem_of_cons. by right.
Qed.

(** X17. A batch of distinct transactions without GXID gets consecutive
    GXIDs: the first handle gets the next GXID of the generator, each
    further handle the advance of the one before, in the order of the
    handles; all the handles are reported as new; the generator ends
    advanced once per handle; each slot holds the GXID returned for it,
    no other slot is touched, and the table stays well formed. (The
    wrap-around limits are not armed, as [GTM_InitTxnManager] leaves
    them.) *)
Theorem GTM_GetGlobalTransactionIdMulti_fresh
    (hs : list GTM_TransactionHandle) (g : GTM_Globals) :
  let t := GTMTransactions g in
  table_wf t →
  gt_gtm_state t ≠ GTM_SHUTTING_DOWN →
  gt_xidVacLimit t = InvalidGlobalTransactionId →
  NoDup hs →
  Forall (λ h, ∃ i, valid_handle t h i ∧ gti_gxid i = InvalidGlobalTransactionId) hs →
  ∃ g',
    GTM_GetGlobalTransactionIdMulti false hs g
      = Returned (consecutive_gxids (gt_nextXid t) (length hs), hs) g' ∧
    let t' := GTMTransactions g' in
    gt_nextXid t' = Nat.iter (length hs) GlobalTransactionIdAdvance (gt_nextXid t) ∧
    gt_open_transactions t' = gt_open_transactions t ∧
    (∀ k h, hs !! k = Some h →
       ∃ i x, txninfo_at t (Z.to_nat h) = Some i ∧
              consecutive_gxids (gt_nextXid t) (length hs) !! k = Some x ∧
              txninfo_at t' (Z.to_nat h) = Some (set_gti_gxid x i)) ∧
    (∀ k h, hs !! k = Some h →
       ∃ i x j, txninfo_at t (Z.to_nat h) = Some i ∧
                consecutive_gxids (gt_nextXid t) (length hs) !! k = Some x ∧
                txninfo_at t' (Z.to_nat h) = Some j ∧
                gti_gxid j = x ∧ gti_in_use j = true ∧ gti_handle j = h ∧
                gti_state j = gti_state i ∧ gti_gid j = gti_gid i ∧
                gti_global_session_id j = gti_global_session_id i) ∧
    (∀ q, (∀ h, h ∈ hs → q ≠ Z.to_nat h) → txninfo_at t' q = txninfo_at t q) ∧
    table_wf t'.
Proof.
  intros t Hwf Hst Hvac Hnd Hall.
  assert (Hall' : Forall (λ h, ∃ i, valid_handle t h i ∧
             gti_gxid i = InvalidGlobalTransactionId ∧ gti_handle i = h) hs).
  { eapply Forall_impl; [exact Hall|]. intros h (i & Hv & Hx). exists i.
    split; [done|]. split; [done|]. destruct Hv as (Hh & Hi & Hu).
    destruct (wf_open _ Hwf _ (wf_in_use _ Hwf _ _ Hi Hu)) as (i' & Hi' & _ & Hd).
    assert (i' = i) as -> by congruence. lia. }
  destruct (assign_gxids_fresh hs g InvalidGlobalTransactionId [] [] Hvac Hnd Hall')
    as (xid' & g1 & Hrun & Hnext & Hopen & Hls & Hlen & Hslots & Hother).
  fold t in Hrun, Hnext, Hopen, Hls, Hlen, Hslots, Hother.
  exists (checkpoint_control xid' true g1). split.
  { unfold GTM_GetGlobalTransactionIdMulti. rewrite decide_False by done.
    rewrite Hrun. done. }
  cbv zeta. rewrite GTMTransactions_checkpoint_control.
  split; [done|]. split; [done|]. split; [done|]. split.
  { intros k h Hk. destruct (Hslots k h Hk) as (i & x & Hi & Hx & Hs).
    exists i, x, (set_gti_gxid x i). split; [done|]. split; [done|]. split; [done|].
    rewrite Forall_forall in Hall'.
    destruct (Hall' h (list_elem_of_lookup_2 _ _ _ Hk)) as (i' & (_ & Hi' & Hu') & _ & Hd').
    assert (i' = i) as -> by congruence. done. }
  split; [done|].
  (* the table is well formed *)
  assert (Hkeep : ∀ q j, txninfo_at (GTMTransactions g1) q = Some j →
            ∃ i, txninfo_at t q = Some i ∧ gti_in_use j = gti_in_use i ∧
                 gti_handle j = gti_handle i).
  { intros q j Hj.
    destruct (decide (Z.of_nat q ∈ hs)) as [Hin|Hout].
    - apply list_elem_of_lookup_1 in Hin as (k & Hk).
      destruct (Hslots k _ Hk) as (i & x & Hi & _ & Hs).
      rewrite Nat2Z.id in Hi, Hs. exists i. split; [done|].
      assert (j = set_gti_gxid x i) as -> by congruence. done.
    - rewrite Hother in Hj.
      + exists j. done.
      + intros h Hh ->. apply Hout.
        rewrite Forall_forall in Hall. destruct (Hall h Hh) as (? & ((? & ?) & _) & _).
        rewrite Z2Nat.id by lia. done. }
  assert (Hkeep' : ∀ q i, txninfo_at t q = Some i →
            ∃ j, txninfo_at (GTMTransactions g1) q = Some j ∧
                 gti_in_use j = gti_in_use i ∧ gti_handle j = gti_handle i).
  { intros q i Hi.
    destruct (decide (Z.of_nat q ∈ hs)) as [Hin|Hout].
    - apply list_elem_of_lookup_1 in Hin as (k & Hk).
      destruct (Hslots k _ Hk) as (i' & x & Hi' & _ & Hs).
      rewrite Nat2Z.id in Hi', Hs. assert (i' = i) as -> by congruence.
      eexists. split; [exact Hs|]. done.
    - exists i. split; [|done]. rewrite Hother; [done|].
      intros h Hh ->. apply Hout.
      rewrite Forall_forall in Hall. destruct (Hall h Hh) as (? & ((? & ?) & _) & _).
      rewrite Z2Nat.id by lia. done. }
  destruct Hwf as [H1 H2 H3 H4 H5]. split.
  - rewrite Hlen. done.
  - rewrite Hls. done.
  - rewrite Hopen. done.
  - intros q Hq. rewrite Hopen in Hq. destruct (H4 q Hq) as (i & Hi & Hu & Hd).
    destruct (Hkeep' q i Hi) as (j & Hj & Hu' & Hd'). exists j.
    split; [done|]. split; congruence.
  - intros q j Hj Hu. rewrite Hopen. destruct (Hkeep q j Hj) as (i & Hi & Hu' & _).
    apply (H5 q i Hi). congruence.
Qed.

(** X18. Once [GTM_SetShuttingDown] has been called, the generator
    hands out no GXID: [GTM_GetGlobalTransactionIdMulti] raises an
    error for every batch of handles and leaves the globals as they
    are, so that the next GXID read by
    [GTM_ReadNewGlobalTransactionId] stays what it was before the
    shutdown. *)
Theorem GTM_SetShuttingDown_stops_generator (standby : bool)
    (hs : list GTM_TransactionHandle) (g : GTM_Globals) :
  GTM_GetGlobalTransactionIdMulti standby hs (GTM_SetShuttingDown g)
    = Raised (GTM_SetShuttingDown g) ∧
  leaves (λ g', GTM_ReadNewGlobalTransactionId g' = GTM_ReadNewGlobalTransactionId g)
    (GTM_GetGlobalTransactionIdMulti standby hs (GTM_SetShuttingDown g)).
Proof.
  assert (H : GTM_GetGlobalTransactionIdMulti standby hs (GTM_SetShuttingDown g)
              = Raised (GTM_SetShuttingDown g)).
  { unfold GTM_GetGlobalTransactionIdMulti. destruct standby; [done|].
    rewrite decide_True; done. }
  split; [exact H|]. rewrite H. done.
Qed.

(** X19. At start-up the table is empty and well formed: no handle
    below the size of the array designates a transaction, no GXID,
    session or GID is found, and the generator stands at the first
    normal GXID. *)
Theorem GTM_InitTxnManager_empty :
  0 < GTM_MAX_GLOBAL_TRANSACTIONS →
  let t := GTMTransactions GTM_InitTxnManager in
  table_inv t ∧
  (∀ h, h ≠ GTM_MAX_GLOBAL_TRANSACTIONS → GTM_HandleToTransactionInfo t h = TxnNull) ∧
  (∀ x, GTM_GXIDToHandle t x = InvalidTransactionHandle) ∧
  (∀ sid, GTM_GlobalSessionIDToHandle t sid = InvalidTransactionHandle) ∧
  (∀ gid, GTM_GIDToHandle t gid = InvalidTransactionHandle) ∧
  GTM_ReadNewGlobalTransactionId GTM_InitTxnManager = FirstNormalGlobalTransactionId.
Proof.
  intros HM t. split; [by apply table_inv_init|]. split.
  { intros h Hh. apply GTM_HandleToTransactionInfo_null.
    destruct (Z_lt_ge_dec h 0) as [|Hge]; [by left|].
    destruct (Z_lt_ge_dec GTM_MAX_GLOBAL_TRANSACTIONS h) as [|Hle]; [by right; left|].
    right. right. split; [lia|]. exists zero_txninfo. split; [|done].
    unfold t. simpl. apply lookup_replicate. split; [done|]. lia. }
  split.
  { intros x. unfold GTM_GXIDToHandle, GTM_GXIDToHandle_Internal.
    destruct (negb _); done. }
  split.
  { intros [sid|]; [|done]. unfold GTM_GlobalSessionIDToHandle.
    destruct sid; done. }
  split; [|done].
  intros gid. done.
Qed.

End Generator.

Lemma GTM_GetGlobalTransactionIdMulti_assigned_witness :
  gt_gtm_state (GTMTransactions (run_small [begin_on "S1"; ReqGetGXID false [0]]))
    ≠ GTM_SHUTTING_DOWN ∧
  Forall (λ h, ∃ i,
            valid_handle (cfg := small)
              (GTMTransactions (run_small [begin_on "S1"; ReqGetGXID false [0]])) h i ∧
            gti_gxid i ≠ InvalidGlobalTransactionId) [0] ∧
  ∃ gxids g',
    GTM_GetGlobalTransactionIdMulti (cfg := small) false [0]
      (run_small [begin_on "S1"; ReqGetGXID false [0]]) = Returned (gxids, []) g' ∧
    GTMTransactions g' = GTMTransactions (run_small [begin_on "S1"; ReqGetGXID false [0]]).
Proof.
  assert (Hst : gt_gtm_state (GTMTransactions (run_small [begin_on "S1"; ReqGetGXID false [0]]))
                ≠ GTM_SHUTTING_DOWN).
  { intros H. vm_compute in H. discriminate H. }
  assert (Hall : Forall (λ h, ∃ i,
            valid_handle (cfg := small)
              (GTMTransactions (run_small [begin_on "S1"; ReqGetGXID false [0]])) h i ∧
            gti_gxid i ≠ InvalidGlobalTransactionId) [0]).
  { constructor; [|constructor]. exists (set_gti_gxid 3 slot_S1). split.
    - split_and!; [cbn; lia|cbn; lia|vm_compute; reflexivity|reflexivity].
    - intros H. vm_compute in H. discriminate H. }
  split; [exact Hst|]. split; [exact Hall|].
  destruct (GTM_GetGlobalTransactionIdMulti_assigned (cfg := small) [0] _ Hst Hall)
    as (gxids & g' & Hret & _ & Ht & _).
  exists gxids, g'. split; [exact Hret|exact Ht].
Defined.

(** Two transactions are open without GXID; a batch over the handles
    1 and 0 gives GXID 3 to handle 1 and GXID 4 to handle 0. *)
Lemma GTM_GetGlobalTransactionIdMulti_fresh_witness :
  table_wf (cfg := small) (GTMTransactions (run_small [begin_on "S1"; begin_on "S2"])) ∧
  gt_gtm_state (GTMTransactions (run_small [begin_on "S1"; begin_on "S2"]))
    ≠ GTM_SHUTTING_DOWN ∧
  gt_xidVacLimit (GTMTransactions (run_small [begin_on "S1"; begin_on "S2"]))
    = InvalidGlobalTransactionId ∧
  NoDup [1; 0] ∧
  Forall (λ h, ∃ i,
            valid_handle (cfg := small)
              (GTMTransactions (run_small [begin_on "S1"; begin_on "S2"])) h i ∧
            gti_gxid i = InvalidGlobalTransactionId) [1; 0] ∧
  ∃ g', GTM_GetGlobalTransactionIdMulti (cfg := small) false [1; 0]
          (run_small [begin_on "S1"; begin_on "S2"]) = Returned ([3; 4], [1; 0]) g'.
Proof.
  assert (Hwf : table_wf (cfg := small)
            (GTMTransactions (run_small [begin_on "S1"; begin_on "S2"]))).
  { apply table_wf_run_small. vm_compute. reflexivity. }
  assert (Hst : gt_gtm_state (GTMTransactions (run_small [begin_on "S1"; begin_on "S2"]))
                ≠ GTM_SHUTTING_DOWN).
  { intros H. vm_compute in H. discriminate H. }
  assert (Hvac : gt_xidVacLimit (GTMTransactions (run_small [begin_on "S1"; begin_on "S2"]))
                 = InvalidGlobalTransactionId).
  { vm_compute. reflexivity. }
  assert (Hnd : NoDup [1; 0]).
  { apply NoDup_cons. split; [|apply NoDup_singleton].
    intros H%list_elem_of_singleton. discriminate H. }
  assert (Hall : Forall (λ h, ∃ i,
            valid_handle (cfg := small)
              (GTMTransactions (run_small [begin_on "S1"; begin_on "S2"])) h i ∧
            gti_gxid i = InvalidGlobalTransactionId) [1; 0]).
  { constructor; [|constructor; [|constructor]].
    - exists slot_S2. split; [|reflexivity].
      split_and!; [cbn; lia|cbn; lia|vm_compute; reflexivity|reflexivity].
    - exists slot_S1. split; [|reflexivity].
      split_and!; [cbn; lia|cbn; lia|vm_compute; reflexivity|reflexivity]. }
  split; [exact Hwf|]. split; [exact Hst|]. split; [exact Hvac|].
  split; [exact Hnd|]. split; [exact Hall|].
  destruct (GTM_GetGlobalTransactionIdMulti_fresh (cfg := small) [1; 0] _
              Hwf Hst Hvac Hnd Hall) as (g' & Hret & _).
  exists g'. rewrite Hret. vm_compute. reflexivity.
Defined.

Lemma GTM_InitTxnManager_empty_witness :
  0 < GTM_MAX_GLOBAL_TRANSACTIONS (GTM_Config := small) ∧
  GTM_HandleToTransactionInfo (cfg := small)
    (GTMTransactions (GTM_InitTxnManager (cfg := small))) 2 = TxnNull.
Proof.
  assert (HM : 0 < GTM_MAX_GLOBAL_TRANSACTIONS (GTM_Config := small)) by done.
  split; [exact HM|].
  apply (proj1 (proj2 (GTM_InitTxnManager_empty (cfg := small) HM))).
  cbn. lia.
Defined.

(** ** Commits that wait *)

Section Waiting.
Context `{cfg : GTM_Config}.

Implicit Types (g : GTM_Globals) (t : GTM_Transactions) (p q : nat)
  (i j : GTM_TransactionInfo).

(** X20. A commit that waits for a transaction is delayed until that
    transaction is gone, and then goes through: while the transaction
    that carries [x] is open, the commit of another transaction with
    [x] among its waited GXIDs returns [STATUS_DELAYED] and changes
    nothing; once the transaction that carries [x] has committed, the
    same request returns [STATUS_OK] and the transaction leaves the
    list of open transactions. *)
Theorem GTM_CommitTransaction_retry (h1 h2 : GTM_TransactionHandle)
    (x : GlobalTransactionId) (i1 i2 : GTM_TransactionInfo) (g : GTM_Globals) :
  let t := GTMTransactions g in
  table_inv t →
  valid_handle t h1 i1 → valid_handle t h2 i2 → h1 ≠ h2 →
  gti_gxid i1 = x → x ≠ InvalidGlobalTransactionId →
  (∀ q j, q ∈ gt_open_transactions t → txninfo_at t q = Some j →
          gti_gxid j = x → q = Z.to_nat h1) →
  GTM_CommitTransaction h2 [x] g = Returned STATUS_DELAYED g ∧
  ∃ g1 g2,
    GTM_CommitTransaction h1 [] g = Returned STATUS_OK g1 ∧
    GTM_CommitTransaction h2 [x] g1 = Returned STATUS_OK g2 ∧
    (Z.to_nat h2 ∉ gt_open_transactions (GTMTransactions g2)).
Proof.
  intros t Hinv Hv1 Hv2 Hne Hx Hxv Honly.
  pose proof (valid_handle_ptr _ _ _ Hv1) as Hptr1.
  pose proof (valid_handle_ptr _ _ _ Hv2) as Hptr2.
  destruct Hv1 as (Hh1 & Hi1 & Hu1). destruct Hv2 as (Hh2 & Hi2 & Hu2).
  set (p1 := Z.to_nat h1) in *. set (p2 := Z.to_nat h2) in *.
  assert (Hp : p2 ≠ p1) by (unfold p1, p2; lia).
  assert (Hrun : waited_xid_running t [x] = true).
  { apply waited_xid_running_spec; [apply Hinv|]. exists x.
    split; [apply list_elem_of_singleton; done|]. split; [done|].
    exists p1, i1. split; [|done].
    destruct Hinv as [Hwf _]. by apply (wf_in_use _ Hwf p1 i1). }
  split.
  { unfold GTM_CommitTransaction, GTM_CommitTransactionMulti.
    cbn [commit_loop]. fold t. rewrite Hptr2, Hrun. reflexivity. }
  destruct (remove_one_set_state GTM_TXN_COMMIT_IN_PROGRESS p1 i1 g Hinv Hi1 Hu1)
    as (Ho1 & _ & _ & Hoth1 & _ & _ & Hinv1 & _).
  set (g1 := remove_one p1 (store_txninfo p1 (set_gti_state GTM_TXN_COMMIT_IN_PROGRESS) g))
    in *.
  assert (Hi2' : txninfo_at (GTMTransactions g1) p2 = Some i2).
  { rewrite Hoth1; done. }
  assert (Hptr2' : GTM_HandleToTransactionInfo (GTMTransactions g1) h2 = TxnPtr p2).
  { apply (valid_handle_ptr _ _ i2). split; [done|]. split; done. }
  assert (Hrun1 : waited_xid_running (GTMTransactions g1) [x] = false).
  { apply not_true_is_false. intros H.
    apply waited_xid_running_spec in H as (x' & ->%list_elem_of_singleton & _ & q & j & Hq & Hj & Hg);
      [|apply Hinv1].
    rewrite Ho1 in Hq. apply elem_of_gtm_list_delete in Hq as [Hq Hq1].
    2: { destruct Hinv as [[_ _ Hnd _ _] _]. done. }
    rewrite Hoth1 in Hj by done. apply Hq1. by apply (Honly q j). }
  destruct (remove_one_set_state GTM_TXN_COMMIT_IN_PROGRESS p2 i2 g1 Hinv1 Hi2' Hu2)
    as (_ & Hout & _).
  eexists g1, _. split.
  { unfold GTM_CommitTransaction, GTM_CommitTransactionMulti.
    cbn [commit_loop waited_xid_running existsb]. fold t. rewrite Hptr1. reflexivity. }
  split.
  { unfold GTM_CommitTransaction, GTM_CommitTransactionMulti.
    cbn [commit_loop]. rewrite Hptr2', Hrun1. reflexivity. }
  exact Hout.
Qed.

End Waiting.

(** The transactions 0 and 1 carry the GXIDs 3 and 4; the commit of
    transaction 1 waits for GXID 3. *)
Lemma GTM_CommitTransaction_retry_witness :
  table_inv (cfg := small)
    (GTMTransactions (run_small [begin_on "S1"; begin_on "S2"; ReqGetGXID false [0; 1]])) ∧
  valid_handle (cfg := small)
    (GTMTransactions (run_small [begin_on "S1"; begin_on "S2"; ReqGetGXID false [0; 1]]))
    0 (set_gti_gxid 3 slot_S1) ∧
  valid_handle (cfg := small)
    (GTMTransactions (run_small [begin_on "S1"; begin_on "S2"; ReqGetGXID false [0; 1]]))
    1 (set_gti_gxid 4 slot_S2) ∧
  GTM_CommitTransaction (cfg := small) 1 [3]
    (run_small [begin_on "S1"; begin_on "S2"; ReqGetGXID false [0; 1]])
  = Returned STATUS_DELAYED
      (run_small [begin_on "S1"; begin_on "S2"; ReqGetGXID false [0; 1]]) ∧
  ∃ g1 g2,
    GTM_CommitTransaction (cfg := small) 0 []
      (run_small [begin_on "S1"; begin_on "S2"; ReqGetGXID false [0; 1]])
    = Returned STATUS_OK g1 ∧
    GTM_CommitTransaction (cfg := small) 1 [3] g1 = Returned STATUS_OK g2.
Proof.
  assert (Hinv : table_inv (cfg := small)
    (GTMTransactions (run_small [begin_on "S1"; begin_on "S2"; ReqGetGXID false [0; 1]]))).
  { apply (reachable_table_inv (cfg := small)); [done|].
    apply reachable_run_small. vm_compute. reflexivity. }
  assert (Hv1 : valid_handle (cfg := small)
    (GTMTransactions (run_small [begin_on "S1"; begin_on "S2"; ReqGetGXID false [0; 1]]))
    0 (set_gti_gxid 3 slot_S1)).
  { split_and!; [cbn; lia|cbn; lia|vm_compute; reflexivity|reflexivity]. }
  assert (Hv2 : valid_handle (cfg := small)
    (GTMTransactions (run_small [begin_on "S1"; begin_on "S2"; ReqGetGXID false [0; 1]]))
    1 (set_gti_gxid 4 slot_S2)).
  { split_and!; [cbn; lia|cbn; lia|vm_compute; reflexivity|reflexivity]. }
  assert (Hopen : gt_open_transactions
    (GTMTransactions (run_small [begin_on "S1"; begin_on "S2"; ReqGetGXID false [0; 1]]))
    = [0%nat; 1%nat]) by (vm_compute; reflexivity).
  assert (Honly : ∀ q j,
    q ∈ gt_open_transactions
          (GTMTransactions (run_small [begin_on "S1"; begin_on "S2"; ReqGetGXID false [0; 1]])) →
    txninfo_at
      (GTMTransactions (run_small [begin_on "S1"; begin_on "S2"; ReqGetGXID false [0; 1]])) q
      = Some j →
    gti_gxid j = 3 → q = Z.to_nat 0).
  { intros q j Hq Hj Hg. rewrite Hopen in Hq.
    apply elem_of_cons in Hq as [->|Hq]; [reflexivity|].
    apply list_elem_of_singleton in Hq as ->.
    vm_compute in Hj. injection Hj as <-. vm_compute in Hg. discriminate Hg. }
  split; [exact Hinv|]. split; [exact Hv1|]. split; [exact Hv2|].
  destruct (GTM_CommitTransaction_retry (cfg := small) 0 1 3 _ _ _ Hinv Hv1 Hv2
              ltac:(discriminate) eq_refl ltac:(discriminate) Honly)
    as (Hdelay & g1 & g2 & Hc1 & Hc2 & _).
  split; [exact Hdelay|]. exists g1, g2. split; [exact Hc1|exact Hc2].
Defined.

(** ** Batches of begins *)

Section Batch.
Context `{cfg : GTM_Config}.

Implicit Types (g : GTM_Globals) (t : GTM_Transactions) (p q : nat)
  (i j : GTM_TransactionInfo).

Lemma begin_loop_handles c reqs : ∀ g txns0 txns g',
  0 < GTM_MAX_GLOBAL_TRANSACTIONS →
  table_inv (GTMTransactions g) →
  begin_loop c reqs g txns0 = Returned txns g' →
  ∃ new, txns = txns0 ++ new ∧
    Forall2 (λ r h, ∃ i, valid_handle (GTMTransactions g') h i ∧
               ∀ sid, br_global_sessionid r = Some sid → sid ≠ "" →
                      (String.length sid < GTM_MAX_SESSION_ID_LEN)%nat →
                      gti_global_session_id i = sid) reqs new ∧
    (∀ q i, txninfo_at (GTMTransactions g) q = Some i → gti_in_use i = true →
            txninfo_at (GTMTransactions g') q = Some i) ∧
    table_inv (GTMTransactions g').
Proof.
  induction reqs as [|r reqs IH]; intros g txns0 txns g' HM Hinv Hrun.
  { simpl in Hrun. injection Hrun as <- <-. exists []. rewrite app_nil_r.
    split; [done|]. split; [constructor|]. done. }
  cbn [begin_loop] in Hrun.
  destruct (negb _) eqn:Hhit.
  - (* the session has an open transaction *)
    set (txn := GTM_GlobalSessionIDToHandle (GTMTransactions g) (br_global_sessionid r)) in *.
    destruct (GTM_HandleToTransactionInfo _ txn) as [|p|] eqn:Hptr; [done| |done].
    destruct (IH _ _ _ _ HM Hinv Hrun) as (new & -> & Hall & Hkeep & Hinv').
    exists (txn :: new). split; [by rewrite <- app_assoc|]. split; [|done].
    constructor; [|done].
    apply GTM_HandleToTransactionInfo_ptr in Hptr as (Hr & -> & i & Hi & Hu).
    exists i. split.
    + split; [|split; [by apply Hkeep|done]].
      apply lookup_lt_Some in Hi. destruct Hinv as [Hwf _].
      pose proof (wf_length _ Hwf). lia.
    + intros sid Hsid Hne Hlen.
      destruct (GTM_GlobalSessionIDToHandle_spec (GTMTransactions g) sid (proj1 Hinv) Hne)
        as [[Hmiss _]|(p' & i' & Hh & _ & Hi' & _ & Hs & _)].
      * apply negb_true_iff, Z.eqb_neq in Hhit. unfold txn in Hhit.
        rewrite Hsid in Hhit. done.
      * unfold txn in Hi. rewrite Hsid, Hh, Nat2Z.id in Hi. congruence.
  - (* a free slot is claimed *)
    destruct (find_free_slot (GTMTransactions g)) as [ii| | |] eqn:Hscan; [|done..].
    apply scan_slots_found in Hscan as (Hii & i & Hi & Hu); [|done|].
    2: { apply startslot_nonneg. destruct Hinv as [[_ [? _] _ _ _] _]. done. }
    assert (Hinv1 : table_inv (GTMTransactions (claim_slot c r ii g))).
    { by eapply table_inv_claim_slot. }
    destruct (IH _ _ _ _ HM Hinv1 Hrun) as (new & -> & Hall & Hkeep & Hinv').
    exists (ii :: new). split; [by rewrite <- app_assoc|].
    assert (Harr : ∀ q, txninfo_at (GTMTransactions (claim_slot c r ii g)) q
              = if decide (Z.to_nat ii = q)
                then Some (GTM_TransactionInfo_Init i ii (br_isolevel r) c (br_connid r)
                             (br_global_sessionid r) (br_readonly r))
                else txninfo_at (GTMTransactions g) q).
    { intros q. unfold txninfo_at, claim_slot. simpl. rewrite list_lookup_alter.
      destruct (decide (Z.to_nat ii = q)) as [<-|]; [|done]. rewrite Hi. done. }
    split; [|split; [|done]].
    + constructor; [|done].
      exists (GTM_TransactionInfo_Init i ii (br_isolevel r) c (br_connid r)
                (br_global_sessionid r) (br_readonly r)).
      split.
      * split; [|split; [|done]].
        -- apply lookup_lt_Some in Hi. destruct Hinv as [Hwf _].
           pose proof (wf_length _ Hwf). lia.
        -- apply Hkeep; [|done]. rewrite Harr, decide_True; done.
      * intros sid Hsid Hne Hlen. simpl. rewrite Hsid. apply strncpy_short. lia.
    + intros q j Hj Huj. apply Hkeep; [|done]. rewrite Harr, decide_False; [done|].
      intros <-. unfold txninfo_at in Hj. congruence.
Qed.

(** X21. A batch of begins that returns gives one handle per request,
    in the order of the requests. Every handle designates a slot in use
    at the end of the batch, and for a request on a named session (not
    empty, fitting the buffer) that slot belongs to the session. The
    transactions that were open before the batch are left as they were,
    and the invariant of the table holds afterwards. *)
Theorem GTM_BeginTransactionMulti_handles (c : Z) (reqs : list begin_request)
    (g g' : GTM_Globals) (txns : list GTM_TransactionHandle) :
  0 < GTM_MAX_GLOBAL_TRANSACTIONS →
  table_inv (GTMTransactions g) →
  GTM_BeginTransactionMulti c reqs g = Returned txns g' →
  length txns = length reqs ∧
  Forall2 (λ r h, ∃ i, valid_handle (GTMTransactions g') h i ∧
             ∀ sid, br_global_sessionid r = Some sid → sid ≠ "" →
                    (String.length sid < GTM_MAX_SESSION_ID_LEN)%nat →
                    gti_global_session_id i = sid) reqs txns ∧
  (∀ q i, txninfo_at (GTMTransactions g) q = Some i → gti_in_use i = true →
          txninfo_at (GTMTransactions g') q = Some i) ∧
  table_inv (GTMTransactions g').
Proof.
  intros HM Hinv Hrun. unfold GTM_BeginTransactionMulti in Hrun.
  destruct (begin_loop_handles c reqs g [] txns g' HM Hinv Hrun)
    as (new & -> & Hall & Hkeep & Hinv').
  split; [|done]. symmetry. by eapply Forall2_length.
Qed.

End Batch.

(** One transaction is open on session "S1"; a batch asks for the
    sessions "S2", "S1" and "S3": it gets the handles 1, 0 and 2. *)
Lemma GTM_BeginTransactionMulti_handles_witness :
  0 < GTM_MAX_GLOBAL_TRANSACTIONS (GTM_Config := small) ∧
  table_inv (cfg := small) (GTMTransactions (run_small [begin_on "S1"])) ∧
  ∃ g',
    GTM_BeginTransactionMulti (cfg := small) 7
      [{| br_isolevel := 2; br_readonly := false;
          br_global_sessionid := Some "S2"; br_connid := -1 |};
       {| br_isolevel := 2; br_readonly := false;
          br_global_sessionid := Some "S1"; br_connid := -1 |};
       {| br_isolevel := 2; br_readonly := true;
          br_global_sessionid := Some "S3"; br_connid := -1 |}]
      (run_small [begin_on "S1"]) = Returned [1; 0; 2] g' ∧
    table_inv (cfg := small) (GTMTransactions g').
Proof.
  assert (HM : 0 < GTM_MAX_GLOBAL_TRANSACTIONS (GTM_Config := small)) by done.
  assert (Hinv : table_inv (cfg := small) (GTMTransactions (run_small [begin_on "S1"]))).
  { apply (reachable_table_inv (cfg := small)); [done|].
    apply reachable_run_small. vm_compute. reflexivity. }
  split; [exact HM|]. split; [exact Hinv|].
  assert (Hrun : ∃ txns g',
    GTM_BeginTransactionMulti (cfg := small) 7
      [{| br_isolevel := 2; br_readonly := false;
          br_global_sessionid := Some "S2"; br_connid := -1 |};
       {| br_isolevel := 2; br_readonly := false;
          br_global_sessionid := Some "S1"; br_connid := -1 |};
       {| br_isolevel := 2; br_readonly := true;
          br_global_sessionid := Some "S3"; br_connid := -1 |}]
      (run_small [begin_on "S1"]) = Returned txns g' ∧ txns = [1; 0; 2]).
  { eexists _, _. split; [vm_compute; reflexivity|reflexivity]. }
  destruct Hrun as (txns & g' & Hrun & ->).
  exists g'. split; [exact Hrun|].
  exact (proj2 (proj2 (proj2
           (GTM_BeginTransactionMulti_handles (cfg := small) 7 _ _ _ _ HM Hinv Hrun)))).
Defined.

(** ** The reaper and the tracked sequences *)

Section Reaper.
Context `{cfg : GTM_Config}.

Implicit Types (g : GTM_Globals) (t : GTM_Transactions) (p q : nat)
  (i j : GTM_TransactionInfo).

Lemma seq_calls_clean p g i :
  gt_transactions_array (GTMTransactions g) !! p = Some i →
  seq_calls (GTM_TransactionInfo_Clean p g) = seq_calls g ++ clean_seq_calls i.
Proof. intros Hi. unfold GTM_TransactionInfo_Clean. rewrite Hi. done. Qed.

Lemma seq_calls_update_latest i g :
  seq_calls (update_latestCompletedXid i g) = seq_calls g.
Proof. unfold update_latestCompletedXid. destruct (_ && _); done. Qed.

Lemma reap_cells_seq_calls c b cells : ∀ g kept g',
  (∀ p i, p ∈ cells → gt_transactions_array (GTMTransactions g) !! p = Some i →
          gti_state i ≠ GTM_TXN_ABORT_IN_PROGRESS ∧
          gti_state i ≠ GTM_TXN_COMMIT_IN_PROGRESS) →
  reap_cells c b cells g = (kept, g') →
  seq_calls g' = seq_calls g.
Proof.
  induction cells as [|p cells IH]; intros g kept g' Hst Hrun; simpl in Hrun.
  { by injection Hrun as _ <-. }
  assert (Hrest : ∀ q i, q ∈ cells →
            gt_transactions_array (GTMTransactions g) !! q = Some i →
            gti_state i ≠ GTM_TXN_ABORT_IN_PROGRESS ∧
            gti_state i ≠ GTM_TXN_COMMIT_IN_PROGRESS).
  { intros q i Hq. apply Hst. apply elem_of_cons. by right. }
  destruct (_ !! p) as [i|] eqn:Hi.
  - destruct (reap_matches c b i).
    + assert (Hst1 : ∀ q j, q ∈ cells →
                gt_transactions_array
                  (GTMTransactions
                     (GTM_TransactionInfo_Clean p (update_latestCompletedXid i g))) !! q
                = Some j →
                gti_state j ≠ GTM_TXN_ABORT_IN_PROGRESS ∧
                gti_state j ≠ GTM_TXN_COMMIT_IN_PROGRESS).
      { intros q j Hq. rewrite array_clean, array_update_latest.
        destruct (decide (p = q)) as [<-|]; [|by apply Hrest].
        rewrite Hi. intros [= <-]. done. }
      rewrite (IH _ _ _ Hst1 Hrun).
      rewrite (seq_calls_clean _ _ i) by (by rewrite array_update_latest).
      rewrite seq_calls_update_latest. unfold clean_seq_calls.
      destruct (Hst p i) as [Ha Hc]; [apply elem_of_cons; by left|done|].
      rewrite !decide_False by done. by rewrite app_nil_r.
    + destruct (reap_cells c b cells g) as [kept0 g0] eqn:Hrec.
      injection Hrun as _ <-. by apply (IH _ _ _ Hrest Hrec).
  - destruct (reap_cells c b cells g) as [kept0 g0] eqn:Hrec.
    injection Hrun as _ <-. by apply (IH _ _ _ Hrest Hrec).
Qed.

(** X22. The reaper makes no call to the sequence module. It cleans a
    slot without marking it as aborting first, so for the transactions
    of a client that has gone (none of them in the middle of a commit
    or of a rollback) the sequences they created, dropped or altered
    are neither removed nor restored, while the lists that tracked them
    are emptied with the slot. *)
Theorem GTM_RemoveAllTransInfos_no_sequence_call (client_id backend_id : Z)
    (g : GTM_Globals) :
  let t := GTMTransactions g in
  let g' := GTM_RemoveAllTransInfos client_id backend_id g in
  table_wf t →
  (∀ p i, p ∈ gt_open_transactions t → txninfo_at t p = Some i →
          gti_state i ≠ GTM_TXN_ABORT_IN_PROGRESS ∧
          gti_state i ≠ GTM_TXN_COMMIT_IN_PROGRESS) →
  seq_calls g' = seq_calls g ∧
  ∀ p i, p ∈ gt_open_transactions t → txninfo_at t p = Some i →
         reap_target client_id backend_id i →
         (p ∉ gt_open_transactions (GTMTransactions g')) ∧
         ∃ j, txninfo_at (GTMTransactions g') p = Some j ∧
              gti_created_seqs j = [] ∧ gti_dropped_seqs j = [] ∧
              gti_altered_seqs j = [].
Proof.
  intros t g' Hwf Hst. unfold g', GTM_RemoveAllTransInfos.
  destruct (reap_cells client_id backend_id (gt_open_transactions (GTMTransactions g)) g)
    as [kept g1] eqn:Hrec.
  split.
  { simpl. by apply (reap_cells_seq_calls _ _ _ _ _ _ Hst Hrec). }
  intros p i Hp Hi Htarget.
  destruct (reap_cells_spec _ _ _ _ _ _ (wf_nodup _ Hwf) Hrec) as (-> & Harr & _).
  fold t in Harr.
  destruct (wf_open _ Hwf p Hp) as (i' & Hi' & Hu & _).
  assert (i' = i) as -> by congruence.
  assert (Hm : reap_matches_at client_id backend_id (gt_transactions_array t) p = true).
  { unfold reap_matches_at. unfold txninfo_at in Hi. rewrite Hi.
    by apply reap_matches_spec. }
  split.
  - simpl. unfold reap_survivors. intros [Hf _]%list_elem_of_filter.
    unfold t in Hm. rewrite Hm in Hf. done.
  - exists (cleaned i). split; [|done]. unfold txninfo_at. simpl. rewrite Harr.
    rewrite decide_True.
    + unfold txninfo_at in Hi. rewrite Hi. done.
    + unfold reap_targets. apply list_elem_of_filter. done.
Qed.

End Reaper.

(** The client of a transaction that has created sequence 42 goes
    away: the transaction is removed and the sequence module is not
    called, where a rollback would have asked it to remove the
    sequence. *)
Lemma GTM_RemoveAllTransInfos_no_sequence_call_witness :
  table_wf (cfg := small) (GTMTransactions tracked_S1) ∧
  (∀ p i, p ∈ gt_open_transactions (GTMTransactions tracked_S1) →
          txninfo_at (GTMTransactions tracked_S1) p = Some i →
          gti_state i ≠ GTM_TXN_ABORT_IN_PROGRESS ∧
          gti_state i ≠ GTM_TXN_COMMIT_IN_PROGRESS) ∧
  seq_calls (GTM_RemoveAllTransInfos 7 (-1) tracked_S1) = [] ∧
  gt_open_transactions (GTMTransactions (GTM_RemoveAllTransInfos 7 (-1) tracked_S1)) = [] ∧
  (∃ g', GTM_RollbackTransaction (cfg := small) 0 tracked_S1 = Returned STATUS_OK g' ∧
         seq_calls g' = [GTM_SeqRemoveCreated 42]).
Proof.
  assert (Hwf : table_wf (cfg := small) (GTMTransactions tracked_S1)).
  { assert (Heq : tracked_S1
              = store_txninfo 0 (λ i, set_gti_created_seqs (gti_created_seqs i ++ [42]) i)
                  (run_small [begin_on "S1"; ReqGetGXID false [0]])).
    { vm_compute. reflexivity. }
    rewrite Heq. apply (table_wf_store (cfg := small)); [done|].
    apply table_wf_run_small. vm_compute. reflexivity. }
  assert (Hst : ∀ p i, p ∈ gt_open_transactions (GTMTransactions tracked_S1) →
            txninfo_at (GTMTransactions tracked_S1) p = Some i →
            gti_state i ≠ GTM_TXN_ABORT_IN_PROGRESS ∧
            gti_state i ≠ GTM_TXN_COMMIT_IN_PROGRESS).
  { intros p i Hp Hi.
    assert (Hopen : gt_open_transactions (GTMTransactions tracked_S1) = [0%nat])
      by (vm_compute; reflexivity).
    rewrite Hopen in Hp. apply list_elem_of_singleton in Hp as ->.
    vm_compute in Hi. injection Hi as <-. split; discriminate. }
  split; [exact Hwf|]. split; [exact Hst|].
  split.
  { rewrite (proj1 (GTM_RemoveAllTransInfos_no_sequence_call (cfg := small) 7 (-1)
                      tracked_S1 Hwf Hst)).
    vm_compute. reflexivity. }
  split; [vm_compute; reflexivity|].
  eexists. split; vm_compute; reflexivity.
Defined.

(** ** Batches of rollbacks *)

Section RollbackBatch.
Context `{cfg : GTM_Config}.

Implicit Types (g : GTM_Globals) (t : GTM_Transactions) (p q : nat)
  (i j : GTM_TransactionInfo).

(** The marking loop of a rollback: one status and one pointer per
    handle. *)
Lemma rollback_loop_marks txn : ∀ g ptrs st,
  Forall (λ h, GTM_HandleToTransactionInfo (GTMTransactions g) h ≠ TxnOutOfBounds) txn →
  ∃ ptrs' st' g1,
    rollback_loop txn g ptrs st = Returned (ptrs ++ ptrs', st ++ st') g1 ∧
    length st' = length txn ∧
    ∀ k h, txn !! k = Some h →
      match GTM_HandleToTransactionInfo (GTMTransactions g) h with
      | TxnPtr p => st' !! k = Some STATUS_OK ∧ Some p ∈ ptrs'
      | _ => st' !! k = Some STATUS_ERROR
      end.
Proof.
  induction txn as [|h txn IH]; intros g ptrs st Hb; simpl.
  { exists [], [], g. rewrite !app_nil_r. split; [done|]. split; [done|].
    intros k h Hk. done. }
  apply Forall_cons in Hb as [Hh Hb].
  destruct (GTM_HandleToTransactionInfo (GTMTransactions g) h) as [|p|] eqn:Hl; [| |done].
  - destruct (IH g (ptrs ++ [None]) (st ++ [STATUS_ERROR]) Hb)
      as (ptrs' & st' & g1 & -> & Hlen & Hst).
    exists (None :: ptrs'), (STATUS_ERROR :: st'), g1. rewrite <- !app_assoc.
    split; [done|]. split; [simpl; lia|].
    intros [|k] h'; simpl.
    + intros [= <-]. rewrite Hl. done.
    + intros Hk. specialize (Hst k h' Hk).
      destruct (GTM_HandleToTransactionInfo _ h'); [done| |done].
      destruct Hst as [? ?]. split; [done|]. apply elem_of_cons. by right.
  - set (g2 := store_txninfo p (set_gti_state GTM_TXN_ABORT_IN_PROGRESS) g).
    assert (Hb2 : Forall (λ h, GTM_HandleToTransactionInfo (GTMTransactions g2) h
                               ≠ TxnOutOfBounds) txn).
    { eapply Forall_impl; [exact Hb|]. intros h' Hh'. subst g2.
      rewrite GTM_HandleToTransactionInfo_set_state. done. }
    destruct (IH g2 (ptrs ++ [Some p]) (st ++ [STATUS_OK]) Hb2)
      as (ptrs' & st' & g1 & -> & Hlen & Hst).
    exists (Some p :: ptrs'), (STATUS_OK :: st'), g1. rewrite <- !app_assoc.
    split; [done|]. split; [simpl; lia|].
    intros [|k] h'; simpl.
    + intros [= <-]. rewrite Hl. split; [done|]. apply elem_of_cons. by left.
    + intros Hk. specialize (Hst k h' Hk). subst g2.
      rewrite GTM_HandleToTransactionInfo_set_state in Hst.
      destruct (GTM_HandleToTransactionInfo _ h'); [done| |done].
      destruct Hst as [? ?]. split; [done|]. apply elem_of_cons. by right.
Qed.

(** A slot of the batch is not in the list after the removal pass. *)
Lemma RemoveTransInfoMulti_unlinks ptrs : ∀ g,
  NoDup (gt_open_transactions (GTMTransactions g)) →
  NoDup (gt_open_transactions (GTMTransactions (GTM_RemoveTransInfoMulti ptrs g))) ∧
  (∀ q, q ∈ gt_open_transactions (GTMTransactions (GTM_RemoveTransInfoMulti ptrs g)) →
        q ∈ gt_open_transactions (GTMTransactions g)) ∧
  (∀ p, Some p ∈ ptrs →
        p ∉ gt_open_transactions (GTMTransactions (GTM_RemoveTransInfoMulti ptrs g))).
Proof.
  induction ptrs as [|[p0|] ptrs IH]; intros g Hnd; simpl.
  - split; [done|]. split; [done|]. intros p Hp. by apply elem_of_nil in Hp.
  - assert (Hnd1 : NoDup (gt_open_transactions (GTMTransactions (remove_one p0 g)))).
    { rewrite open_remove_one. by apply NoDup_gtm_list_delete. }
    destruct (IH _ Hnd1) as (Hnd' & Hsub & Hout).
    split; [done|]. split.
    + intros q Hq%Hsub. rewrite open_remove_one in Hq.
      apply elem_of_gtm_list_delete in Hq; [|done]. tauto.
    + intros p [[= ->]|Hp]%elem_of_cons; [|auto].
      intros Hq%Hsub. rewrite open_remove_one in Hq.
      apply elem_of_gtm_list_delete in Hq; [|done]. tauto.
  - destruct (IH _ Hnd) as (Hnd' & Hsub & Hout).
    split; [done|]. split; [done|].
    intros p [[=]|Hp]%elem_of_cons. auto.
Qed.

(** X23. A rollback of a batch of handles (none of them
    [GTM_MAX_GLOBAL_TRANSACTIONS]) on a table that satisfies the
    invariant returns one status per handle: [STATUS_OK] for a handle
    that designates a slot in use, also when the batch names it twice,
    and [STATUS_ERROR] for a handle that designates none. Afterwards
    the transactions of the batch are out of the list of open
    transactions and their handles designate nothing, no transaction
    has been added to the list, and the invariant holds. *)
Theorem GTM_RollbackTransactionMulti_batch (txn : list GTM_TransactionHandle)
    (g : GTM_Globals) :
  let t := GTMTransactions g in
  table_inv t →
  Forall (λ h, h ≠ GTM_MAX_GLOBAL_TRANSACTIONS) txn →
  ∃ status g',
    GTM_RollbackTransactionMulti txn g = Returned status g' ∧
    let t' := GTMTransactions g' in
    length status = length txn ∧
    (∀ k h i, txn !! k = Some h → valid_handle t h i →
       status !! k = Some STATUS_OK ∧
       (Z.to_nat h ∉ gt_open_transactions t') ∧
       GTM_HandleToTransactionInfo t' h = TxnNull) ∧
    (∀ k h, txn !! k = Some h → GTM_HandleToTransactionInfo t h = TxnNull →
       status !! k = Some STATUS_ERROR) ∧
    (∀ q, q ∈ gt_open_transactions t' → q ∈ gt_open_transactions t) ∧
    table_inv t'.
Proof.
  intros t Hinv Htxn.
  assert (Hb : Forall (λ h, GTM_HandleToTransactionInfo t h ≠ TxnOutOfBounds) txn).
  { eapply Forall_impl; [exact Htxn|]. intros h Hh.
    apply GTM_HandleToTransactionInfo_in_bounds; [apply Hinv|done]. }
  destruct (rollback_loop_marks txn g [] [] Hb) as (ptrs & st & g1 & Hloop & Hlen & Hst).
  simpl in Hloop.
  pose proof (leaves_rollback_loop txn g [] [] Hinv) as Hinv1. rewrite Hloop in Hinv1.
  simpl in Hinv1.
  destruct (rollback_loop_frame _ _ _ _ _ _ _ Hloop) as (_ & Ho1 & _).
  assert (Hinv' : table_inv (GTMTransactions (GTM_RemoveTransInfoMulti ptrs g1))).
  { by apply table_inv_RemoveTransInfoMulti. }
  destruct (RemoveTransInfoMulti_unlinks ptrs g1) as (_ & Hsub & Hout).
  { destruct Hinv1 as [[_ _ Hnd _ _] _]. done. }
  exists st, (GTM_RemoveTransInfoMulti ptrs g1). split.
  { unfold GTM_RollbackTransactionMulti. rewrite Hloop. done. }
  cbv zeta. split; [done|]. split; [|split; [|split; [|done]]].
  - intros k h i Hk Hv. specialize (Hst k h Hk). fold t in Hst.
    rewrite (valid_handle_ptr _ _ _ Hv) in Hst. destruct Hst as [Hs Hin].
    split; [done|]. pose proof (Hout _ Hin) as Hgone. split; [done|].
    apply GTM_HandleToTransactionInfo_null. right. right.
    destruct Hv as (Hh & Hi & Hu). split; [lia|].
    destruct Hinv' as [Hwf' _].
    destruct (lookup_lt_is_Some_2
                (gt_transactions_array (GTMTransactions (GTM_RemoveTransInfoMulti ptrs g1)))
                (Z.to_nat h)) as [j Hj].
    { pose proof (wf_length _ Hwf'). lia. }
    exists j. split; [done|]. destruct (gti_in_use j) eqn:Huj; [|done].
    exfalso. apply Hgone. by apply (wf_in_use _ Hwf' _ j).
  - intros k h Hk Hnull. specialize (Hst k h Hk). fold t in Hst.
    rewrite Hnull in Hst. done.
  - intros q Hq%Hsub. rewrite Ho1 in Hq. done.
Qed.

End RollbackBatch.

(** Three transactions are open; the batch names the first, a handle
    that is not in use, and the third: the statuses are OK, error, OK
    and the second transaction alone stays open. *)
Lemma GTM_RollbackTransactionMulti_batch_witness :
  table_inv (cfg := small)
    (GTMTransactions (run_small [begin_on "S1"; begin_on "S2"; begin_on "S3"])) ∧
  Forall (λ h, h ≠ GTM_MAX_GLOBAL_TRANSACTIONS (GTM_Config := small)) [0; 3; 2] ∧
  ∃ g', GTM_RollbackTransactionMulti (cfg := small) [0; 3; 2]
          (run_small [begin_on "S1"; begin_on "S2"; begin_on "S3"])
        = Returned [STATUS_OK; STATUS_ERROR; STATUS_OK] g' ∧
        gt_open_transactions (GTMTransactions g') = [1%nat].
Proof.
  assert (Hinv : table_inv (cfg := small)
    (GTMTransactions (run_small [begin_on "S1"; begin_on "S2"; begin_on "S3"]))).
  { apply (reachable_table_inv (cfg := small)); [done|].
    apply reachable_run_small. vm_compute. reflexivity. }
  assert (Htxn : Forall (λ h, h ≠ GTM_MAX_GLOBAL_TRANSACTIONS (GTM_Config := small))
                   [0; 3; 2]).
  { repeat constructor; cbn; lia. }
  split; [exact Hinv|]. split; [exact Htxn|].
  destruct (GTM_RollbackTransactionMulti_batch (cfg := small) [0; 3; 2] _ Hinv Htxn)
    as (status & g' & Hret & _).
  assert (Hrun : ∃ g1,
    GTM_RollbackTransactionMulti (cfg := small) [0; 3; 2]
      (run_small [begin_on "S1"; begin_on "S2"; begin_on "S3"])
    = Returned [STATUS_OK; STATUS_ERROR; STATUS_OK] g1 ∧
    gt_open_transactions (GTMTransactions g1) = [1%nat]).
  { eexists. split; vm_compute; reflexivity. }
  destruct Hrun as (g1 & Hrun & Hopen).
  rewrite Hrun in Hret. injection Hret as <- <-.
  exists g1. split; [exact Hrun|exact Hopen].
Defined.
